(** * Culinara: the Gemini service and its response parsers

    A shallow embedding of [Culinara/Services/GeminiService.swift] and of the
    SwiftData models it fills in ([Recipe], [Ingredient], [Instruction],
    [Nutrition], [Substitution]), followed by the properties of the prompt
    builders, the transport guard and the response parsers.

    Conventions of the embedding.
    - A Swift [String] is a Rocq [string] holding its UTF-8 bytes, so that
      [text.data(using: .utf8)] is the identity and never yields [nil].
    - A Swift [Int] is a [Z] in the 64-bit signed range; [+] traps outside
      of it, which [Int_add] renders as [None].
    - A Swift [Double] is a binary64 [float].
    - A function that [throws] returns [Throws A]; an [async throws] method
      of the service is a state transformer over [World], whose log of
      sent requests makes "no network request" observable.
    - What Foundation provides and the source only calls (the JSON decoder
      and encoder, the URL parser, the URL session, the printing of a
      [Double]) is the interface [Foundation]; every definition and theorem
      is parametric in it. *)

From Stdlib Require Import ZArith Floats Strings.String Strings.Ascii.
From Stdlib Require Import Numbers.DecimalString.
From Stdlib Require Numbers.DecimalPos Numbers.DecimalZ.
From stdpp Require Import base option list gmap strings.

Local Open Scope string_scope.

(** ** Foundation values *)

(** An [NSNumber] as [JSONSerialization] hands it back, seen through the two
    conditional casts the source applies to it: [toInteger] is its value
    when that is an integer ([as? Int] further needs it to fit an [Int]),
    [toDouble] is the [Double] that [as? Double] yields, if any. *)
Record Number := mkNumber {
  toInteger : option Z;
  toDouble : option float
}.

(** The object graph of [JSONSerialization.jsonObject]: [NSNull], [NSString],
    [NSNumber] (JSON numbers and booleans), [NSArray] and [NSDictionary]
    with [String] keys. *)
#[warnings="-register-all"]
Inductive Any :=
| NSNull
| NSString (s : string)
| NSNumber (n : Number)
| NSArray (items : list Any)
| NSDictionary (entries : gmap string Any).

Definition Data := string.

Definition Int_min : Z := (- 2 ^ 63)%Z.
Definition Int_max : Z := (2 ^ 63 - 1)%Z.

Definition Int_fits (z : Z) : bool := ((Int_min <=? z) && (z <=? Int_max))%Z.

(** [a + b] on [Int]: the sum, or [None] where Swift traps on overflow. *)
Definition Int_add (a b : Z) : option Z :=
  if Int_fits (a + b) then Some (a + b)%Z else None.

(** String interpolation of an [Int]. *)
Definition Int_description (z : Z) : string :=
  NilEmpty.string_of_int (Z.to_int z).

(** *** Conditional casts, applied to the result of a dictionary subscript *)

(** [dict[key] as? String] *)
Definition as_String (v : option Any) : option string :=
  match v with
  | Some (NSString s) => Some s
  | _ => None
  end.

(** [dict[key] as? Int] *)
Definition as_Int (v : option Any) : option Z :=
  match v with
  | Some (NSNumber n) =>
      match toInteger n with
      | Some z => if Int_fits z then Some z else None
      | None => None
      end
  | _ => None
  end.

(** [dict[key] as? Double] *)
Definition as_Double (v : option Any) : option float :=
  match v with
  | Some (NSNumber n) => toDouble n
  | _ => None
  end.

(** [value as? [String: Any]] *)
Definition as_Dictionary (v : option Any) : option (gmap string Any) :=
  match v with
  | Some (NSDictionary d) => Some d
  | _ => None
  end.

(** [value as? [[String: Any]]]: an array all of whose elements are
    dictionaries; one element of another kind makes the whole cast fail. *)
Definition as_DictionaryArray (v : option Any) : option (list (gmap string Any)) :=
  match v with
  | Some (NSArray items) => mapM (fun item => as_Dictionary (Some item)) items
  | _ => None
  end.

(** The [NSNumber] that [JSONSerialization] yields for the literals [true]
    and [false]: [as? Int] makes 1 and 0 of it, [as? Double] 1.0 and 0.0. *)
Definition NSNumber_bool (value : bool) : Any :=
  NSNumber {| toInteger := Some (if value then 1 else 0)%Z;
              toDouble := Some (if value then 1 else 0)%float |}.

(** [optional ?? fallback] *)
Definition orDefault {A} (o : option A) (fallback : A) : A :=
  match o with
  | Some a => a
  | None => fallback
  end.

Infix "??" := orDefault (at level 45, left associativity).

(** ** Errors *)

Inductive GeminiError :=
| missingAPIKey
| invalidURL
| invalidResponse
| httpError (statusCode : Z)
| parsingError.

Definition errorDescription (e : GeminiError) : option string :=
  match e with
  | missingAPIKey => Some "Please add your Gemini API key in Settings"
  | invalidURL => Some "Invalid API URL"
  | invalidResponse => Some "Invalid response from API"
  | httpError code => Some ("HTTP Error: " +:+ Int_description code)
  | parsingError => Some "Failed to parse response"
  end.

(** An error raised by Foundation itself. *)
Record NSError := mkNSError {
  domain : string;
  code : Z
}.

(** What a [throws] function of the service can throw: one of its own
    errors, or an error of a Foundation call marked [try], which propagates
    unchanged. *)
Inductive Error :=
| Gemini (e : GeminiError)
| Cocoa (e : NSError).

Definition Throws (A : Type) : Type := Error + A.

Definition throw {A} (e : GeminiError) : Throws A := inl (Gemini e).
Definition rethrow {A} (e : NSError) : Throws A := inl (Cocoa e).
Definition returns {A} (a : A) : Throws A := inr a.

(** ** Models *)

Inductive Difficulty := easy | medium | hard.

Definition Difficulty_rawValue (d : Difficulty) : string :=
  match d with
  | easy => "Easy"
  | medium => "Medium"
  | hard => "Hard"
  end.

Inductive SourceType := original | aiGenerated | imported | ocr.

Inductive MealType := breakfast | lunch | dinner | dessert | snack.

Definition MealType_rawValue (m : MealType) : string :=
  match m with
  | breakfast => "Breakfast"
  | lunch => "Lunch"
  | dinner => "Dinner"
  | dessert => "Dessert"
  | snack => "Snack"
  end.

Definition MealType_allCases : list MealType :=
  [breakfast; lunch; dinner; dessert; snack].

Record Ingredient := mkIngredient {
  item : string;
  quantity : option float;
  unit : option string;
  section : option string;
  isChecked : bool
}.

Definition Ingredient_init (item : string) (quantity : option float)
    (unit section : option string) : Ingredient :=
  {| item := item; quantity := quantity; unit := unit; section := section;
     isChecked := false |}.

Record Instruction := mkInstruction {
  stepNumber : Z;
  instruction : string;
  timeMinutes : option Z;
  tip : option string
}.

Definition Instruction_init (stepNumber : Z) (instruction : string)
    (timeMinutes : option Z) (tip : option string) : Instruction :=
  {| stepNumber := stepNumber; instruction := instruction;
     timeMinutes := timeMinutes; tip := tip |}.

Record Nutrition := mkNutrition {
  calories : Z;
  proteinG : float;
  carbsG : float;
  fatG : float;
  fiberG : option float;
  sugarG : option float;
  sodiumMg : option float
}.

Definition Nutrition_init (calories : Z) (proteinG carbsG fatG : float) : Nutrition :=
  {| calories := calories; proteinG := proteinG; carbsG := carbsG; fatG := fatG;
     fiberG := None; sugarG := None; sodiumMg := None |}.

(** The [Recipe] aggregate.  The system-drawn fields ([id], [createdAt],
    [updatedAt]), the image and the tags are not read by the service and are
    left out. *)
Record Recipe := mkRecipe {
  title : string;
  recipeDescription : option string;
  cookTime : Z;
  prepTime : Z;
  servings : Z;
  difficulty : Difficulty;
  cuisine : option string;
  mealType : option MealType;
  sourceType : SourceType;
  sourceURL : option string;
  ingredients : list Ingredient;
  instructions : list Instruction;
  nutrition : option Nutrition
}.

Definition Recipe_init (title : string) (description : option string)
    (cookTime prepTime servings : Z) (difficulty : Difficulty)
    (cuisine : option string) (mealType : option MealType)
    (sourceType : SourceType) (sourceURL : option string) : Recipe :=
  {| title := title; recipeDescription := description; cookTime := cookTime;
     prepTime := prepTime; servings := servings; difficulty := difficulty;
     cuisine := cuisine; mealType := mealType; sourceType := sourceType;
     sourceURL := sourceURL; ingredients := []; instructions := [];
     nutrition := None |}.

(** [recipe.totalTime], a computed property: [prepTime + cookTime]. *)
Definition totalTime (recipe : Recipe) : option Z :=
  Int_add (prepTime recipe) (cookTime recipe).

(** [recipe.ingredients.append(ingredient)] *)
Definition append_ingredient (recipe : Recipe) (ingredient : Ingredient) : Recipe :=
  {| title := title recipe; recipeDescription := recipeDescription recipe;
     cookTime := cookTime recipe; prepTime := prepTime recipe;
     servings := servings recipe; difficulty := difficulty recipe;
     cuisine := cuisine recipe; mealType := mealType recipe;
     sourceType := sourceType recipe; sourceURL := sourceURL recipe;
     ingredients := ingredients recipe ++ [ingredient];
     instructions := instructions recipe; nutrition := nutrition recipe |}.

(** [recipe.instructions.append(instruction)] *)
Definition append_instruction (recipe : Recipe) (step : Instruction) : Recipe :=
  {| title := title recipe; recipeDescription := recipeDescription recipe;
     cookTime := cookTime recipe; prepTime := prepTime recipe;
     servings := servings recipe; difficulty := difficulty recipe;
     cuisine := cuisine recipe; mealType := mealType recipe;
     sourceType := sourceType recipe; sourceURL := sourceURL recipe;
     ingredients := ingredients recipe;
     instructions := instructions recipe ++ [step]; nutrition := nutrition recipe |}.

(** [recipe.nutrition = nutrition] *)
Definition set_nutrition (recipe : Recipe) (facts : Nutrition) : Recipe :=
  {| title := title recipe; recipeDescription := recipeDescription recipe;
     cookTime := cookTime recipe; prepTime := prepTime recipe;
     servings := servings recipe; difficulty := difficulty recipe;
     cuisine := cuisine recipe; mealType := mealType recipe;
     sourceType := sourceType recipe; sourceURL := sourceURL recipe;
     ingredients := ingredients recipe;
     instructions := instructions recipe; nutrition := Some facts |}.

Inductive SubstitutionCategory := vegan | kosher | allergy | preference | availability.

Definition SubstitutionCategory_rawValue (c : SubstitutionCategory) : string :=
  match c with
  | vegan => "Vegan"
  | kosher => "Kosher"
  | allergy => "Allergy"
  | preference => "Preference"
  | availability => "Availability"
  end.

(** [SubstitutionCategory(rawValue:)], the failable initialiser that Swift
    derives for a [String]-backed enum.  It compares the bytes of the two
    texts, which is Swift's [==] when the argument is ASCII text. *)
Definition SubstitutionCategory_init (rawValue : string) : option SubstitutionCategory :=
  List.find (fun c => String.eqb (SubstitutionCategory_rawValue c) rawValue)
    [vegan; kosher; allergy; preference; availability].

Record Substitution := mkSubstitution {
  sub_original : string;
  alternative : string;
  reason : string;
  category : SubstitutionCategory
}.

Inductive Role := user | assistant.

Record ChatMessage := mkChatMessage {
  role : Role;
  content : string
}.

(** ** Strings *)

Definition newline : string := String "010" EmptyString.

(** [s] between two double quotes. *)
Definition quoted (s : string) : string :=
  String "034" (s +:+ String "034" EmptyString).

(** [parts.joined(separator:)] *)
Fixpoint joined (separator : string) (parts : list string) : string :=
  match parts with
  | [] => ""
  | [part] => part
  | part :: rest => part +:+ separator +:+ joined separator rest
  end.

(** The lines of a multi-line string literal, after the indentation of its
    closing delimiter has been stripped. *)
Definition multiline (lines : list string) : string := joined newline lines.

Definition lowercased_ascii (c : ascii) : ascii :=
  let n := nat_of_ascii c in
  if ((65 <=? n) && (n <=? 90))%nat then ascii_of_nat (n + 32) else c.

(** [s.lowercased()], on the ASCII letters: it is Swift's on ASCII text
    only. *)
Fixpoint lowercased (s : string) : string :=
  match s with
  | EmptyString => EmptyString
  | String c rest => String (lowercased_ascii c) (lowercased rest)
  end.

Definition is_whitespace (c : ascii) : bool :=
  let n := nat_of_ascii c in ((n =? 32) || (n =? 9))%nat.

Fixpoint dropLeadingWhitespace (s : string) : string :=
  match s with
  | EmptyString => EmptyString
  | String c rest => if is_whitespace c then dropLeadingWhitespace rest else s
  end.

Fixpoint dropTrailingWhitespace (s : string) : string :=
  match s with
  | EmptyString => EmptyString
  | String c rest =>
      match dropTrailingWhitespace rest with
      | EmptyString => if is_whitespace c then EmptyString else String c EmptyString
      | kept => String c kept
      end
  end.

(** [s.trimmingCharacters(in: .whitespaces)], on the space and the tab: it
    is Foundation's on ASCII text only. *)
Definition trimmingWhitespaces (s : string) : string :=
  dropTrailingWhitespace (dropLeadingWhitespace s).

(** [needle] occurs in [haystack] as a contiguous substring. *)
Definition contains (haystack needle : string) : Prop :=
  exists before after, haystack = before +:+ needle +:+ after.

(** *** A matcher for the label of the cuisine requirement

    The label starts with its only capital C, so a failed match can resume
    only at a C that was just read. [cuisineStep progress c] is the number
    of characters of the label matched once [c] has been read after
    [progress] of them; a complete match is kept to the end of the text. *)
Definition cuisineLabel : string := "Cuisine:".

Definition cuisineStep (progress : nat) (c : ascii) : nat :=
  match String.get progress cuisineLabel with
  | None => progress
  | Some expected =>
      if Ascii.eqb c expected then S progress
      else if Ascii.eqb c "C" then 1
      else 0
  end.

Fixpoint cuisineScan (progress : nat) (text : string) : nat :=
  match text with
  | EmptyString => progress
  | String c rest => cuisineScan (cuisineStep progress c) rest
  end.

(** What [progress] says about the text read so far. *)
Definition seenSoFar (progress : nat) (seen : string) : Prop :=
  if (progress =? 8)%nat then contains seen cuisineLabel
  else exists before, seen = before +:+ String.substring 0 progress cuisineLabel.

(** ** The Foundation interface *)

Record URLRequest := mkURLRequest {
  url : string;
  httpMethod : string;
  httpHeaderFields : list (string * string);
  httpBody : option Data
}.

(** A [URLResponse]; [response as? HTTPURLResponse] succeeds on the first
    constructor only. *)
Inductive URLResponse :=
| HTTPURLResponse (statusCode : Z)
| OtherURLResponse.

Class Foundation := {
  (** [JSONSerialization.jsonObject(with:)] *)
  JSONSerialization_jsonObject : Data -> NSError + Any;
  (** [JSONSerialization.data(withJSONObject:)] *)
  JSONSerialization_data : Any -> NSError + Data;
  (** [URL(string:)] *)
  URL_init : string -> option string;
  (** [URLSession.shared.data(for:)] *)
  URLSession_data : URLRequest -> NSError + (Data * URLResponse);
  (** String interpolation of a [Double]. *)
  Double_description : float -> string
}.

(** What the service reads and what it leaves behind: the string entries of
    [UserDefaults.standard], and the requests handed to the URL session,
    oldest first. *)
Record World := mkWorld {
  userDefaults : gmap string string;
  sentRequests : list URLRequest
}.

Definition Async (A : Type) : Type := World -> Throws A * World.

Definition Async_bind {A B} (task : Async A) (next : A -> Async B) : Async B :=
  fun w =>
    match task w with
    | (inl e, w') => (inl e, w')
    | (inr a, w') => next a w'
    end.

Definition try_ {A} (result : Throws A) : Async A := fun w => (result, w).

Notation "'let!' x ':=' task 'in' next" := (Async_bind task (fun x => next))
  (at level 10, x name, task at level 100, next at level 200).

(** [text.data(using: .utf8)] *)
Definition data_using_utf8 (text : string) : option Data := Some text.

(** [instructions.sorted(by: { $0.stepNumber < $1.stepNumber })] *)
Fixpoint insertByStepNumber (step : Instruction) (sorted : list Instruction)
    : list Instruction :=
  match sorted with
  | [] => [step]
  | first :: rest =>
      if (stepNumber first <? stepNumber step)%Z
      then first :: insertByStepNumber step rest
      else step :: sorted
  end.

Definition sortedByStepNumber (steps : list Instruction) : list Instruction :=
  fold_right insertByStepNumber [] steps.

(** ** GeminiService *)

Section GeminiService.

Context `{Foundation}.

Definition baseURL : string := "https://generativelanguage.googleapis.com/v1beta".

(** [apiKey], read from the defaults at each use. *)
Definition apiKey (w : World) : string :=
  userDefaults w !! "apiKey" ?? "".

(** [ingredient.displayText] *)
Definition displayText (ingredient : Ingredient) : string :=
  let text := "" in
  let text :=
    match quantity ingredient with
    | Some quantity => text +:+ Double_description quantity +:+ " "
    | None => text
    end in
  let text :=
    match unit ingredient with
    | Some unit => text +:+ unit +:+ " "
    | None => text
    end in
  let text := text +:+ item ingredient in
  trimmingWhitespaces text.

(** *** Private methods *)

Definition requestBody (prompt : string) : Any :=
  NSDictionary (list_to_map [
    ("contents",
     NSArray [NSDictionary (list_to_map [
       ("parts", NSArray [NSDictionary (list_to_map [("text", NSString prompt)])])])]);
    ("generationConfig",
     NSDictionary (list_to_map [
       ("temperature",
        NSNumber {| toInteger := None; toDouble := Some 0x1.6666666666666p-1%float |});
       ("maxOutputTokens",
        NSNumber {| toInteger := Some 2048%Z; toDouble := Some 2048%float |})]))]).

Definition makeRequest (prompt model : string) : Async (gmap string Any) :=
  fun w =>
    let urlString :=
      baseURL +:+ "/models/" +:+ model +:+ ":generateContent?key=" +:+ apiKey w in
    match URL_init urlString with
    | None => (throw invalidURL, w)
    | Some url =>
        let body := requestBody prompt in
        match JSONSerialization_data body with
        | inl e => (rethrow e, w)
        | inr bodyData =>
            let request :=
              {| url := url; httpMethod := "POST";
                 httpHeaderFields := [("Content-Type", "application/json")];
                 httpBody := Some bodyData |} in
            let w' :=
              {| userDefaults := userDefaults w;
                 sentRequests := sentRequests w ++ [request] |} in
            match URLSession_data request with
            | inl e => (rethrow e, w')
            | inr (data, response) =>
                match response with
                | OtherURLResponse => (throw invalidResponse, w')
                | HTTPURLResponse statusCode =>
                    if (statusCode =? 200)%Z then
                      match JSONSerialization_jsonObject data with
                      | inl e => (rethrow e, w')
                      | inr object =>
                          match as_Dictionary (Some object) with
                          | None => (throw invalidResponse, w')
                          | Some json => (returns json, w')
                          end
                      end
                    else (throw (httpError statusCode), w')
                end
            end
        end
    end.

(** The chain of [guard let] of [extractTextFromResponse]: the text of the
    first part of the first candidate, when all of it is there. *)
Definition generatedText (json : gmap string Any) : option string :=
  candidates ← as_DictionaryArray (json !! "candidates");
  first ← head candidates;
  content ← as_Dictionary (first !! "content");
  parts ← as_DictionaryArray (content !! "parts");
  as_String (head parts ≫= fun part => part !! "text").

Definition extractTextFromResponse (json : gmap string Any) : string :=
  match generatedText json with
  | Some text => text
  | None => "Unable to generate response"
  end.

(** *** Prompt builders *)

Definition buildRecipeGenerationPrompt (ingredients : list string)
    (cuisine : option string) (difficulty : Difficulty) (targetCookTime : Z)
    : string :=
  multiline [
    "You are a professional chef. Generate a delicious recipe using these ingredients: "
      +:+ joined ", " ingredients +:+ ".";
    "";
    "Requirements:";
    match cuisine with
    | Some cuisine => "- Cuisine: " +:+ cuisine
    | None => ""
    end;
    "- Difficulty: " +:+ Difficulty_rawValue difficulty;
    "- Target cooking time: around " +:+ Int_description targetCookTime +:+ " minutes";
    "";
    "Return ONLY valid JSON with this exact structure (no markdown, no explanation):";
    "{";
    "  " +:+ quoted "title" +:+ ": " +:+ quoted "Recipe Name" +:+ ",";
    "  " +:+ quoted "description" +:+ ": "
      +:+ quoted "Brief 1-2 sentence description" +:+ ",";
    "  " +:+ quoted "cookTime" +:+ ": 30,";
    "  " +:+ quoted "prepTime" +:+ ": 15,";
    "  " +:+ quoted "servings" +:+ ": 4,";
    "  " +:+ quoted "cuisine" +:+ ": " +:+ quoted "cuisine type or null" +:+ ",";
    "  " +:+ quoted "mealType" +:+ ": "
      +:+ quoted "Breakfast, Lunch, Dinner, Dessert, or Snack" +:+ ",";
    "  " +:+ quoted "ingredients" +:+ ": [";
    "    {" +:+ quoted "item" +:+ ": " +:+ quoted "ingredient name" +:+ ", "
      +:+ quoted "quantity" +:+ ": 1.0, " +:+ quoted "unit" +:+ ": " +:+ quoted "cup"
      +:+ ", " +:+ quoted "section" +:+ ": " +:+ quoted "Main" +:+ "},";
    "    {" +:+ quoted "item" +:+ ": " +:+ quoted "ingredient name" +:+ ", "
      +:+ quoted "quantity" +:+ ": null, " +:+ quoted "unit" +:+ ": null, "
      +:+ quoted "section" +:+ ": null}";
    "  ],";
    "  " +:+ quoted "instructions" +:+ ": [";
    "    {" +:+ quoted "stepNumber" +:+ ": 1, " +:+ quoted "instruction" +:+ ": "
      +:+ quoted "detailed step" +:+ ", " +:+ quoted "timeMinutes" +:+ ": 5, "
      +:+ quoted "tip" +:+ ": " +:+ quoted "helpful tip or null" +:+ "}";
    "  ],";
    "  " +:+ quoted "nutrition" +:+ ": {";
    "    " +:+ quoted "calories" +:+ ": 400,";
    "    " +:+ quoted "proteinG" +:+ ": 25.0,";
    "    " +:+ quoted "carbsG" +:+ ": 30.0,";
    "    " +:+ quoted "fatG" +:+ ": 15.0";
    "  }";
    "}";
    "";
    "Make it creative and delicious!"
  ].

Definition buildRecipeContext (recipe : Recipe) : string :=
  multiline [
    "Title: " +:+ title recipe;
    recipeDescription recipe ?? "";
    "";
    "Ingredients:";
    joined newline (map (fun i => "- " +:+ displayText i) (ingredients recipe));
    "";
    "Instructions:";
    joined newline
      (map (fun s => Int_description (stepNumber s) +:+ ". " +:+ instruction s)
         (sortedByStepNumber (instructions recipe)))
  ].

Definition buildSubstitutionPrompt (ingredient : string) (constraints : list string)
    : string :=
  multiline [
    "Find 3-5 substitutions for: " +:+ ingredient;
    "";
    match constraints with
    | [] => ""
    | _ => "Dietary constraints: " +:+ joined ", " constraints
    end;
    "";
    "Return ONLY valid JSON array (no markdown, no explanation):";
    "[";
    "  {";
    "    " +:+ quoted "alternative" +:+ ": " +:+ quoted "substitute name" +:+ ",";
    "    " +:+ quoted "reason" +:+ ": "
      +:+ quoted "why this works (1-2 sentences)" +:+ ",";
    "    " +:+ quoted "category" +:+ ": "
      +:+ quoted "Vegan, Kosher, Allergy, Preference, or Availability";
    "  }";
    "]";
    "";
    "Focus on practical, accessible substitutes."
  ].

(** The prompt that [chatWithRecipe] assembles in place. *)
Definition chatPrompt (recipe : Recipe) (question : string)
    (history : list ChatMessage) : string :=
  let context := buildRecipeContext recipe in
  multiline [
    "Recipe Context:";
    context;
    "";
    "Previous conversation:";
    joined newline
      (map (fun m =>
              match role m with user => "User" | assistant => "Assistant" end
              +:+ ": " +:+ content m)
         history);
    "";
    "User Question: " +:+ question;
    "";
    "Please provide a helpful, concise answer about this recipe. Be practical and friendly."
  ].

(** *** Response parsers *)

Definition parseMealType (string : option string) : option MealType :=
  match string with
  | None => None
  | Some string =>
      List.find
        (fun m => String.eqb (lowercased (MealType_rawValue m)) (lowercased string))
        MealType_allCases
  end.

Definition parseSubstitutionCategory (string : option string) : SubstitutionCategory :=
  match string with
  | None => preference
  | Some string => SubstitutionCategory_init string ?? preference
  end.

(** [array.enumerated()] *)
Definition enumerated {A} (array : list A) : list (Z * A) :=
  imap (fun index element => (Z.of_nat index, element)) array.

(** The body of the loop over [ingredientsData]: the [Ingredient] built from
    one entry, and its [append] to the recipe. *)
Definition parsedIngredient (ingData : gmap string Any) : Ingredient :=
  Ingredient_init
    (as_String (ingData !! "item") ?? "")
    (as_Double (ingData !! "quantity"))
    (as_String (ingData !! "unit"))
    (as_String (ingData !! "section")).

Definition parseIngredient (recipe : Recipe) (ingData : gmap string Any) : Recipe :=
  let ingredient := parsedIngredient ingData in
  append_ingredient recipe ingredient.

(** The body of the loop over [instructionsData.enumerated()]. *)
Definition parsedInstruction (index : Z) (instData : gmap string Any) : Instruction :=
  Instruction_init
    (index + 1)
    (as_String (instData !! "instruction") ?? "")
    (as_Int (instData !! "timeMinutes"))
    (as_String (instData !! "tip")).

Definition parseInstruction (recipe : Recipe) (entry : Z * gmap string Any) : Recipe :=
  let '(index, instData) := entry in
  let step := parsedInstruction index instData in
  append_instruction recipe step.

Definition parseNutrition (nutritionData : gmap string Any) : Nutrition :=
  Nutrition_init
    (as_Int (nutritionData !! "calories") ?? 0%Z)
    (as_Double (nutritionData !! "proteinG") ?? 0%float)
    (as_Double (nutritionData !! "carbsG") ?? 0%float)
    (as_Double (nutritionData !! "fatG") ?? 0%float).

(** [parseRecipeResponse], from the decoded payload on. *)
Definition parseRecipe (recipeData : gmap string Any) : Recipe :=
  let recipe :=
    Recipe_init
      (as_String (recipeData !! "title") ?? "Untitled Recipe")
      (as_String (recipeData !! "description"))
      (as_Int (recipeData !! "cookTime") ?? 30%Z)
      (as_Int (recipeData !! "prepTime") ?? 15%Z)
      (as_Int (recipeData !! "servings") ?? 4%Z)
      medium
      (as_String (recipeData !! "cuisine"))
      (parseMealType (as_String (recipeData !! "mealType")))
      aiGenerated
      None in
  let recipe :=
    match as_DictionaryArray (recipeData !! "ingredients") with
    | Some ingredientsData => fold_left parseIngredient ingredientsData recipe
    | None => recipe
    end in
  let recipe :=
    match as_DictionaryArray (recipeData !! "instructions") with
    | Some instructionsData =>
        fold_left parseInstruction (enumerated instructionsData) recipe
    | None => recipe
    end in
  let recipe :=
    match as_Dictionary (recipeData !! "nutrition") with
    | Some nutritionData => set_nutrition recipe (parseNutrition nutritionData)
    | None => recipe
    end in
  recipe.

Definition parseRecipeResponse (json : gmap string Any) (ingredients : list string)
    : Throws Recipe :=
  let text := extractTextFromResponse json in
  match data_using_utf8 text with
  | None => throw parsingError
  | Some jsonData =>
      match JSONSerialization_jsonObject jsonData with
      | inl e => rethrow e
      | inr object =>
          match as_Dictionary (Some object) with
          | None => throw parsingError
          | Some recipeData => returns (parseRecipe recipeData)
          end
      end
  end.

Definition parseSubstitution (original : string) (data : gmap string Any)
    : Substitution :=
  {| sub_original := original;
     alternative := as_String (data !! "alternative") ?? "";
     reason := as_String (data !! "reason") ?? "";
     category := parseSubstitutionCategory (as_String (data !! "category")) |}.

Definition parseSubstitutionsResponse (json : gmap string Any) (original : string)
    : Throws (list Substitution) :=
  let text := extractTextFromResponse json in
  match data_using_utf8 text with
  | None => throw parsingError
  | Some jsonData =>
      match JSONSerialization_jsonObject jsonData with
      | inl e => rethrow e
      | inr object =>
          match as_DictionaryArray (Some object) with
          | None => throw parsingError
          | Some substitutionsData =>
              returns (map (parseSubstitution original) substitutionsData)
          end
      end
  end.

(** *** The three operations *)

Definition generateRecipe (ingredients : list string) (cuisine : option string)
    (difficulty : Difficulty) (targetCookTime : Z) : Async Recipe :=
  fun w =>
    if String.eqb (apiKey w) "" then (throw missingAPIKey, w)
    else
      let prompt :=
        buildRecipeGenerationPrompt ingredients cuisine difficulty targetCookTime in
      (let! response := makeRequest prompt "gemini-2.0-flash-exp" in
       let! recipe := try_ (parseRecipeResponse response ingredients) in
       try_ (returns recipe)) w.

Definition chatWithRecipe (recipe : Recipe) (question : string)
    (history : list ChatMessage) : Async string :=
  fun w =>
    if String.eqb (apiKey w) "" then (throw missingAPIKey, w)
    else
      let prompt := chatPrompt recipe question history in
      (let! response := makeRequest prompt "gemini-2.0-flash-exp" in
       try_ (returns (extractTextFromResponse response))) w.

Definition findSubstitutions (ingredient : string) (constraints : list string)
    : Async (list Substitution) :=
  fun w =>
    if String.eqb (apiKey w) "" then (throw missingAPIKey, w)
    else
      let prompt := buildSubstitutionPrompt ingredient constraints in
      (let! response := makeRequest prompt "gemini-2.0-flash-exp" in
       try_ (parseSubstitutionsResponse response ingredient)) w.

End GeminiService.

(** ** A canned Foundation for the examples

    One instance of the interface, on which the examples are evaluated: its
    decoder knows the few texts below and rejects every other text the way
    Foundation rejects a text that is not JSON; its URL session answers
    every request with status 200 and [Sample.httpBody]. *)

Module Sample.

(** The transport envelope around a generated [text]. *)
Definition envelopeOf (text : string) : gmap string Any :=
  {[ "candidates" :=
       NSArray [NSDictionary {[ "content" :=
         NSDictionary {[ "parts" :=
           NSArray [NSDictionary {[ "text" := NSString text ]}] ]} ]}] ]}.

Definition integer (z : Z) : Any :=
  NSNumber {| toInteger := Some z; toDouble := None |}.

(** [{"title":"Chicken Rice Bowl","cookTime":25,"prepTime":10,"servings":2,
     "ingredients":[{"item":"chicken breast"}],
     "instructions":[{"stepNumber":5,"instruction":"Cook chicken"}]}] *)
Definition bowlReply : string :=
  "{" +:+ quoted "title" +:+ ":" +:+ quoted "Chicken Rice Bowl" +:+ ","
  +:+ quoted "cookTime" +:+ ":25," +:+ quoted "prepTime" +:+ ":10,"
  +:+ quoted "servings" +:+ ":2,"
  +:+ quoted "ingredients" +:+ ":[{" +:+ quoted "item" +:+ ":"
  +:+ quoted "chicken breast" +:+ "}],"
  +:+ quoted "instructions" +:+ ":[{" +:+ quoted "stepNumber" +:+ ":5,"
  +:+ quoted "instruction" +:+ ":" +:+ quoted "Cook chicken" +:+ "}]}".

Definition bowlPayload : gmap string Any :=
  list_to_map [
    ("title", NSString "Chicken Rice Bowl");
    ("cookTime", integer 25);
    ("prepTime", integer 10);
    ("servings", integer 2);
    ("ingredients", NSArray [NSDictionary {[ "item" := NSString "chicken breast" ]}]);
    ("instructions",
     NSArray [NSDictionary (list_to_map [
       ("stepNumber", integer 5); ("instruction", NSString "Cook chicken")])])].

(** [{"difficulty":"Hard","servings":0,"cookTime":-5,"prepTime":-1,
     "ingredients":[{"item":"salt","quantity":"a pinch"}],
     "instructions":"Season to taste","nutrition":null}] *)
Definition carelessReply : string :=
  "{" +:+ quoted "difficulty" +:+ ":" +:+ quoted "Hard" +:+ ","
  +:+ quoted "servings" +:+ ":0," +:+ quoted "cookTime" +:+ ":-5,"
  +:+ quoted "prepTime" +:+ ":-1,"
  +:+ quoted "ingredients" +:+ ":[{" +:+ quoted "item" +:+ ":" +:+ quoted "salt"
  +:+ "," +:+ quoted "quantity" +:+ ":" +:+ quoted "a pinch" +:+ "}],"
  +:+ quoted "instructions" +:+ ":" +:+ quoted "Season to taste" +:+ ","
  +:+ quoted "nutrition" +:+ ":null}".

Definition carelessPayload : gmap string Any :=
  list_to_map [
    ("difficulty", NSString "Hard");
    ("servings", integer 0); ("cookTime", integer (-5)); ("prepTime", integer (-1));
    ("ingredients",
     NSArray [NSDictionary (list_to_map [
       ("item", NSString "salt"); ("quantity", NSString "a pinch")])]);
    ("instructions", NSString "Season to taste");
    ("nutrition", NSNull)].

(** A reply wrapped in a Markdown fence, which is not JSON. *)
Definition fencedReply : string :=
  multiline ["```json"; "[]"; "```"].

(** [[{"alternative":"Coconut cream","category":"Vegan"},{"reason":"Lighter"}]] *)
Definition creamReply : string :=
  "[{" +:+ quoted "alternative" +:+ ":" +:+ quoted "Coconut cream" +:+ ","
  +:+ quoted "category" +:+ ":" +:+ quoted "Vegan" +:+ "},{"
  +:+ quoted "reason" +:+ ":" +:+ quoted "Lighter" +:+ "}]".

Definition creamPayload : Any :=
  NSArray [
    NSDictionary (list_to_map [
      ("alternative", NSString "Coconut cream"); ("category", NSString "Vegan")]);
    NSDictionary {[ "reason" := NSString "Lighter" ]}].

(** [{"candidates":[{"content":{"parts":[{"text":"{}"}]}}]}] *)
Definition httpBody : Data :=
  "{" +:+ quoted "candidates" +:+ ":[{" +:+ quoted "content" +:+ ":{"
  +:+ quoted "parts" +:+ ":[{" +:+ quoted "text" +:+ ":" +:+ quoted "{}"
  +:+ "}]}}]}".

(** The error of [JSONSerialization] on a text that is not JSON. *)
Definition notJSON : NSError :=
  {| domain := "NSCocoaErrorDomain"; code := 3840 |}.

Definition jsonObject (data : Data) : NSError + Any :=
  if String.eqb data "{}" then inr (NSDictionary ∅)
  else if String.eqb data "[]" then inr (NSArray [])
  else if String.eqb data bowlReply then inr (NSDictionary bowlPayload)
  else if String.eqb data carelessReply then inr (NSDictionary carelessPayload)
  else if String.eqb data creamReply then inr creamPayload
  else if String.eqb data httpBody then inr (NSDictionary (envelopeOf "{}"))
  else inl notJSON.

#[local] Instance foundation : Foundation := {|
  JSONSerialization_jsonObject := jsonObject;
  JSONSerialization_data := fun _ => inr "";
  URL_init := fun string => Some string;
  URLSession_data := fun _ => inr (httpBody, HTTPURLResponse 200);
  Double_description := fun _ => "0.0"
|}.

(** A world without an API key, and one with a key. *)
Definition signedOut : World :=
  {| userDefaults := ∅; sentRequests := [] |}.

Definition signedIn : World :=
  {| userDefaults := {[ "apiKey" := "k-123" ]}; sentRequests := [] |}.

End Sample.

(** [Sample.foundation] with a decoder that also knows a reply whose
    quantity is the literal [true]. *)
Module Literal.

(** [{"ingredients":[{"item":"salt","quantity":true}]}] *)
Definition saltReply : string :=
  "{" +:+ quoted "ingredients" +:+ ":[{" +:+ quoted "item" +:+ ":" +:+ quoted "salt"
  +:+ "," +:+ quoted "quantity" +:+ ":true}]}".

Definition saltEntry : gmap string Any :=
  list_to_map [("item", NSString "salt"); ("quantity", NSNumber_bool true)].

Definition saltPayload : gmap string Any :=
  {[ "ingredients" := NSArray [NSDictionary saltEntry] ]}.

Definition jsonObject (data : Data) : NSError + Any :=
  if String.eqb data saltReply then inr (NSDictionary saltPayload)
  else Sample.jsonObject data.

#[local] Instance foundation : Foundation := {|
  JSONSerialization_jsonObject := jsonObject;
  JSONSerialization_data := fun _ => inr "";
  URL_init := fun string => Some string;
  URLSession_data := fun _ => inr (Sample.httpBody, HTTPURLResponse 200);
  Double_description := fun _ => "0.0"
|}.

End Literal.

(** * The screens and the rest of the models' files

    The views that call the service, and the other code of the files that
    hold the service and the models.  A view is embedded as the record of
    its [@State] properties and one function per method or action closure.
    A [Task] started by an action is run to its end within the action: the
    embedding has no second action between the start of a task and its
    completion. *)

(** ** What an operation leaves in the world *)

(** [outcome], reached from [w], kept the defaults and handed at most one
    request to the URL session, and exactly one if it returned a value. *)
Definition sentAtMostOnce {A} (w : World) (outcome : Throws A * World) : Prop :=
  userDefaults outcome.2 = userDefaults w
  /\ exists sent : list URLRequest,
       sentRequests outcome.2 = (sentRequests w ++ sent)%list
       /\ (length sent <= 1)%nat
       /\ forall value, outcome.1 = inr value -> length sent = 1%nat.

(** ** More of Swift's strings and numbers *)

(** [s.hasPrefix(prefix)] *)
Fixpoint hasPrefix (s prefix : string) : bool :=
  match prefix, s with
  | EmptyString, _ => true
  | String p prefix', String c s' => Ascii.eqb c p && hasPrefix s' prefix'
  | String _ _, EmptyString => false
  end.

(** A decision procedure for [contains]. *)
Fixpoint includes (haystack needle : string) : bool :=
  hasPrefix haystack needle
  || match haystack with
     | EmptyString => false
     | String _ rest => includes rest needle
     end.

(** Membership in [CharacterSet.whitespacesAndNewlines], on the ASCII
    characters: the space and the characters from tab to carriage return. *)
Definition is_whitespaceOrNewline (c : ascii) : bool :=
  let n := nat_of_ascii c in ((n =? 32) || ((9 <=? n) && (n <=? 13)))%nat.

Fixpoint dropLeading (inSet : ascii -> bool) (s : string) : string :=
  match s with
  | EmptyString => EmptyString
  | String c rest => if inSet c then dropLeading inSet rest else s
  end.

Fixpoint dropTrailing (inSet : ascii -> bool) (s : string) : string :=
  match s with
  | EmptyString => EmptyString
  | String c rest =>
      match dropTrailing inSet rest with
      | EmptyString => if inSet c then EmptyString else String c EmptyString
      | kept => String c kept
      end
  end.

(** [s.trimmingCharacters(in: .whitespacesAndNewlines)], on the ASCII
    members of the set: it is Foundation's on ASCII text only. *)
Definition trimmingWhitespacesAndNewlines (s : string) : string :=
  dropTrailing is_whitespaceOrNewline (dropLeading is_whitespaceOrNewline s).

(** [s.components(separatedBy: "\n")]: the stretches of [s] between line
    feeds, empty ones included; one more than there are line feeds. *)
Fixpoint componentsSeparatedByNewline (s : string) : list string :=
  match s with
  | EmptyString => [EmptyString]
  | String c rest =>
      if Ascii.eqb c "010" then EmptyString :: componentsSeparatedByNewline rest
      else
        match componentsSeparatedByNewline rest with
        | [] => [String c EmptyString]
        | first :: others => String c first :: others
        end
  end.

(** [Int(description)]: an optional sign, then one or more of the digits 0
    to 9 and nothing else, for a value that fits an [Int]. *)
Definition Int_init (description : string) : option Z :=
  let magnitude (digits : string) : option Z :=
    match digits with
    | EmptyString => None
    | _ => Z.of_uint <$> NilEmpty.uint_of_string digits
    end in
  let value :=
    match description with
    | String "-" digits => Z.opp <$> magnitude digits
    | String "+" digits => magnitude digits
    | _ => magnitude description
    end in
  value ≫= fun z => if Int_fits z then Some z else None.

(** What the views call beyond the [Foundation] of the service. *)
Class Toolkit := {
  (** [Double(description)] *)
  Double_init : string -> option float;
  (** [error.localizedDescription] of an error raised by Foundation *)
  NSError_localizedDescription : NSError -> string;
  (** [text.localizedCaseInsensitiveContains(other)] *)
  localizedCaseInsensitiveContains : string -> string -> bool
}.

(** [error.localizedDescription]: for a [GeminiError], which is a
    [LocalizedError], its [errorDescription]. *)
Definition localizedDescription `{Toolkit} (error : Error) : string :=
  match error with
  | Gemini e => errorDescription e ?? ""
  | Cocoa e => NSError_localizedDescription e
  end.

(** The calls a view makes on its [modelContext] and on [dismiss], oldest
    first; what the store does with them is not part of the embedding. *)
Inductive Effect :=
| insertRecipe (recipe : Recipe)
| deleteRecipe (recipe : Recipe)
| deleteIngredient (ingredient : Ingredient)
| deleteInstruction (step : Instruction)
| save
| dismiss.

(** [entries] without the entries whose key is not one of [keys]. *)
Definition restricted (keys : list string) (entries : gmap string Any)
    : gmap string Any :=
  filter (fun entry => entry.1 ∈ keys) entries.

(** The keys that the parsers subscript: those of the payload of a recipe,
    of an entry of its ingredients, of an entry of its instructions and of
    its nutrition object, and those of an entry of a substitutions reply. *)
Definition recipeKeys : list string :=
  ["title"; "description"; "cookTime"; "prepTime"; "servings"; "cuisine"; "mealType";
   "ingredients"; "instructions"; "nutrition"].

Definition ingredientKeys : list string := ["item"; "quantity"; "unit"; "section"].

Definition instructionKeys : list string := ["instruction"; "timeMinutes"; "tip"].

Definition nutritionKeys : list string := ["calories"; "proteinG"; "carbsG"; "fatG"].

Definition substitutionKeys : list string := ["alternative"; "reason"; "category"].

(** [s.allSatisfy(predicate)] *)
Fixpoint allSatisfy (predicate : ascii -> bool) (s : string) : bool :=
  match s with
  | EmptyString => true
  | String c rest => predicate c && allSatisfy predicate rest
  end.

(** [s] is ASCII text.  On ASCII text the functions of the embedding that
    lower the case, trim and compare do what Swift's do; on other text
    Swift's follow Unicode (its letters and spaces, and the equivalence of
    its texts), which the embedding does not, so what is proved of such a
    function is stated of ASCII text. *)
Definition isASCII (s : string) : bool :=
  allSatisfy (fun c => (nat_of_ascii c <? 128)%nat) s.

(** The sum of the numbers of a list. *)
Definition sumOf (numbers : list Z) : Z := foldr Z.add 0%Z numbers.

(** [prepTime + cookTime] as a number, which [totalTime] is where the sum
    fits an [Int]. *)
Definition minutesOf (recipe : Recipe) : Z := (prepTime recipe + cookTime recipe)%Z.

(** [s] is empty or starts with a character outside of the set. *)
Definition startsOutside (inSet : ascii -> bool) (s : string) : Prop :=
  match s with
  | EmptyString => True
  | String c _ => inSet c = false
  end.

(** ** AIGenerationView *)

Module AIGenerationView.

Record State := mkState {
  ingredientsText : string;
  selectedCuisine : string;
  selectedDifficulty : Difficulty;
  targetCookTime : Z;
  isGenerating : bool;
  generatedRecipe : option Recipe;
  errorMessage : option string
}.

(** [ingredientsList], a computed property. *)
Definition ingredientsList (view : State) : list string :=
  filter (fun line => line <> "")
    (trimmingWhitespacesAndNewlines
       <$> componentsSeparatedByNewline (ingredientsText view)).

(** Whether the button that calls [generateRecipe] is disabled. *)
Definition generateDisabled (view : State) : bool :=
  bool_decide (ingredientsList view = []) || isGenerating view.

Section Actions.

Context `{Foundation} `{Toolkit}.

Definition generateRecipe (view : State) (effects : list Effect) (w : World)
    : State * list Effect * World :=
  let view :=
    {| ingredientsText := ingredientsText view;
       selectedCuisine := selectedCuisine view;
       selectedDifficulty := selectedDifficulty view;
       targetCookTime := targetCookTime view;
       isGenerating := true;
       generatedRecipe := generatedRecipe view;
       errorMessage := None |} in
  match
    generateRecipe
      (ingredientsList view)
      (if String.eqb (selectedCuisine view) "" then None else Some (selectedCuisine view))
      (selectedDifficulty view)
      (targetCookTime view)
      w
  with
  | (inr recipe, w') =>
      ({| ingredientsText := ingredientsText view;
          selectedCuisine := selectedCuisine view;
          selectedDifficulty := selectedDifficulty view;
          targetCookTime := targetCookTime view;
          isGenerating := false;
          generatedRecipe := Some recipe;
          errorMessage := errorMessage view |},
       (effects ++ [insertRecipe recipe; save])%list,
       w')
  | (inl error, w') =>
      ({| ingredientsText := ingredientsText view;
          selectedCuisine := selectedCuisine view;
          selectedDifficulty := selectedDifficulty view;
          targetCookTime := targetCookTime view;
          isGenerating := false;
          generatedRecipe := generatedRecipe view;
          errorMessage := Some (localizedDescription error) |},
       effects,
       w')
  end.

End Actions.

End AIGenerationView.

(** ** ChatView *)

Module ChatView.

Record State := mkState {
  recipe : Recipe;
  messages : list ChatMessage;
  inputText : string;
  isLoading : bool
}.

(** Whether the button that calls [sendMessage] is disabled. *)
Definition sendDisabled (view : State) : bool :=
  String.eqb (trimmingWhitespacesAndNewlines (inputText view)) "" || isLoading view.

Section Actions.

Context `{Foundation}.

Definition sendMessage (view : State) (w : World) : State * World :=
  let question := trimmingWhitespacesAndNewlines (inputText view) in
  if String.eqb question "" then (view, w)
  else
    let userMessage := {| role := user; content := question |} in
    let view :=
      {| recipe := recipe view;
         messages := messages view ++ [userMessage];
         inputText := "";
         isLoading := true |} in
    match chatWithRecipe (recipe view) question (messages view) w with
    | (inr response, w') =>
        let assistantMessage := {| role := assistant; content := response |} in
        ({| recipe := recipe view;
            messages := messages view ++ [assistantMessage];
            inputText := inputText view;
            isLoading := false |},
         w')
    | (inl _, w') =>
        let errorMessage :=
          {| role := assistant;
             content := "Sorry, I encountered an error. Please try again." |} in
        ({| recipe := recipe view;
            messages := messages view ++ [errorMessage];
            inputText := inputText view;
            isLoading := false |},
         w')
    end.

End Actions.

End ChatView.

(** ** SubstitutionView *)

Module SubstitutionConstraint.

Inductive t := vegan | vegetarian | glutenFree | dairyFree | nutFree | kosher | halal.

Definition rawValue (c : t) : string :=
  match c with
  | vegan => "Vegan"
  | vegetarian => "Vegetarian"
  | glutenFree => "Gluten-Free"
  | dairyFree => "Dairy-Free"
  | nutFree => "Nut-Free"
  | kosher => "Kosher"
  | halal => "Halal"
  end.

Definition allCases : list t :=
  [vegan; vegetarian; glutenFree; dairyFree; nutFree; kosher; halal].

#[global] Instance eq_dec : EqDecision t.
Proof. solve_decision. Defined.

#[global] Instance countable : Countable t.
Proof.
  refine (inj_countable'
            (fun c =>
               match c with
               | vegan => 0 | vegetarian => 1 | glutenFree => 2 | dairyFree => 3
               | nutFree => 4 | kosher => 5 | halal => 6
               end%nat)
            (fun n =>
               match n with
               | 0 => vegan | 1 => vegetarian | 2 => glutenFree | 3 => dairyFree
               | 4 => nutFree | 5 => kosher | _ => halal
               end%nat) _).
  by intros [].
Defined.

End SubstitutionConstraint.

Module SubstitutionView.

Record State := mkState {
  ingredient : Ingredient;
  substitutions : list Substitution;
  isLoading : bool;
  selectedConstraints : gset SubstitutionConstraint.t;
  errorMessage : option string
}.

(** The action of the chip of [constraint]. *)
Definition toggleConstraint (constraint : SubstitutionConstraint.t) (view : State)
    : State :=
  {| ingredient := ingredient view;
     substitutions := substitutions view;
     isLoading := isLoading view;
     selectedConstraints :=
       if bool_decide (constraint ∈ selectedConstraints view)
       then selectedConstraints view ∖ {[ constraint ]}
       else selectedConstraints view ∪ {[ constraint ]};
     errorMessage := errorMessage view |}.

Section Actions.

Context `{Foundation} `{Toolkit}.

(** [Array(selectedConstraints)] lists the set in an order of its own, here
    the order of [elements]. *)
Definition findSubstitutions (view : State) (w : World) : State * World :=
  let view :=
    {| ingredient := ingredient view;
       substitutions := substitutions view;
       isLoading := true;
       selectedConstraints := selectedConstraints view;
       errorMessage := None |} in
  match
    findSubstitutions
      (item (ingredient view))
      (SubstitutionConstraint.rawValue <$> elements (selectedConstraints view))
      w
  with
  | (inr results, w') =>
      ({| ingredient := ingredient view;
          substitutions := results;
          isLoading := false;
          selectedConstraints := selectedConstraints view;
          errorMessage := errorMessage view |},
       w')
  | (inl error, w') =>
      ({| ingredient := ingredient view;
          substitutions := substitutions view;
          isLoading := false;
          selectedConstraints := selectedConstraints view;
          errorMessage := Some (localizedDescription error) |},
       w')
  end.

End Actions.

End SubstitutionView.

#[global] Instance Difficulty_eq_dec : EqDecision Difficulty.
Proof. solve_decision. Defined.

#[global] Instance MealType_eq_dec : EqDecision MealType.
Proof. solve_decision. Defined.

(** ** RecipeDetailView *)

Module RecipeDetailView.

(** [recipe.servings], which the view's own [servings] shadows below. *)
Local Abbreviation servingsOf := servings.

Record State := mkState {
  recipe : Recipe;
  showChat : bool;
  showSubstitution : bool;
  selectedIngredient : option Ingredient;
  servings : Z;
  showEditForm : bool;
  showDeleteConfirmation : bool
}.

(** [init(recipe:)] *)
Definition init (recipe : Recipe) : State :=
  {| recipe := recipe; showChat := false; showSubstitution := false;
     selectedIngredient := None; servings := servingsOf recipe;
     showEditForm := false; showDeleteConfirmation := false |}.

(** The action of the minus button of the servings stepper. *)
Definition decrementServings (view : State) : State :=
  {| recipe := recipe view; showChat := showChat view;
     showSubstitution := showSubstitution view;
     selectedIngredient := selectedIngredient view;
     servings := if (1 <? servings view)%Z then (servings view - 1)%Z else servings view;
     showEditForm := showEditForm view;
     showDeleteConfirmation := showDeleteConfirmation view |}.

(** The action of the plus button; [None] where [servings += 1] traps. *)
Definition incrementServings (view : State) : option State :=
  more ← Int_add (servings view) 1;
  Some {| recipe := recipe view; showChat := showChat view;
          showSubstitution := showSubstitution view;
          selectedIngredient := selectedIngredient view;
          servings := more;
          showEditForm := showEditForm view;
          showDeleteConfirmation := showDeleteConfirmation view |}.

(** The action of the button "Magic Sub". *)
Definition magicSub (view : State) : State :=
  {| recipe := recipe view; showChat := showChat view;
     showSubstitution := true;
     selectedIngredient := selectedIngredient view;
     servings := servings view;
     showEditForm := showEditForm view;
     showDeleteConfirmation := showDeleteConfirmation view |}.

(** [onSubstitute] of the row of [ingredient]. *)
Definition onSubstitute (ingredient : Ingredient) (view : State) : State :=
  {| recipe := recipe view; showChat := showChat view;
     showSubstitution := true;
     selectedIngredient := Some ingredient;
     servings := servings view;
     showEditForm := showEditForm view;
     showDeleteConfirmation := showDeleteConfirmation view |}.


Definition deleteRecipe (view : State) (effects : list Effect) : list Effect :=
  (effects ++ [deleteRecipe (recipe view); dismiss])%list.

(** A tap on one of the two buttons of the servings stepper, and a run of
    taps from a state of the view; [None] once a tap has trapped. *)
Inductive Tap := minus | plus.

Definition tap (view : State) (button : Tap) : option State :=
  match button with
  | minus => Some (decrementServings view)
  | plus => incrementServings view
  end.

Definition taps (view : State) (buttons : list Tap) : option State :=
  foldl (fun state button => state ≫= fun view => tap view button) (Some view) buttons.

(** What the controls of the screen do to its state: the buttons of the
    body and of the menu, a row of the ingredients with its [onSubstitute],
    and the sheets and the dialog, which reset their flag when they are
    dismissed. *)
Inductive Action :=
| tapMagicSub
| tapChat
| tapStepper (button : Tap)
| tapSubstitute (ingredient : Ingredient)
| tapEdit
| tapDelete
| dismissChat
| dismissSubstitution
| dismissEditForm
| dismissDeleteConfirmation.

(** [view] with other flags. *)
Definition withFlags (view : State)
    (showChat showSubstitution showEditForm showDeleteConfirmation : bool) : State :=
  mkState (recipe view) showChat showSubstitution (selectedIngredient view)
    (servings view) showEditForm showDeleteConfirmation.

(** One action on the screen; [None] where the stepper traps. *)
Definition act (view : State) (action : Action) : option State :=
  match action with
  | tapMagicSub => Some (magicSub view)
  | tapChat =>
      Some (withFlags view true (showSubstitution view) (showEditForm view)
              (showDeleteConfirmation view))
  | tapStepper button => tap view button
  | tapSubstitute ingredient => Some (onSubstitute ingredient view)
  | tapEdit =>
      Some (withFlags view (showChat view) (showSubstitution view) true
              (showDeleteConfirmation view))
  | tapDelete =>
      Some (withFlags view (showChat view) (showSubstitution view) (showEditForm view)
              true)
  | dismissChat =>
      Some (withFlags view false (showSubstitution view) (showEditForm view)
              (showDeleteConfirmation view))
  | dismissSubstitution =>
      Some (withFlags view (showChat view) false (showEditForm view)
              (showDeleteConfirmation view))
  | dismissEditForm =>
      Some (withFlags view (showChat view) (showSubstitution view) false
              (showDeleteConfirmation view))
  | dismissDeleteConfirmation =>
      Some (withFlags view (showChat view) (showSubstitution view) (showEditForm view)
              false)
  end.

(** A run of actions from a state of the screen. *)
Definition run (view : State) (actions : list Action) : option State :=
  foldl (fun state action => state ≫= fun view => act view action) (Some view) actions.



End RecipeDetailView.

(** ** SettingsView *)

Module SettingsView.

Section Statistics.

Variable recipes : list Recipe.

Definition count : Z := Z.of_nat (length recipes).

Definition easyCount : Z :=
  Z.of_nat (length (filter (fun recipe => difficulty recipe = easy) recipes)).

Definition mediumCount : Z :=
  Z.of_nat (length (filter (fun recipe => difficulty recipe = medium) recipes)).

Definition hardCount : Z :=
  Z.of_nat (length (filter (fun recipe => difficulty recipe = hard) recipes)).

Definition breakfastCount : Z :=
  Z.of_nat (length (filter (fun recipe => mealType recipe = Some breakfast) recipes)).

Definition lunchCount : Z :=
  Z.of_nat (length (filter (fun recipe => mealType recipe = Some lunch) recipes)).

Definition dinnerCount : Z :=
  Z.of_nat (length (filter (fun recipe => mealType recipe = Some dinner) recipes)).

Definition dessertCount : Z :=
  Z.of_nat (length (filter (fun recipe => mealType recipe = Some dessert) recipes)).

(** [recipes.reduce(0) { $0 + $1.totalTime }]; [None] where a sum traps. *)
Definition totalOfTotalTimes : option Z :=
  foldl (fun sum recipe =>
           so_far ← sum; minutes ← totalTime recipe; Int_add so_far minutes)
    (Some 0%Z) recipes.

(** [averageCookTime]; the division is the truncating one of [Int]. *)
Definition averageCookTime : option Z :=
  match recipes with
  | [] => Some 0%Z
  | _ => total ← totalOfTotalTimes; Some (Z.quot total count)
  end.

Definition deleteAllRecipes (effects : list Effect) : list Effect :=
  (effects ++ (deleteRecipe <$> recipes) ++ [save])%list.

End Statistics.

End SettingsView.

(** ** RecipeFeedView *)

Module RecipeFeedView.

Section Feed.

Context `{Toolkit}.

Definition filteredRecipes (recipes : list Recipe) (searchText : string)
    (selectedMealType : option MealType) : list Recipe :=
  List.filter
    (fun recipe =>
       let matchesSearch :=
         String.eqb searchText ""
         || localizedCaseInsensitiveContains (title recipe) searchText
         || match recipeDescription recipe with
            | Some description => localizedCaseInsensitiveContains description searchText
            | None => false
            end in
       let matchesMealType :=
         bool_decide (selectedMealType = None)
         || bool_decide (mealType recipe = selectedMealType) in
       matchesSearch && matchesMealType)
    recipes.

End Feed.

End RecipeFeedView.

(** ** ManualRecipeFormView *)

Module IngredientInput.

Record t := mk {
  item : string;
  quantity : string;
  unit : string
}.

Definition displayText (input : t) : string :=
  let text := "" in
  let text := if String.eqb (quantity input) "" then text
              else text +:+ (quantity input +:+ " ") in
  let text := if String.eqb (unit input) "" then text
              else text +:+ (unit input +:+ " ") in
  let text := text +:+ item input in
  trimmingWhitespaces text.

End IngredientInput.

Module InstructionInput.

Record t := mk {
  instruction : string;
  timeMinutes : string;
  tip : string
}.

End InstructionInput.

Module ManualRecipeFormView.

Section Form.

Context `{Foundation} `{Toolkit}.

(** The rows that [init(recipeToEdit:)] makes of the ingredients and of the
    instructions of the recipe. *)
Definition ingredientInput (ing : Ingredient) : IngredientInput.t :=
  {| IngredientInput.item := item ing;
     IngredientInput.quantity := (Double_description <$> quantity ing) ?? "";
     IngredientInput.unit := unit ing ?? "" |}.

Definition instructionInput (inst : Instruction) : InstructionInput.t :=
  {| InstructionInput.instruction := instruction inst;
     InstructionInput.timeMinutes := (Int_description <$> timeMinutes inst) ?? "";
     InstructionInput.tip := tip inst ?? "" |}.

(** The [Ingredient] and the [Instruction] that [saveRecipe] makes of a
    row, in either of its branches. *)
Definition savedIngredient (ingredientInput : IngredientInput.t) : Ingredient :=
  Ingredient_init
    (IngredientInput.item ingredientInput)
    (Double_init (IngredientInput.quantity ingredientInput))
    (if String.eqb (IngredientInput.unit ingredientInput) "" then None
     else Some (IngredientInput.unit ingredientInput))
    None.

Definition savedInstruction (index : Z) (instructionInput : InstructionInput.t)
    : Instruction :=
  Instruction_init
    (index + 1)
    (InstructionInput.instruction instructionInput)
    (Int_init (InstructionInput.timeMinutes instructionInput))
    (if String.eqb (InstructionInput.tip instructionInput) "" then None
     else Some (InstructionInput.tip instructionInput)).

(** The two loops of [saveRecipe], which append to the arrays of [recipe]. *)
Definition appendIngredients (inputs : list IngredientInput.t) (recipe : Recipe)
    : Recipe :=
  fold_left (fun recipe input => append_ingredient recipe (savedIngredient input))
    inputs recipe.

Definition appendInstructions (inputs : list InstructionInput.t) (recipe : Recipe)
    : Recipe :=
  fold_left
    (fun recipe '(index, input) =>
       append_instruction recipe (savedInstruction index input))
    (enumerated inputs) recipe.

(** The assignments of [saveRecipe] to the scalar properties of
    [existingRecipe]. *)
Definition updated (existingRecipe : Recipe) (title : string)
    (description : option string) (cookTime prepTime servings : Z)
    (difficulty : Difficulty) (cuisine : option string) (mealType : option MealType)
    : Recipe :=
  mkRecipe title description cookTime prepTime servings difficulty cuisine mealType
    (sourceType existingRecipe) (sourceURL existingRecipe)
    (ingredients existingRecipe) (instructions existingRecipe)
    (nutrition existingRecipe).

(** The properties of [Recipe] that [init(recipeToEdit:)] reads and that the
    form's own fields shadow below. *)
Definition titleOf : Recipe -> string := title.
Definition descriptionOf : Recipe -> option string := recipeDescription.
Definition cookTimeOf : Recipe -> Z := cookTime.
Definition prepTimeOf : Recipe -> Z := prepTime.
Definition servingsOf : Recipe -> Z := servings.
Definition difficultyOf : Recipe -> Difficulty := difficulty.
Definition cuisineOf : Recipe -> option string := cuisine.
Definition mealTypeOf : Recipe -> option MealType := mealType.
Definition ingredientsOf : Recipe -> list Ingredient := ingredients.
Definition instructionsOf : Recipe -> list Instruction := instructions.

End Form.

Record State := mkState {
  recipeToEdit : option Recipe;
  title : string;
  recipeDescription : string;
  cookTime : Z;
  prepTime : Z;
  servings : Z;
  difficulty : Difficulty;
  cuisine : string;
  mealType : option MealType;
  ingredients : list IngredientInput.t;
  newIngredientItem : string;
  newIngredientQuantity : string;
  newIngredientUnit : string;
  instructions : list InstructionInput.t;
  newInstructionText : string;
  showValidationAlert : bool;
  validationMessage : string
}.

Section Actions.

Context `{Foundation} `{Toolkit}.

(** [init(recipeToEdit:)] *)
Definition init (recipeToEdit : option Recipe) : State :=
  match recipeToEdit with
  | Some recipe =>
      {| recipeToEdit := recipeToEdit;
         title := titleOf recipe;
         recipeDescription := descriptionOf recipe ?? "";
         cookTime := cookTimeOf recipe;
         prepTime := prepTimeOf recipe;
         servings := servingsOf recipe;
         difficulty := difficultyOf recipe;
         cuisine := cuisineOf recipe ?? "";
         mealType := mealTypeOf recipe;
         ingredients := ingredientInput <$> ingredientsOf recipe;
         newIngredientItem := "";
         newIngredientQuantity := "";
         newIngredientUnit := "";
         instructions :=
           instructionInput <$> sortedByStepNumber (instructionsOf recipe);
         newInstructionText := "";
         showValidationAlert := false;
         validationMessage := "" |}
  | None =>
      {| recipeToEdit := None;
         title := "";
         recipeDescription := "";
         cookTime := 30;
         prepTime := 15;
         servings := 4;
         difficulty := medium;
         cuisine := "";
         mealType := None;
         ingredients := [];
         newIngredientItem := "";
         newIngredientQuantity := "";
         newIngredientUnit := "";
         instructions := [];
         newInstructionText := "";
         showValidationAlert := false;
         validationMessage := "" |}
  end.

Definition isEditing (view : State) : bool :=
  match recipeToEdit view with
  | Some _ => true
  | None => false
  end.

Definition addIngredient (view : State) : State :=
  if String.eqb (newIngredientItem view) "" then view
  else
    {| recipeToEdit := recipeToEdit view;
       title := title view;
       recipeDescription := recipeDescription view;
       cookTime := cookTime view;
       prepTime := prepTime view;
       servings := servings view;
       difficulty := difficulty view;
       cuisine := cuisine view;
       mealType := mealType view;
       ingredients :=
         ingredients view
         ++ [{| IngredientInput.item := newIngredientItem view;
                IngredientInput.quantity := newIngredientQuantity view;
                IngredientInput.unit := newIngredientUnit view |}];
       newIngredientItem := "";
       newIngredientQuantity := "";
       newIngredientUnit := "";
       instructions := instructions view;
       newInstructionText := newInstructionText view;
       showValidationAlert := showValidationAlert view;
       validationMessage := validationMessage view |}.

Definition addInstruction (view : State) : State :=
  if String.eqb (newInstructionText view) "" then view
  else
    {| recipeToEdit := recipeToEdit view;
       title := title view;
       recipeDescription := recipeDescription view;
       cookTime := cookTime view;
       prepTime := prepTime view;
       servings := servings view;
       difficulty := difficulty view;
       cuisine := cuisine view;
       mealType := mealType view;
       ingredients := ingredients view;
       newIngredientItem := newIngredientItem view;
       newIngredientQuantity := newIngredientQuantity view;
       newIngredientUnit := newIngredientUnit view;
       instructions :=
         instructions view
         ++ [{| InstructionInput.instruction := newInstructionText view;
                InstructionInput.timeMinutes := "";
                InstructionInput.tip := "" |}];
       newInstructionText := "";
       showValidationAlert := showValidationAlert view;
       validationMessage := validationMessage view |}.

(** The form with the alert of [validateForm] raised. *)
Definition alert (view : State) (message : string) : State :=
  {| recipeToEdit := recipeToEdit view;
     title := title view;
     recipeDescription := recipeDescription view;
     cookTime := cookTime view;
     prepTime := prepTime view;
     servings := servings view;
     difficulty := difficulty view;
     cuisine := cuisine view;
     mealType := mealType view;
     ingredients := ingredients view;
     newIngredientItem := newIngredientItem view;
     newIngredientQuantity := newIngredientQuantity view;
     newIngredientUnit := newIngredientUnit view;
     instructions := instructions view;
     newInstructionText := newInstructionText view;
     showValidationAlert := true;
     validationMessage := message |}.

Definition validateForm (view : State) : bool * State :=
  if String.eqb (trimmingWhitespaces (title view)) "" then
    (false, alert view "Please enter a recipe title")
  else if bool_decide (ingredients view = []) then
    (false, alert view "Please add at least one ingredient")
  else if bool_decide (instructions view = []) then
    (false, alert view "Please add at least one instruction step")
  else (true, view).

(** [saveRecipe].  In the branch of an existing recipe the deletions of its
    old ingredients and instructions are calls on the context, recorded as
    such; the appends that follow act on the arrays of the recipe as they
    are. *)
Definition saveRecipe (view : State) (effects : list Effect) : State * list Effect :=
  let '(valid, view) := validateForm view in
  if negb valid then (view, effects)
  else
    let description :=
      if String.eqb (recipeDescription view) "" then None
      else Some (recipeDescription view) in
    let cuisine :=
      if String.eqb (cuisine view) "" then None else Some (cuisine view) in
    match recipeToEdit view with
    | Some existingRecipe =>
        let effects :=
          (effects
           ++ (deleteIngredient <$> ingredientsOf existingRecipe)
           ++ (deleteInstruction <$> instructionsOf existingRecipe))%list in
        let existingRecipe :=
          updated existingRecipe (title view) description (cookTime view)
            (prepTime view) (servings view) (difficulty view) cuisine (mealType view) in
        let existingRecipe := appendIngredients (ingredients view) existingRecipe in
        let existingRecipe := appendInstructions (instructions view) existingRecipe in
        ({| recipeToEdit := Some existingRecipe;
            title := title view;
            recipeDescription := recipeDescription view;
            cookTime := cookTime view;
            prepTime := prepTime view;
            servings := servings view;
            difficulty := difficulty view;
            cuisine := ManualRecipeFormView.cuisine view;
            mealType := mealType view;
            ingredients := ingredients view;
            newIngredientItem := newIngredientItem view;
            newIngredientQuantity := newIngredientQuantity view;
            newIngredientUnit := newIngredientUnit view;
            instructions := instructions view;
            newInstructionText := newInstructionText view;
            showValidationAlert := showValidationAlert view;
            validationMessage := validationMessage view |},
         (effects ++ [dismiss])%list)
    | None =>
        let recipe :=
          Recipe_init (title view) description (cookTime view) (prepTime view)
            (servings view) (difficulty view) cuisine (mealType view) original None in
        let recipe := appendIngredients (ingredients view) recipe in
        let recipe := appendInstructions (instructions view) recipe in
        (view, (effects ++ [insertRecipe recipe; dismiss])%list)
    end.

End Actions.

(** [rows.move(fromOffsets: source, toOffset: destination)]: the rows at the
    offsets of [source] leave their places and go, in their order, before
    the row that was at [destination]; [None] where an offset is out of
    range. *)
Definition move {A} (rows : list A) (source : list nat) (destination : nat)
    : option (list A) :=
  if bool_decide (Forall (fun offset => offset < length rows)%nat source)
     && bool_decide (destination <= length rows)%nat
  then
    let indexed := imap (fun offset row => (offset, row)) rows in
    let before :=
      filter (fun entry => (entry.1 ∉ source) /\ (entry.1 < destination)%nat) indexed in
    let moved := filter (fun entry => entry.1 ∈ source) indexed in
    let after :=
      filter (fun entry => (entry.1 ∉ source) /\ (destination <= entry.1)%nat) indexed in
    Some (snd <$> (before ++ moved ++ after))%list
  else None.

(** What the controls of the form do to its state: a text field, a picker
    or a stepper writes the property it is bound to, a stepper only values
    of its range; the buttons call the closures of the body. *)
Inductive Action :=
| setTitle (text : string)
| setRecipeDescription (text : string)
| setMealType (selection : option MealType)
| setCuisine (text : string)
| stepPrepTime (value : Z)
| stepCookTime (value : Z)
| stepServings (value : Z)
| setDifficulty (selection : Difficulty)
| removeIngredient (index : nat)
| setNewIngredientQuantity (text : string)
| setNewIngredientUnit (text : string)
| setNewIngredientItem (text : string)
| tapAddIngredient
| removeInstruction (index : nat)
| moveInstructions (source : list nat) (destination : nat)
| setNewInstructionText (text : string)
| tapAddInstruction.

(** [view] with other rows. *)
Definition withRows (view : State) (ingredients : list IngredientInput.t)
    (instructions : list InstructionInput.t) : State :=
  mkState (recipeToEdit view) (title view) (recipeDescription view) (cookTime view)
    (prepTime view) (servings view) (difficulty view) (cuisine view) (mealType view)
    ingredients (newIngredientItem view) (newIngredientQuantity view)
    (newIngredientUnit view) instructions (newInstructionText view)
    (showValidationAlert view) (validationMessage view).

(** [view] with other texts in the fields of the row to add. *)
Definition withNew (view : State) (item quantity unit instruction : string) : State :=
  mkState (recipeToEdit view) (title view) (recipeDescription view) (cookTime view)
    (prepTime view) (servings view) (difficulty view) (cuisine view) (mealType view)
    (ingredients view) item quantity unit (instructions view) instruction
    (showValidationAlert view) (validationMessage view).

(** [view] with other basic information and details. *)
Definition withDetails (view : State) (title recipeDescription : string)
    (cookTime prepTime servings : Z) (difficulty : Difficulty) (cuisine : string)
    (mealType : option MealType) : State :=
  mkState (recipeToEdit view) title recipeDescription cookTime prepTime servings
    difficulty cuisine mealType
    (ingredients view) (newIngredientItem view) (newIngredientQuantity view)
    (newIngredientUnit view) (instructions view) (newInstructionText view)
    (showValidationAlert view) (validationMessage view).

(** One action on the form; [None] where [remove(at:)] or [move] traps. *)
Definition act (view : State) (action : Action) : option State :=
  match action with
  | setTitle text =>
      Some (withDetails view text (recipeDescription view) (cookTime view)
              (prepTime view) (servings view) (difficulty view) (cuisine view)
              (mealType view))
  | setRecipeDescription text =>
      Some (withDetails view (title view) text (cookTime view)
              (prepTime view) (servings view) (difficulty view) (cuisine view)
              (mealType view))
  | setMealType selection =>
      Some (withDetails view (title view) (recipeDescription view) (cookTime view)
              (prepTime view) (servings view) (difficulty view) (cuisine view)
              selection)
  | setCuisine text =>
      Some (withDetails view (title view) (recipeDescription view) (cookTime view)
              (prepTime view) (servings view) (difficulty view) text
              (mealType view))
  | stepPrepTime value =>
      Some (withDetails view (title view) (recipeDescription view) (cookTime view)
              (if (0 <=? value)%Z && (value <=? 300)%Z then value else prepTime view)
              (servings view) (difficulty view) (cuisine view) (mealType view))
  | stepCookTime value =>
      Some (withDetails view (title view) (recipeDescription view)
              (if (0 <=? value)%Z && (value <=? 480)%Z then value else cookTime view)
              (prepTime view) (servings view) (difficulty view) (cuisine view)
              (mealType view))
  | stepServings value =>
      Some (withDetails view (title view) (recipeDescription view) (cookTime view)
              (prepTime view)
              (if (1 <=? value)%Z && (value <=? 20)%Z then value else servings view)
              (difficulty view) (cuisine view) (mealType view))
  | setDifficulty selection =>
      Some (withDetails view (title view) (recipeDescription view) (cookTime view)
              (prepTime view) (servings view) selection (cuisine view)
              (mealType view))
  | removeIngredient index =>
      if bool_decide (index < length (ingredients view))%nat
      then Some (withRows view (delete index (ingredients view)) (instructions view))
      else None
  | setNewIngredientQuantity text =>
      Some (withNew view (newIngredientItem view) text (newIngredientUnit view)
              (newInstructionText view))
  | setNewIngredientUnit text =>
      Some (withNew view (newIngredientItem view) (newIngredientQuantity view) text
              (newInstructionText view))
  | setNewIngredientItem text =>
      Some (withNew view text (newIngredientQuantity view) (newIngredientUnit view)
              (newInstructionText view))
  | tapAddIngredient => Some (addIngredient view)
  | removeInstruction index =>
      if bool_decide (index < length (instructions view))%nat
      then Some (withRows view (ingredients view) (delete index (instructions view)))
      else None
  | moveInstructions source destination =>
      moved ← move (instructions view) source destination;
      Some (withRows view (ingredients view) moved)
  | setNewInstructionText text =>
      Some (withNew view (newIngredientItem view) (newIngredientQuantity view)
              (newIngredientUnit view) text)
  | tapAddInstruction => Some (addInstruction view)
  end.

(** A run of actions from a state of the form. *)
Definition run (view : State) (actions : list Action) : option State :=
  foldl (fun state action => state ≫= fun view => act view action) (Some view) actions.

(** What every form that started empty keeps: the details within the
    ranges of their steppers, rows with an item and a text, and
    instructions without minutes and tip, which no control of the form
    sets. *)
Definition wellFormed (view : State) : Prop :=
  recipeToEdit view = None
  /\ (0 <= prepTime view <= 300)%Z
  /\ (0 <= cookTime view <= 480)%Z
  /\ (1 <= servings view <= 20)%Z
  /\ Forall (fun row => IngredientInput.item row <> "") (ingredients view)
  /\ Forall
       (fun row =>
          InstructionInput.instruction row <> ""
          /\ InstructionInput.timeMinutes row = ""
          /\ InstructionInput.tip row = "")
       (instructions view).

End ManualRecipeFormView.

(** ** FlowLayout *)

Module CGSize.
Record t := mk { width : float; height : float }.
End CGSize.

Module CGPoint.
Record t := mk { x : float; y : float }.
End CGPoint.

(** A [CGRect], by the two of its properties that the layout reads. *)
Module CGRect.
Record t := mk { minX : float; minY : float }.
End CGRect.

Module ProposedViewSize.
Record t := mk { width : option float; height : option float }.

(** [ProposedViewSize(size)] *)
Definition init (size : CGSize.t) : t :=
  {| width := Some (CGSize.width size); height := Some (CGSize.height size) |}.
End ProposedViewSize.

(** [Range<Int>] *)
Module Range.
Record t := mk { lowerBound : Z; upperBound : Z }.

(** [lower..<upper]; [None] where the operator traps, on [lower > upper]. *)
Definition init (lower upper : Z) : option t :=
  if (lower <=? upper)%Z then Some {| lowerBound := lower; upperBound := upper |}
  else None.

Definition isEmpty (range : t) : bool := (lowerBound range =? upperBound range)%Z.

(** The indices that [for index in range] visits, in its order. *)
Definition indices (range : t) : list Z :=
  seqZ (lowerBound range) (upperBound range - lowerBound range).
End Range.

(** [max(x, y)] of the standard library, on [CGFloat]. *)
Definition CGFloat_max (x y : float) : float := if PrimFloat.leb x y then y else x.

Module FlowLayout.

Module Row.
Record t := mk { range : Range.t; height : float }.
End Row.

(** One call of [subview.place(at:proposal:)], on the subview at [index]. *)
Record Placement := mkPlacement {
  index : Z;
  at_ : CGPoint.t;
  proposal : ProposedViewSize.t
}.

Section Layout.

(** [spacing], and the subviews by what each one answers to
    [sizeThatFits(.unspecified)]. *)
Variable spacing : float.

(** The state of the loop of [computeRows]: [rows], [currentRow] and [x]. *)
Definition computeRows_step (maxWidth : float)
    (state : option (list Row.t * Row.t * float)) (entry : Z * CGSize.t)
    : option (list Row.t * Row.t * float) :=
  let '(index, size) := entry in
  '(rows, currentRow, x) ← state;
  '(rows, currentRow, x) ←
    (if PrimFloat.ltb maxWidth (x + CGSize.width size)
        && negb (Range.isEmpty (Row.range currentRow))
     then
       range ← Range.init index index;
       Some ((rows ++ [currentRow])%list, {| Row.range := range; Row.height := 0 |},
             0%float)
     else Some (rows, currentRow, x));
  range ← Range.init (Range.lowerBound (Row.range currentRow)) (index + 1);
  Some (rows,
        {| Row.range := range;
           Row.height := CGFloat_max (Row.height currentRow) (CGSize.height size) |},
        (x + (CGSize.width size + spacing))%float).

(** [computeRows(proposal:subviews:)]; [None] where a range traps. *)
Definition computeRows (proposal : ProposedViewSize.t) (subviews : list CGSize.t)
    : option (list Row.t) :=
  let maxWidth := ProposedViewSize.width proposal ?? 0%float in
  range ← Range.init 0 0;
  '(rows, currentRow, _) ←
    foldl (computeRows_step maxWidth)
      (Some ([], {| Row.range := range; Row.height := 0 |}, 0%float))
      (enumerated subviews);
  Some (if negb (Range.isEmpty (Row.range currentRow))
        then (rows ++ [currentRow])%list else rows).

(** [sizeThatFits(proposal:subviews:cache:)] *)
Definition sizeThatFits (proposal : ProposedViewSize.t) (subviews : list CGSize.t)
    : option CGSize.t :=
  rows ← computeRows proposal subviews;
  let height :=
    (foldl (fun sum row => sum + Row.height row + spacing) 0 rows - spacing)%float in
  Some {| CGSize.width := ProposedViewSize.width proposal ?? 0%float;
          CGSize.height := height |}.

(** The inner loop of [placeSubviews], over the indices of one row, from
    [x]; [None] where [subviews[index]] traps. *)
Definition placeRow (subviews : list CGSize.t) (y : float)
    (state : option (list Placement * float)) (index : Z)
    : option (list Placement * float) :=
  '(placed, x) ← state;
  size ← (if (0 <=? index)%Z then subviews !! Z.to_nat index else None);
  Some ((placed
         ++ [{| index := index;
                at_ := {| CGPoint.x := x; CGPoint.y := y |};
                proposal := ProposedViewSize.init size |}])%list,
        (x + (CGSize.width size + spacing))%float).

(** [placeSubviews(in:proposal:subviews:cache:)]: the calls of [place] that
    it makes, in their order. *)
Definition placeSubviews (bounds : CGRect.t) (proposal : ProposedViewSize.t)
    (subviews : list CGSize.t) : option (list Placement) :=
  rows ← computeRows proposal subviews;
  fst <$>
    foldl
      (fun state row =>
         '(placed, y) ← state;
         '(placed, _) ←
           foldl (placeRow subviews y) (Some (placed, CGRect.minX bounds))
             (Range.indices (Row.range row));
         Some (placed, (y + (Row.height row + spacing))%float))
      (Some ([], CGRect.minY bounds)) rows.

End Layout.

End FlowLayout.

(** What holds of [rows] and [currentRow] once the loop of [computeRows]
    has taken in the subviews before [next]. *)
Definition rowsUpTo (next : Z) (rows : list FlowLayout.Row.t)
    (currentRow : FlowLayout.Row.t) : Prop :=
  (0 <= Range.lowerBound (FlowLayout.Row.range currentRow) <= next)%Z
  /\ Range.upperBound (FlowLayout.Row.range currentRow) = next
  /\ concat ((fun row => Range.indices (FlowLayout.Row.range row)) <$> rows)
     = seqZ 0 (Range.lowerBound (FlowLayout.Row.range currentRow))
  /\ Forall
       (fun row =>
          (Range.lowerBound (FlowLayout.Row.range row)
           < Range.upperBound (FlowLayout.Row.range row))%Z)
       rows.

(** What holds of a call of [place] made at height [y]: it proposes to the
    subview its own size. *)
Definition placedAt (subviews : list CGSize.t) (y : float)
    (placement : FlowLayout.Placement) : Prop :=
  exists size,
    (0 <= FlowLayout.index placement)%Z
    /\ subviews !! Z.to_nat (FlowLayout.index placement) = Some size
    /\ FlowLayout.proposal placement = ProposedViewSize.init size
    /\ CGPoint.y (FlowLayout.at_ placement) = y.

(** ** Canned platforms and screens for the examples

    [Throttled.foundation] is [Sample.foundation] with a URL session that
    answers every request with status 429; [Counter.toolkit] is one
    instance of [Toolkit]; the screens below are states on which the
    examples are evaluated. *)

Module Throttled.

#[local] Instance foundation : Foundation := {|
  JSONSerialization_jsonObject := Sample.jsonObject;
  JSONSerialization_data := fun _ => inr "";
  URL_init := fun string => Some string;
  URLSession_data := fun _ => inr ("Too Many Requests", HTTPURLResponse 429);
  Double_description := fun _ => "0.0"
|}.

End Throttled.

Module Counter.

(** The request that an operation sends from [Sample.signedIn] on either
    canned Foundation, whose encoder answers every body with the empty
    data. *)
Definition request : URLRequest :=
  {| url :=
       "https://generativelanguage.googleapis.com/v1beta/models/gemini-2.0-flash-exp:generateContent?key=k-123";
     httpMethod := "POST";
     httpHeaderFields := [("Content-Type", "application/json")];
     httpBody := Some "" |}.

#[local] Instance toolkit : Toolkit := {|
  Double_init := fun _ => None;
  NSError_localizedDescription := fun error => domain error;
  localizedCaseInsensitiveContains :=
    fun text other => includes (lowercased text) (lowercased other)
|}.

Definition generation : AIGenerationView.State :=
  {| AIGenerationView.ingredientsText := multiline ["rice"; "  "; " eggs "];
     AIGenerationView.selectedCuisine := "";
     AIGenerationView.selectedDifficulty := easy;
     AIGenerationView.targetCookTime := 20;
     AIGenerationView.isGenerating := false;
     AIGenerationView.generatedRecipe := None;
     AIGenerationView.errorMessage := None |}.

Definition bowl : Recipe := parseRecipe Sample.bowlPayload.

Definition chat : ChatView.State :=
  {| ChatView.recipe := bowl;
     ChatView.messages := [];
     ChatView.inputText := " How long? ";
     ChatView.isLoading := false |}.

Definition substitution : SubstitutionView.State :=
  {| SubstitutionView.ingredient := Ingredient_init "heavy cream" None None None;
     SubstitutionView.substitutions := [];
     SubstitutionView.isLoading := false;
     SubstitutionView.selectedConstraints :=
       {[ SubstitutionConstraint.vegan; SubstitutionConstraint.nutFree ]};
     SubstitutionView.errorMessage := None |}.

(** A form filled in for a new recipe. *)
Definition form : ManualRecipeFormView.State :=
  {| ManualRecipeFormView.recipeToEdit := None;
     ManualRecipeFormView.title := "Fried rice";
     ManualRecipeFormView.recipeDescription := "";
     ManualRecipeFormView.cookTime := 30;
     ManualRecipeFormView.prepTime := 15;
     ManualRecipeFormView.servings := 4;
     ManualRecipeFormView.difficulty := medium;
     ManualRecipeFormView.cuisine := "";
     ManualRecipeFormView.mealType := Some dinner;
     ManualRecipeFormView.ingredients :=
       [{| IngredientInput.item := "rice"; IngredientInput.quantity := "2";
           IngredientInput.unit := "cups" |};
        {| IngredientInput.item := "eggs"; IngredientInput.quantity := "";
           IngredientInput.unit := "" |}];
     ManualRecipeFormView.newIngredientItem := "";
     ManualRecipeFormView.newIngredientQuantity := "";
     ManualRecipeFormView.newIngredientUnit := "";
     ManualRecipeFormView.instructions :=
       [{| InstructionInput.instruction := "Boil the rice";
           InstructionInput.timeMinutes := "12"; InstructionInput.tip := "" |};
        {| InstructionInput.instruction := "Fry with the eggs";
           InstructionInput.timeMinutes := ""; InstructionInput.tip := "" |}];
     ManualRecipeFormView.newInstructionText := "";
     ManualRecipeFormView.showValidationAlert := false;
     ManualRecipeFormView.validationMessage := "" |}.

(** What a cook does with an empty form: a title, one ingredient, two
    steps of which the first is then moved behind the second, and a try at
    25 servings. *)
Definition typing : list ManualRecipeFormView.Action :=
  [ManualRecipeFormView.setTitle "Fried rice";
   ManualRecipeFormView.setNewIngredientItem "rice";
   ManualRecipeFormView.tapAddIngredient;
   ManualRecipeFormView.tapAddIngredient;
   ManualRecipeFormView.setNewInstructionText "Fry";
   ManualRecipeFormView.tapAddInstruction;
   ManualRecipeFormView.setNewInstructionText "Boil";
   ManualRecipeFormView.tapAddInstruction;
   ManualRecipeFormView.moveInstructions [0%nat] 2;
   ManualRecipeFormView.stepServings 25].

End Counter.

(** * Properties *)

(** ** Strings *)

Lemma append_cons (c : ascii) (s t : string) : String c s +:+ t = String c (s +:+ t).
Proof. reflexivity. Qed.

Lemma append_nil_r (s : string) : s +:+ "" = s.
Proof. induction s as [|c s IH]; [done|]. by rewrite append_cons, IH. Qed.

Lemma append_assoc (s t u : string) : (s +:+ t) +:+ u = s +:+ t +:+ u.
Proof. induction s as [|c s IH]; [done|]. by rewrite !append_cons, IH. Qed.

Lemma contains_refl (s : string) : contains s s.
Proof. exists "", "". by rewrite append_nil_r. Qed.

Lemma contains_append_l (s t needle : string) :
  contains s needle -> contains (s +:+ t) needle.
Proof.
  intros (before & after & ->). exists before, (after +:+ t).
  by rewrite !append_assoc.
Qed.

Lemma contains_append_r (s t needle : string) :
  contains t needle -> contains (s +:+ t) needle.
Proof.
  intros (before & after & ->). exists (s +:+ before), after.
  by rewrite !append_assoc.
Qed.

Lemma contains_trans (s t u : string) : contains s t -> contains t u -> contains s u.
Proof.
  intros (before & after & ->) Hinner.
  by apply contains_append_r, contains_append_l.
Qed.

Lemma contains_joined (separator : string) (parts : list string) (part : string) :
  part ∈ parts -> contains (joined separator parts) part.
Proof.
  induction parts as [|first rest IH]; [by intros ?%elem_of_nil|].
  intros [->|Hrest]%elem_of_cons.
  - destruct rest; [apply contains_refl|].
    apply contains_append_l, contains_refl.
  - destruct rest as [|second rest]; [by apply elem_of_nil in Hrest|].
    change (joined separator (first :: second :: rest))
      with (first +:+ separator +:+ joined separator (second :: rest)).
    by apply contains_append_r, contains_append_r, IH.
Qed.

(** ** The matcher finds the label, and nothing else *)

Lemma cuisineScan_append (progress : nat) (s t : string) :
  cuisineScan progress (s +:+ t) = cuisineScan (cuisineScan progress s) t.
Proof.
  revert progress. induction s as [|c s IH]; intros progress; [done|].
  rewrite append_cons. simpl. apply IH.
Qed.

Lemma cuisineStep_bound (progress : nat) (c : ascii) :
  progress <= 8 -> cuisineStep progress c <= 8.
Proof.
  intros Hbound. unfold cuisineStep.
  do 9 (destruct progress as [|progress]; [simpl; repeat case_match; lia|]).
  lia.
Qed.

Lemma cuisineScan_bound (progress : nat) (s : string) :
  progress <= 8 -> cuisineScan progress s <= 8.
Proof.
  revert progress. induction s as [|c s IH]; intros progress Hbound; [done|].
  simpl. by apply IH, cuisineStep_bound.
Qed.

Lemma cuisineScan_matched (s : string) : cuisineScan 8 s = 8.
Proof. induction s as [|c s IH]; [done|]. exact IH. Qed.

Lemma cuisineScan_label (progress : nat) :
  progress <= 8 -> cuisineScan progress cuisineLabel = 8.
Proof.
  intros Hbound.
  do 9 (destruct progress as [|progress]; [reflexivity|]).
  lia.
Qed.

Lemma cuisineScan_complete (s : string) :
  contains s cuisineLabel -> cuisineScan 0 s = 8.
Proof.
  intros (before & after & ->).
  rewrite !cuisineScan_append.
  rewrite cuisineScan_label by (apply cuisineScan_bound; lia).
  apply cuisineScan_matched.
Qed.

Lemma cuisineStep_seenSoFar (progress : nat) (seen : string) (c : ascii) :
  (progress <= 8)%nat ->
  seenSoFar progress seen ->
  seenSoFar (cuisineStep progress c) (seen +:+ String c "").
Proof.
  intros Hbound Hseen. unfold seenSoFar, cuisineStep in *.
  do 8 (destruct progress as [|progress];
    [ destruct Hseen as [before ->]; simpl;
      repeat match goal with
      | |- context [Ascii.eqb c ?x] => destruct (Ascii.eqb_spec c x) as [->|?]
      end; simpl;
      first [ eexists; reflexivity
            | exists before; by rewrite append_assoc
            | eexists; symmetry; apply append_nil_r
            | exists before, ""; by rewrite !append_assoc ]
    | ]).
  destruct progress as [|progress]; [|lia].
  simpl in *. by apply contains_append_l.
Qed.

Lemma cuisineScan_seenSoFar (s seen : string) (progress : nat) :
  (progress <= 8)%nat ->
  seenSoFar progress seen ->
  seenSoFar (cuisineScan progress s) (seen +:+ s).
Proof.
  revert seen progress.
  induction s as [|c s IH]; intros seen progress Hbound Hseen.
  { simpl. by rewrite append_nil_r. }
  simpl.
  replace (seen +:+ String c s) with ((seen +:+ String c "") +:+ s)
    by (by rewrite append_assoc).
  apply IH; [by apply cuisineStep_bound|].
  by apply cuisineStep_seenSoFar.
Qed.

Lemma cuisineScan_sound (s : string) :
  cuisineScan 0 s = 8 -> contains s cuisineLabel.
Proof.
  intros Hfound.
  pose proof (cuisineScan_seenSoFar s "" 0 ltac:(lia)) as Hseen.
  unfold seenSoFar in Hseen at 2. rewrite Hfound in Hseen.
  apply Hseen. by exists "".
Qed.

(** *** Texts in which the matcher makes no progress *)

Lemma cuisineScan_joined (separator : string) (parts : list string) :
  (forall progress, (progress < 8)%nat -> cuisineScan progress separator = 0) ->
  Forall (fun part => cuisineScan 0 part <> 8) parts ->
  cuisineScan 0 (joined separator parts) <> 8.
Proof.
  intros Hseparator.
  induction parts as [|first rest IH]; [done|].
  intros [Hfirst Hrest]%Forall_cons.
  destruct rest as [|second rest]; [done|].
  change (joined separator (first :: second :: rest))
    with (first +:+ separator +:+ joined separator (second :: rest)).
  rewrite !cuisineScan_append.
  rewrite Hseparator; [by apply IH|].
  pose proof (cuisineScan_bound 0 first). lia.
Qed.

Lemma cuisineScan_uint (digits : Decimal.uint) :
  cuisineScan 0 (NilEmpty.string_of_uint digits) = 0.
Proof. induction digits; simpl; done. Qed.

Lemma cuisineScan_Int_description (z : Z) : cuisineScan 0 (Int_description z) = 0.
Proof.
  unfold Int_description, NilEmpty.string_of_int.
  destruct (Z.to_int z); [|simpl]; apply cuisineScan_uint.
Qed.

(** ** The recipe prompt *)

Lemma cuisineScan_newline (progress : nat) :
  (progress < 8)%nat -> cuisineScan progress newline = 0.
Proof.
  intros Hprogress.
  do 8 (destruct progress as [|progress]; [reflexivity|]). lia.
Qed.

Lemma cuisineScan_comma (progress : nat) :
  (progress < 8)%nat -> cuisineScan progress ", " = 0.
Proof.
  intros Hprogress.
  do 8 (destruct progress as [|progress]; [reflexivity|]). lia.
Qed.

Lemma cuisineScan_full_stop (progress : nat) :
  (progress < 8)%nat -> cuisineScan progress "." = 0.
Proof.
  intros Hprogress.
  do 8 (destruct progress as [|progress]; [reflexivity|]). lia.
Qed.

Lemma cuisineScan_ingredients_line (names : list string) :
  Forall (fun name => cuisineScan 0 name <> 8) names ->
  cuisineScan 0
    ("You are a professional chef. Generate a delicious recipe using these ingredients: "
     +:+ joined ", " names +:+ ".") = 0.
Proof.
  intros Hnames.
  rewrite !cuisineScan_append.
  change (cuisineScan 0 _) with 0 at 1.
  apply cuisineScan_full_stop.
  pose proof (cuisineScan_joined ", " names cuisineScan_comma Hnames).
  pose proof (cuisineScan_bound 0 (joined ", " names)). lia.
Qed.

Lemma cuisineScan_time_line (targetCookTime : Z) :
  cuisineScan 0
    ("- Target cooking time: around " +:+ Int_description targetCookTime +:+ " minutes")
  = 0.
Proof.
  rewrite !cuisineScan_append.
  change (cuisineScan 0 "- Target cooking time: around ") with 0.
  by rewrite cuisineScan_Int_description.
Qed.

Lemma cuisineScan_prompt (names : list string) (requested : Difficulty)
    (targetCookTime : Z) :
  Forall (fun name => cuisineScan 0 name <> 8) names ->
  cuisineScan 0 (buildRecipeGenerationPrompt names None requested targetCookTime)
  <> 8.
Proof.
  intros Hnames. unfold buildRecipeGenerationPrompt, multiline.
  apply cuisineScan_joined; [apply cuisineScan_newline|].
  repeat (apply Forall_cons; split); try apply Forall_nil;
    rewrite ?cuisineScan_ingredients_line, ?cuisineScan_time_line by done;
    try destruct requested; by vm_compute.
Qed.

Lemma buildRecipeGenerationPrompt_ingredient (names : list string)
    (cuisine : option string) (requested : Difficulty) (targetCookTime : Z)
    (name : string) :
  name ∈ names ->
  contains (buildRecipeGenerationPrompt names cuisine requested targetCookTime) name.
Proof.
  intros Hname. unfold buildRecipeGenerationPrompt, multiline.
  change (joined newline (?line :: ?second :: ?rest))
    with (line +:+ newline +:+ joined newline (second :: rest)).
  by apply contains_append_l, contains_append_r, contains_append_l, contains_joined.
Qed.

(** C9, amended.  For a request without cuisine the prompt contains every
    ingredient name, and it contains "Cuisine:" exactly when one of the
    ingredient names does: the builder itself writes no cuisine line.  For
    the ingredients chicken breast, rice and broccoli, difficulty hard and
    45 minutes, the prompt contains the three names and no "Cuisine:". *)
Theorem prompt_without_cuisine (names : list string) (requested : Difficulty)
    (targetCookTime : Z) :
  (forall name,
     name ∈ names ->
     contains (buildRecipeGenerationPrompt names None requested targetCookTime) name)
  /\ (contains (buildRecipeGenerationPrompt names None requested targetCookTime)
        "Cuisine:" <->
      exists name, name ∈ names /\ contains name "Cuisine:")
  /\ contains
       (buildRecipeGenerationPrompt ["chicken breast"; "rice"; "broccoli"] None hard 45)
       "chicken breast"
  /\ contains
       (buildRecipeGenerationPrompt ["chicken breast"; "rice"; "broccoli"] None hard 45)
       "rice"
  /\ contains
       (buildRecipeGenerationPrompt ["chicken breast"; "rice"; "broccoli"] None hard 45)
       "broccoli"
  /\ ~ contains
         (buildRecipeGenerationPrompt ["chicken breast"; "rice"; "broccoli"] None hard 45)
         "Cuisine:".
Proof.
  pose proof buildRecipeGenerationPrompt_ingredient as Hnamed.
  repeat split.
  - intros name. apply Hnamed.
  - intros Hcuisine%cuisineScan_complete.
    destruct (decide (Exists (fun name => cuisineScan 0 name = 8) names))
      as [Hsome|Hnone].
    + apply Exists_exists in Hsome as (name & Hname & Hfound).
      exists name. split; [done|]. by apply cuisineScan_sound.
    + apply not_Exists_Forall in Hnone; [|intros name; apply _].
      by destruct (cuisineScan_prompt names requested targetCookTime).
  - intros (name & Hname & Hcuisine).
    eapply contains_trans; [|exact Hcuisine]. by apply Hnamed.
  - apply Hnamed. set_solver.
  - apply Hnamed. set_solver.
  - apply Hnamed. set_solver.
  - intros Hcuisine%cuisineScan_complete. by vm_compute in Hcuisine.
Qed.

(** C9 as stated fails when an ingredient line itself reads like a cuisine
    requirement. *)
Lemma prompt_with_cuisine_in_an_ingredient :
  ~ ((forall name,
        name ∈ ["Cuisine: Thai"; "rice"] ->
        contains (buildRecipeGenerationPrompt ["Cuisine: Thai"; "rice"] None hard 45) name)
     /\ ~ contains (buildRecipeGenerationPrompt ["Cuisine: Thai"; "rice"] None hard 45)
            "Cuisine:").
Proof.
  intros [_ Hclean]. apply Hclean.
  apply cuisineScan_sound. by vm_compute.
Qed.

(** ** Casts *)

Lemma as_DictionaryArray_Some (v : option Any) (dictionaries : list (gmap string Any)) :
  as_DictionaryArray v = Some dictionaries <->
  v = Some (NSArray (NSDictionary <$> dictionaries)).
Proof.
  split.
  - destruct v as [[| | |items|]|]; simpl; try discriminate.
    intros Hcast. do 2 f_equal.
    revert dictionaries Hcast.
    induction items as [|item items IH]; intros dictionaries Hcast.
    + by injection Hcast as <-.
    + rewrite mapM_cons in Hcast || simpl in Hcast.
      destruct item; simplify_option_eq.
      f_equal. by apply IH.
  - intros ->. simpl.
    induction dictionaries as [|d ds IH]; [done|].
    cbn in *. by rewrite IH.
Qed.

Lemma as_Int_Some (v : option Any) (z : Z) :
  as_Int v = Some z <->
  exists number,
    v = Some (NSNumber number)
    /\ toInteger number = Some z
    /\ (Int_min <= z <= Int_max)%Z.
Proof.
  unfold as_Int, Int_fits. split.
  - destruct v as [[| |number| |]|]; try discriminate.
    destruct (toInteger number) as [i|] eqn:Hinteger; [|discriminate].
    destruct (_ && _) eqn:Hfits; [|discriminate].
    intros [= <-]. exists number. apply andb_prop in Hfits.
    split; [done|]. split; [done|]. lia.
  - intros (number & -> & -> & Hmin & Hmax).
    apply Z.leb_le in Hmin, Hmax. by rewrite Hmin, Hmax.
Qed.

Lemma as_Dictionary_Some (v : option Any) (d : gmap string Any) :
  as_Dictionary v = Some d <-> v = Some (NSDictionary d).
Proof.
  split; [|by intros ->].
  destruct v as [[| | | |]|]; simpl; try discriminate. by intros [= ->].
Qed.

(** ** The two loops of [parseRecipeResponse] *)

Lemma fold_left_parseIngredient (ingredientsData : list (gmap string Any))
    (recipe : Recipe) :
  fold_left parseIngredient ingredientsData recipe =
  mkRecipe (title recipe) (recipeDescription recipe) (cookTime recipe)
    (prepTime recipe) (servings recipe) (difficulty recipe) (cuisine recipe)
    (mealType recipe) (sourceType recipe) (sourceURL recipe)
    (ingredients recipe ++ (parsedIngredient <$> ingredientsData))
    (instructions recipe) (nutrition recipe).
Proof.
  revert recipe.
  induction ingredientsData as [|ingData rest IH]; intros recipe.
  - destruct recipe. simpl. by rewrite app_nil_r.
  - simpl. rewrite IH. unfold parseIngredient. simpl.
    by rewrite <- app_assoc.
Qed.

Lemma fold_left_parseInstruction (instructionsData : list (gmap string Any))
    (offset : nat) (recipe : Recipe) :
  fold_left parseInstruction
    (imap (fun index element => (Z.of_nat (offset + index), element))
       instructionsData)
    recipe =
  mkRecipe (title recipe) (recipeDescription recipe) (cookTime recipe)
    (prepTime recipe) (servings recipe) (difficulty recipe) (cuisine recipe)
    (mealType recipe) (sourceType recipe) (sourceURL recipe)
    (ingredients recipe)
    (instructions recipe ++
       imap (fun index instData => parsedInstruction (Z.of_nat (offset + index)) instData)
         instructionsData)
    (nutrition recipe).
Proof.
  revert offset recipe.
  induction instructionsData as [|instData rest IH]; intros offset recipe.
  - destruct recipe. simpl. by rewrite app_nil_r.
  - simpl.
    rewrite (imap_ext _ (fun index element => (Z.of_nat (S offset + index), element)))
      by (intros; simpl; do 2 f_equal; lia).
    rewrite IH. simpl.
    rewrite <- app_assoc. simpl. do 3 f_equal.
    apply imap_ext. intros; simpl. do 2 f_equal. lia.
Qed.

(** The recipe that [parseRecipeResponse] builds from a decoded payload,
    field by field. *)
Lemma parseRecipe_fields (recipeData : gmap string Any) :
  parseRecipe recipeData =
  mkRecipe
    (as_String (recipeData !! "title") ?? "Untitled Recipe")
    (as_String (recipeData !! "description"))
    (as_Int (recipeData !! "cookTime") ?? 30%Z)
    (as_Int (recipeData !! "prepTime") ?? 15%Z)
    (as_Int (recipeData !! "servings") ?? 4%Z)
    medium
    (as_String (recipeData !! "cuisine"))
    (parseMealType (as_String (recipeData !! "mealType")))
    aiGenerated
    None
    (match as_DictionaryArray (recipeData !! "ingredients") with
     | Some ingredientsData => parsedIngredient <$> ingredientsData
     | None => []
     end)
    (match as_DictionaryArray (recipeData !! "instructions") with
     | Some instructionsData =>
         imap (fun index instData => parsedInstruction (Z.of_nat index) instData)
           instructionsData
     | None => []
     end)
    (parseNutrition <$> as_Dictionary (recipeData !! "nutrition")).
Proof.
  unfold parseRecipe, enumerated.
  destruct (as_DictionaryArray (recipeData !! "ingredients")) as [ingredientsData|];
    destruct (as_DictionaryArray (recipeData !! "instructions")) as [instructionsData|];
    destruct (as_Dictionary (recipeData !! "nutrition")) as [nutritionData|];
    rewrite ?(fold_left_parseInstruction _ 0), ?fold_left_parseIngredient;
    reflexivity.
Qed.

Lemma stepNumber_imap_parsedInstruction (instructionsData : list (gmap string Any))
    (offset : nat) :
  stepNumber <$>
    imap (fun index instData => parsedInstruction (Z.of_nat (offset + index)) instData)
      instructionsData
  = Z.of_nat <$> seq (S offset) (length instructionsData).
Proof.
  revert offset.
  induction instructionsData as [|instData rest IH]; intros offset; [done|].
  simpl. f_equal; [lia|].
  etrans; [|apply (IH (S offset))].
  f_equal. apply imap_ext. intros; simpl. do 2 f_equal. lia.
Qed.

Lemma instruction_imap_parsedInstruction (instructionsData : list (gmap string Any))
    (offset : nat) :
  instruction <$>
    imap (fun index instData => parsedInstruction (Z.of_nat (offset + index)) instData)
      instructionsData
  = (fun instData => as_String (instData !! "instruction") ?? "") <$> instructionsData.
Proof.
  revert offset.
  induction instructionsData as [|instData rest IH]; intros offset; [done|].
  simpl. f_equal.
  etrans; [|apply (IH (S offset))].
  f_equal. apply imap_ext. intros; simpl. do 2 f_equal. lia.
Qed.

Section Parsers.

Context `{Foundation}.

Lemma parseRecipeResponse_decoded (json : gmap string Any) (names : list string)
    (recipeData : gmap string Any) :
  JSONSerialization_jsonObject (extractTextFromResponse json)
    = inr (NSDictionary recipeData) ->
  parseRecipeResponse json names = returns (parseRecipe recipeData).
Proof.
  intros Hdecoded. unfold parseRecipeResponse, data_using_utf8.
  by rewrite Hdecoded.
Qed.

Lemma parseRecipeResponse_returns (json : gmap string Any) (names : list string)
    (recipe : Recipe) :
  parseRecipeResponse json names = returns recipe ->
  exists recipeData,
    JSONSerialization_jsonObject (extractTextFromResponse json)
      = inr (NSDictionary recipeData)
    /\ recipe = parseRecipe recipeData.
Proof.
  unfold parseRecipeResponse, data_using_utf8.
  destruct (JSONSerialization_jsonObject _) as [e|object]; [discriminate|].
  destruct object; simpl; try discriminate.
  intros [= <-]. eauto.
Qed.

Lemma generateRecipe_returns (names : list string) (cuisine : option string)
    (requested : Difficulty) (targetCookTime : Z) (w w' : World) (recipe : Recipe) :
  generateRecipe names cuisine requested targetCookTime w = (returns recipe, w') ->
  exists response, parseRecipeResponse response names = returns recipe.
Proof.
  unfold generateRecipe, Async_bind, try_.
  destruct (apiKey w =? ""); [discriminate|].
  destruct (makeRequest _ _ w) as [[e|response] w1]; [discriminate|].
  destruct (parseRecipeResponse response names) as [e|parsed] eqn:Hparsed;
    [discriminate|].
  intros [= <- <-]. eauto.
Qed.

(** C1.  When the text of a generation reply decodes to a JSON object, the
    parser returns a recipe whose difficulty is [medium], whatever the
    payload holds under any key; and a recipe returned by [generateRecipe]
    has difficulty [medium] whatever difficulty was requested. *)
Theorem generated_recipe_is_medium (json : gmap string Any) (names : list string)
    (recipeData : gmap string Any) :
  JSONSerialization_jsonObject (extractTextFromResponse json)
    = inr (NSDictionary recipeData) ->
  (exists recipe,
     parseRecipeResponse json names = returns recipe
     /\ difficulty recipe = medium)
  /\ (forall cuisine requested targetCookTime w w' generated,
        generateRecipe names cuisine requested targetCookTime w
          = (returns generated, w') ->
        difficulty generated = medium).
Proof.
  intros Hdecoded. split.
  - exists (parseRecipe recipeData). split.
    + by apply parseRecipeResponse_decoded.
    + by rewrite parseRecipe_fields.
  - intros cuisine requested targetCookTime w w' generated Hrun.
    apply generateRecipe_returns in Hrun as [response Hparsed].
    apply parseRecipeResponse_returns in Hparsed as (payload & _ & ->).
    by rewrite parseRecipe_fields.
Qed.

(** C2.  When the decoded payload holds under [instructions] an array of N
    objects, the parser returns a recipe with exactly N instructions, whose
    step numbers are 1, 2, ..., N in array order and whose texts are those
    of the array in the same order; a [stepNumber] of the payload is never
    read. *)
Theorem instructions_are_renumbered (json : gmap string Any) (names : list string)
    (recipeData : gmap string Any) (instructionsData : list (gmap string Any)) :
  JSONSerialization_jsonObject (extractTextFromResponse json)
    = inr (NSDictionary recipeData) ->
  recipeData !! "instructions" = Some (NSArray (NSDictionary <$> instructionsData)) ->
  exists recipe,
    parseRecipeResponse json names = returns recipe
    /\ length (instructions recipe) = length instructionsData
    /\ stepNumber <$> instructions recipe
       = Z.of_nat <$> seq 1 (length instructionsData)
    /\ instruction <$> instructions recipe
       = (fun instData => as_String (instData !! "instruction") ?? "")
           <$> instructionsData.
Proof.
  intros Hdecoded Harray.
  exists (parseRecipe recipeData). split; [by apply parseRecipeResponse_decoded|].
  apply as_DictionaryArray_Some in Harray.
  rewrite parseRecipe_fields, Harray. simpl.
  split; [by rewrite length_imap|]. split.
  - apply (stepNumber_imap_parsedInstruction instructionsData 0).
  - apply (instruction_imap_parsedInstruction instructionsData 0).
Qed.


(** C7, amended.  When the decoded payload holds under [ingredients] an
    array of objects, the parser returns a recipe with one ingredient an
    entry, and the quantity of the ingredient mapped from an entry is what
    [as? Double] makes of the entry's [quantity]: none when [quantity] is
    absent or is no [NSNumber] (a string, null, an array or an object), and
    none only when it is absent or does not convert.  The literals [true]
    and [false] are decoded as [NSNumber]s, and map to 1.0 and 0.0. *)
Theorem missing_quantity_is_nil (json : gmap string Any) (names : list string)
    (recipeData : gmap string Any) (ingredientsData : list (gmap string Any))
    (position : nat) (ingData : gmap string Any) :
  JSONSerialization_jsonObject (extractTextFromResponse json)
    = inr (NSDictionary recipeData) ->
  recipeData !! "ingredients" = Some (NSArray (NSDictionary <$> ingredientsData)) ->
  ingredientsData !! position = Some ingData ->
  exists recipe ingredient,
    parseRecipeResponse json names = returns recipe
    /\ length (ingredients recipe) = length ingredientsData
    /\ ingredients recipe !! position = Some ingredient
    /\ item ingredient = as_String (ingData !! "item") ?? ""
    /\ quantity ingredient = as_Double (ingData !! "quantity")
    /\ ((forall number, ingData !! "quantity" <> Some (NSNumber number)) ->
        quantity ingredient = None)
    /\ (quantity ingredient = None <->
        forall number,
          ingData !! "quantity" = Some (NSNumber number) -> toDouble number = None)
    /\ (forall value,
          ingData !! "quantity" = Some (NSNumber_bool value) ->
          quantity ingredient = Some (if value then 1 else 0)%float).
Proof.
  intros Hdecoded Harray Hentry.
  exists (parseRecipe recipeData), (parsedIngredient ingData).
  split; [by apply parseRecipeResponse_decoded|].
  apply as_DictionaryArray_Some in Harray.
  rewrite parseRecipe_fields, Harray. simpl.
  split; [by rewrite length_fmap|].
  split; [by rewrite list_lookup_fmap, Hentry|].
  split; [done|]. split; [done|]. split; [|split].
  - intros Hquantity.
    destruct (ingData !! "quantity") as [[| |number| |]|]; try done.
    by destruct (Hquantity number).
  - destruct (ingData !! "quantity") as [[| |number| |]|]; simpl;
      try (split; [intros _ number; discriminate|done]).
    split; [by intros Hnone other [= <-]|]. intros Hnone. by apply Hnone.
  - intros value ->. by destruct value.
Qed.

(** The parser copies the payload's integers unchecked: the returned recipe
    has [servings >= 1] exactly when the payload's [servings] is absent, not
    an integer, or at least 1, and [cookTime >= 0] and [prepTime >= 0]
    exactly when the payload's value is absent, not an integer, or at least
    0; its [totalTime] is [prepTime + cookTime] whenever that sum fits an
    [Int]. *)
Lemma invariants_follow_the_payload (json : gmap string Any)
    (names : list string) (recipeData : gmap string Any) :
  JSONSerialization_jsonObject (extractTextFromResponse json)
    = inr (NSDictionary recipeData) ->
  exists recipe,
    parseRecipeResponse json names = returns recipe
    /\ ((1 <= servings recipe)%Z <->
        forall z, as_Int (recipeData !! "servings") = Some z -> (1 <= z)%Z)
    /\ ((0 <= cookTime recipe)%Z <->
        forall z, as_Int (recipeData !! "cookTime") = Some z -> (0 <= z)%Z)
    /\ ((0 <= prepTime recipe)%Z <->
        forall z, as_Int (recipeData !! "prepTime") = Some z -> (0 <= z)%Z)
    /\ ((Int_min <= prepTime recipe + cookTime recipe <= Int_max)%Z ->
        totalTime recipe = Some (prepTime recipe + cookTime recipe)%Z).
Proof.
  intros Hdecoded.
  exists (parseRecipe recipeData). split; [by apply parseRecipeResponse_decoded|].
  rewrite parseRecipe_fields. unfold totalTime, Int_add, Int_fits. simpl.
  repeat split.
  - intros Hservings z Hz. by rewrite Hz in Hservings.
  - intros Hpayload. destruct (as_Int (recipeData !! "servings")); simpl; [auto|lia].
  - intros Htime z Hz. by rewrite Hz in Htime.
  - intros Hpayload. destruct (as_Int (recipeData !! "cookTime")); simpl; [auto|lia].
  - intros Htime z Hz. by rewrite Hz in Htime.
  - intros Hpayload. destruct (as_Int (recipeData !! "prepTime")); simpl; [auto|lia].
  - intros [Hmin Hmax].
    apply Z.leb_le in Hmin, Hmax. by rewrite Hmin, Hmax.
Qed.

(** C10.  When the text of a generation reply decodes to a JSON object the
    parser returns a recipe: one without ingredients when [ingredients] is
    not an array of objects, without instructions when [instructions] is not
    an array of objects, and without nutrition when [nutrition] is not an
    object.  Conversely the parser throws, [parsingError] included, only
    when the text does not decode to a JSON object. *)
Theorem mapping_never_throws (json : gmap string Any) (names : list string) :
  (forall recipeData,
     JSONSerialization_jsonObject (extractTextFromResponse json)
       = inr (NSDictionary recipeData) ->
     exists recipe,
       parseRecipeResponse json names = returns recipe
       /\ ((forall entries,
              recipeData !! "ingredients" <> Some (NSArray (NSDictionary <$> entries))) ->
           ingredients recipe = [])
       /\ ((forall entries,
              recipeData !! "instructions" <> Some (NSArray (NSDictionary <$> entries))) ->
           instructions recipe = [])
       /\ ((forall entries, recipeData !! "nutrition" <> Some (NSDictionary entries)) ->
           nutrition recipe = None))
  /\ (forall error,
        parseRecipeResponse json names = inl error ->
        forall recipeData,
          JSONSerialization_jsonObject (extractTextFromResponse json)
            <> inr (NSDictionary recipeData)).
Proof.
  split.
  - intros recipeData Hdecoded.
    exists (parseRecipe recipeData). split; [by apply parseRecipeResponse_decoded|].
    rewrite parseRecipe_fields. simpl. repeat split.
    + intros Hshape.
      destruct (as_DictionaryArray (recipeData !! "ingredients")) as [entries|] eqn:Hcast;
        [|done].
      apply as_DictionaryArray_Some in Hcast. by destruct (Hshape entries).
    + intros Hshape.
      destruct (as_DictionaryArray (recipeData !! "instructions")) as [entries|] eqn:Hcast;
        [|done].
      apply as_DictionaryArray_Some in Hcast. by destruct (Hshape entries).
    + intros Hshape.
      destruct (as_Dictionary (recipeData !! "nutrition")) as [entries|] eqn:Hcast;
        [|done].
      apply as_Dictionary_Some in Hcast. by destruct (Hshape entries).
  - intros error Hthrown recipeData Hdecoded.
    rewrite (parseRecipeResponse_decoded _ _ _ Hdecoded) in Hthrown.
    discriminate.
Qed.

(** C3, amended.  When the generated text is absent from the envelope,
    [extractTextFromResponse] yields the placeholder "Unable to generate
    response", and both parsers treat the envelope exactly as one whose
    generated text is that placeholder: when the decoder rejects the
    placeholder they fail, with one and the same error, which is the error
    of any reply carrying that text and not one of its own. *)
Theorem absent_text_is_the_placeholder (json reply : gmap string Any)
    (names : list string) (original : string) (rejection : NSError) :
  generatedText json = None ->
  generatedText reply = Some "Unable to generate response" ->
  JSONSerialization_jsonObject "Unable to generate response" = inl rejection ->
  extractTextFromResponse json = "Unable to generate response"
  /\ parseRecipeResponse json names = parseRecipeResponse reply names
  /\ parseSubstitutionsResponse json original
     = parseSubstitutionsResponse reply original
  /\ exists error,
       parseRecipeResponse json names = inl error
       /\ parseSubstitutionsResponse json original = inl error.
Proof.
  intros Habsent Hpresent Hrejected.
  assert (extractTextFromResponse json = "Unable to generate response") as Hjson
    by (unfold extractTextFromResponse; by rewrite Habsent).
  assert (extractTextFromResponse reply = "Unable to generate response") as Hreply
    by (unfold extractTextFromResponse; by rewrite Hpresent).
  unfold parseRecipeResponse, parseSubstitutionsResponse.
  rewrite Hjson, Hreply. unfold data_using_utf8. rewrite Hrejected.
  repeat split; eauto.
Qed.

(** The text is there exactly when the envelope has the shape
    [{candidates: [{content: {parts: [{text: "..."}, ...]}}, ...]}]; it is
    absent without a [candidates] array of objects, with an empty one, and
    when the first candidate lacks [content], [parts] or the [text] of its
    first part. *)
Lemma generatedText_Some (json : gmap string Any) (text : string) :
  generatedText json = Some text <->
  exists first candidates content part parts,
    json !! "candidates" = Some (NSArray (NSDictionary <$> first :: candidates))
    /\ first !! "content" = Some (NSDictionary content)
    /\ content !! "parts" = Some (NSArray (NSDictionary <$> part :: parts))
    /\ part !! "text" = Some (NSString text).
Proof.
  unfold generatedText. split.
  - destruct (as_DictionaryArray (json !! "candidates")) as [[|first candidates]|]
      eqn:Hcandidates; try done.
    apply as_DictionaryArray_Some in Hcandidates. simpl.
    destruct (as_Dictionary (first !! "content")) as [content|] eqn:Hcontent;
      [|done].
    apply as_Dictionary_Some in Hcontent. simpl.
    destruct (as_DictionaryArray (content !! "parts")) as [[|part parts]|]
      eqn:Hparts; try done.
    apply as_DictionaryArray_Some in Hparts. simpl.
    destruct (part !! "text") as [[| s | | |]|] eqn:Htext; try done.
    intros [= <-]. by exists first, candidates, content, part, parts.
  - intros (first & candidates & content & part & parts
            & Hcandidates & Hcontent & Hparts & Htext).
    apply as_DictionaryArray_Some in Hcandidates, Hparts.
    rewrite Hcandidates. simpl. rewrite Hcontent. simpl.
    rewrite Hparts. simpl. by rewrite Htext.
Qed.

Lemma generatedText_without_candidates (json : gmap string Any) :
  json !! "candidates" = None \/ json !! "candidates" = Some (NSArray []) ->
  generatedText json = None.
Proof. unfold generatedText. by intros [-> | ->]. Qed.

(** *** Substitutions *)

Lemma parseSubstitutionsResponse_array (json : gmap string Any) (original : string)
    (substitutionsData : list (gmap string Any)) :
  JSONSerialization_jsonObject (extractTextFromResponse json)
    = inr (NSArray (NSDictionary <$> substitutionsData)) ->
  parseSubstitutionsResponse json original
  = returns (parseSubstitution original <$> substitutionsData).
Proof.
  intros Hdecoded. unfold parseSubstitutionsResponse, data_using_utf8.
  rewrite Hdecoded.
  by rewrite (proj2 (as_DictionaryArray_Some _ substitutionsData) eq_refl).
Qed.

Lemma parseSubstitutionsResponse_other (json : gmap string Any) (original : string)
    (object : Any) :
  JSONSerialization_jsonObject (extractTextFromResponse json) = inr object ->
  (forall substitutionsData, object <> NSArray (NSDictionary <$> substitutionsData)) ->
  parseSubstitutionsResponse json original = throw parsingError.
Proof.
  intros Hdecoded Hshape. unfold parseSubstitutionsResponse, data_using_utf8.
  rewrite Hdecoded.
  destruct (as_DictionaryArray (Some object)) as [substitutionsData|] eqn:Hcast; [|done].
  apply as_DictionaryArray_Some in Hcast. injection Hcast as ->.
  by destruct (Hshape substitutionsData).
Qed.

Lemma parseSubstitutionsResponse_rejected (json : gmap string Any) (original : string)
    (rejection : NSError) :
  JSONSerialization_jsonObject (extractTextFromResponse json) = inl rejection ->
  parseSubstitutionsResponse json original = rethrow rejection.
Proof.
  intros Hrejected. unfold parseSubstitutionsResponse, data_using_utf8.
  by rewrite Hrejected.
Qed.

(** C4, on the code.  The three ways a substitution reply is handled: a text
    that decodes to an array of objects yields one substitution per element,
    in array order, none for the empty array; a text that decodes to
    anything else throws [parsingError]; and a text that the decoder
    rejects makes the parser rethrow the decoder's own error, which is not
    [parsingError]. *)
Theorem substitutions_reply_cases (json : gmap string Any) (original : string) :
  (forall substitutionsData,
     JSONSerialization_jsonObject (extractTextFromResponse json)
       = inr (NSArray (NSDictionary <$> substitutionsData)) ->
     parseSubstitutionsResponse json original
     = returns (parseSubstitution original <$> substitutionsData))
  /\ (forall object,
        JSONSerialization_jsonObject (extractTextFromResponse json) = inr object ->
        (forall substitutionsData,
           object <> NSArray (NSDictionary <$> substitutionsData)) ->
        parseSubstitutionsResponse json original = throw parsingError)
  /\ (forall rejection,
        JSONSerialization_jsonObject (extractTextFromResponse json) = inl rejection ->
        parseSubstitutionsResponse json original = rethrow rejection
        /\ parseSubstitutionsResponse json original <> throw parsingError).
Proof.
  split; [|split].
  - apply parseSubstitutionsResponse_array.
  - apply parseSubstitutionsResponse_other.
  - intros rejection Hrejected.
    rewrite (parseSubstitutionsResponse_rejected _ _ _ Hrejected).
    split; [done|discriminate].
Qed.

(** *** The guard on the API key *)

Lemma makeRequest_never_missingAPIKey (prompt model : string) (w w' : World)
    (error : Error) :
  makeRequest prompt model w = (inl error, w') -> error <> Gemini missingAPIKey.
Proof.
  unfold makeRequest, throw, rethrow, returns.
  repeat case_match; intros [= <- <-]; discriminate.
Qed.

Lemma parseRecipeResponse_never_missingAPIKey (json : gmap string Any)
    (names : list string) (error : Error) :
  parseRecipeResponse json names = inl error -> error <> Gemini missingAPIKey.
Proof.
  unfold parseRecipeResponse, throw, rethrow, returns.
  repeat case_match; intros [= <-]; discriminate.
Qed.

Lemma parseSubstitutionsResponse_never_missingAPIKey (json : gmap string Any)
    (original : string) (error : Error) :
  parseSubstitutionsResponse json original = inl error ->
  error <> Gemini missingAPIKey.
Proof.
  unfold parseSubstitutionsResponse, throw, rethrow, returns.
  repeat case_match; intros [= <-]; discriminate.
Qed.

(** C5.  Without an API key each of the three operations throws
    [missingAPIKey] and leaves the world as it was, so that nothing is sent;
    with a key none of them throws [missingAPIKey]. *)
Theorem api_key_guard (w : World) :
  (apiKey w = "" ->
   (forall names cuisine requested targetCookTime,
      generateRecipe names cuisine requested targetCookTime w
      = (throw missingAPIKey, w))
   /\ (forall recipe question history,
         chatWithRecipe recipe question history w = (throw missingAPIKey, w))
   /\ (forall ingredient constraints,
         findSubstitutions ingredient constraints w = (throw missingAPIKey, w)))
  /\ (apiKey w <> "" ->
      (forall names cuisine requested targetCookTime,
         (generateRecipe names cuisine requested targetCookTime w).1
         <> throw missingAPIKey)
      /\ (forall recipe question history,
            (chatWithRecipe recipe question history w).1 <> throw missingAPIKey)
      /\ (forall ingredient constraints,
            (findSubstitutions ingredient constraints w).1 <> throw missingAPIKey)).
Proof.
  split.
  - intros Hkey. unfold generateRecipe, chatWithRecipe, findSubstitutions.
    rewrite Hkey. by simpl.
  - intros Hkey. apply String.eqb_neq in Hkey.
    unfold generateRecipe, chatWithRecipe, findSubstitutions, Async_bind, try_.
    rewrite Hkey. unfold throw, returns.
    repeat split; intros;
      destruct (makeRequest _ _ w) as [[e|response] w1] eqn:Hrequest; simpl;
      try (intros Hthrown; injection Hthrown as ->;
           by eapply makeRequest_never_missingAPIKey).
    + destruct (parseRecipeResponse response names) as [e|recipe] eqn:Hparsed;
        simpl; [|discriminate].
      intros Hthrown; injection Hthrown as ->.
      by eapply parseRecipeResponse_never_missingAPIKey.
    + discriminate.
    + destruct (parseSubstitutionsResponse response ingredient)
        as [e|substitutions] eqn:Hparsed; simpl; [|discriminate].
      intros Hthrown; injection Hthrown as ->.
      by eapply parseSubstitutionsResponse_never_missingAPIKey.
Qed.

End Parsers.

(** ** Examples *)

Example parseMealType_ignores_case :
  parseMealType (Some "DINNER") = Some dinner
  /\ parseMealType (Some "brunch") = None
  /\ parseMealType None = None.
Proof. by vm_compute. Qed.

Example parseSubstitutionCategory_minds_case :
  parseSubstitutionCategory (Some "Vegan") = vegan
  /\ parseSubstitutionCategory (Some "vegan") = preference
  /\ parseSubstitutionCategory None = preference.
Proof. by vm_compute. Qed.

Example sortedByStepNumber_orders_steps :
  stepNumber <$>
    sortedByStepNumber
      [Instruction_init 3 "Serve" None None; Instruction_init 1 "Chop" None None;
       Instruction_init 2 "Fry" None None]
  = [1; 2; 3]%Z.
Proof. reflexivity. Qed.

Example Int_description_prints_decimal :
  Int_description 45 = "45" /\ Int_description 0 = "0" /\ Int_description (-5) = "-5".
Proof. by vm_compute. Qed.

(** The reply of the chicken rice bowl, normalised. *)
Example bowl_is_normalised :
  parseRecipeResponse (H := Sample.foundation) (Sample.envelopeOf Sample.bowlReply)
    ["chicken breast"; "rice"; "broccoli"]
  = returns
      {| title := "Chicken Rice Bowl"; recipeDescription := None;
         cookTime := 25; prepTime := 10; servings := 2; difficulty := medium;
         cuisine := None; mealType := None; sourceType := aiGenerated;
         sourceURL := None;
         ingredients := [Ingredient_init "chicken breast" None None None];
         instructions := [Instruction_init 1 "Cook chicken" None None];
         nutrition := None |}.
Proof. by vm_compute. Qed.

(** The chat answers with the generated text as it stands. *)
Example chat_returns_the_text :
  (chatWithRecipe (H := Sample.foundation)
     (Recipe_init "Toast" None 5 1 1 easy None None original None) "How long?" []
     Sample.signedIn).1
  = returns "{}".
Proof. by vm_compute. Qed.

(** ** The canned Foundation at work *)

Lemma generated_recipe_is_medium_witness :
  (exists recipe,
     parseRecipeResponse (H := Sample.foundation)
       (Sample.envelopeOf Sample.carelessReply) ["salt"] = returns recipe
     /\ difficulty recipe = medium)
  /\ (exists generated w',
        generateRecipe (H := Sample.foundation) ["salt"] None hard 45 Sample.signedIn
          = (returns generated, w')
        /\ difficulty generated = medium).
Proof.
  destruct (generated_recipe_is_medium (H := Sample.foundation)
              (Sample.envelopeOf Sample.carelessReply) ["salt"] Sample.carelessPayload)
    as [Hparsed Hrun]; [by vm_compute|].
  split; [exact Hparsed|].
  destruct (generateRecipe (H := Sample.foundation) ["salt"] None hard 45 Sample.signedIn)
    as [[error|generated] w'] eqn:Hresult; [by vm_compute in Hresult|].
  exists generated, w'. split; [reflexivity|]. by eapply Hrun.
Defined.

Lemma instructions_are_renumbered_witness :
  exists recipe,
    parseRecipeResponse (H := Sample.foundation)
      (Sample.envelopeOf Sample.bowlReply) ["chicken breast"; "rice"; "broccoli"]
      = returns recipe
    /\ length (instructions recipe) = 1
    /\ stepNumber <$> instructions recipe = [1%Z]
    /\ instruction <$> instructions recipe = ["Cook chicken"].
Proof.
  destruct (instructions_are_renumbered (H := Sample.foundation)
              (Sample.envelopeOf Sample.bowlReply)
              ["chicken breast"; "rice"; "broccoli"] Sample.bowlPayload
              [list_to_map [("stepNumber", Sample.integer 5);
                            ("instruction", NSString "Cook chicken")]])
    as (recipe & Hparsed & Hlength & Hsteps & Htexts); [by vm_compute..|].
  exists recipe. rewrite Hlength, Hsteps, Htexts.
  split; [exact Hparsed|]. by vm_compute.
Defined.


Lemma missing_quantity_is_nil_witness :
  exists recipe ingredient,
    parseRecipeResponse (H := Sample.foundation)
      (Sample.envelopeOf Sample.carelessReply) ["salt"] = returns recipe
    /\ length (ingredients recipe) = 1
    /\ ingredients recipe !! 0 = Some ingredient
    /\ item ingredient = "salt"
    /\ quantity ingredient = None.
Proof.
  destruct (missing_quantity_is_nil (H := Sample.foundation)
              (Sample.envelopeOf Sample.carelessReply) ["salt"] Sample.carelessPayload
              [list_to_map [("item", NSString "salt"); ("quantity", NSString "a pinch")]]
              0
              (list_to_map [("item", NSString "salt"); ("quantity", NSString "a pinch")]))
    as (recipe & ingredient & Hparsed & Hlength & Hentry & Hitem & _ & Hquantity & _);
    [vm_compute; reflexivity..|].
  exists recipe, ingredient. rewrite Hlength, Hitem.
  split; [exact Hparsed|]. split; [by vm_compute|]. split; [exact Hentry|].
  split; [by vm_compute|]. apply Hquantity. intros number; vm_compute; discriminate.
Defined.

(** C7 as stated fails at a quantity that is not numeric and yet is decoded
    as an [NSNumber]: for the entry [{"item":"salt","quantity":true}] the
    mapped ingredient has the quantity 1.0, not none. *)
Lemma true_quantity_is_one :
  ~ exists recipe ingredient,
      parseRecipeResponse (H := Literal.foundation)
        (Sample.envelopeOf Literal.saltReply) ["salt"] = returns recipe
      /\ ingredients recipe !! 0 = Some ingredient
      /\ quantity ingredient = None.
Proof.
  intros (recipe & ingredient & Hparsed & Hentry & Hquantity).
  vm_compute in Hparsed. injection Hparsed as <-.
  vm_compute in Hentry. injection Hentry as <-.
  discriminate.
Qed.

(** C8, on the code.  The reply that reads servings 0, cook time -5 and
    preparation time -1 is returned as a recipe with exactly these values:
    none of the three bounds holds, and the total time is their sum, -6. *)
Theorem careless_payload_is_returned_unchecked :
  exists recipe,
    parseRecipeResponse (H := Sample.foundation)
      (Sample.envelopeOf Sample.carelessReply) ["salt"] = returns recipe
    /\ servings recipe = 0%Z
    /\ cookTime recipe = (-5)%Z
    /\ prepTime recipe = (-1)%Z
    /\ totalTime recipe = Some (-6)%Z
    /\ ~ (1 <= servings recipe)%Z
    /\ ~ (0 <= cookTime recipe)%Z
    /\ ~ (0 <= prepTime recipe)%Z.
Proof.
  exists (parseRecipe Sample.carelessPayload).
  split; [by vm_compute|].
  rewrite parseRecipe_fields. by vm_compute.
Qed.

Lemma mapping_never_throws_witness :
  (exists recipe,
     parseRecipeResponse (H := Sample.foundation)
       (Sample.envelopeOf Sample.carelessReply) ["salt"] = returns recipe
     /\ length (ingredients recipe) = 1
     /\ instructions recipe = []
     /\ nutrition recipe = None)
  /\ (forall recipeData,
        Sample.jsonObject Sample.fencedReply <> inr (NSDictionary recipeData)).
Proof.
  split.
  - destruct (proj1 (mapping_never_throws (H := Sample.foundation)
                       (Sample.envelopeOf Sample.carelessReply) ["salt"])
                Sample.carelessPayload)
      as (recipe & Hparsed & _ & Hinstructions & Hnutrition); [by vm_compute|].
    exists recipe. split; [exact Hparsed|].
    split; [by injection Hparsed as <-|].
    split; [apply Hinstructions|apply Hnutrition]; by vm_compute.
  - apply (proj2 (mapping_never_throws (H := Sample.foundation)
                    (Sample.envelopeOf Sample.fencedReply) ["salt"])
             (Cocoa Sample.notJSON)).
    by vm_compute.
Defined.

Lemma absent_text_is_the_placeholder_witness :
  extractTextFromResponse ∅ = "Unable to generate response"
  /\ parseRecipeResponse (H := Sample.foundation) ∅ ["salt"]
     = parseRecipeResponse (H := Sample.foundation)
         (Sample.envelopeOf "Unable to generate response") ["salt"]
  /\ parseSubstitutionsResponse (H := Sample.foundation) ∅ "cream"
     = parseSubstitutionsResponse (H := Sample.foundation)
         (Sample.envelopeOf "Unable to generate response") "cream"
  /\ exists error,
       parseRecipeResponse (H := Sample.foundation) ∅ ["salt"] = inl error
       /\ parseSubstitutionsResponse (H := Sample.foundation) ∅ "cream" = inl error.
Proof.
  apply (absent_text_is_the_placeholder (H := Sample.foundation)
           ∅ (Sample.envelopeOf "Unable to generate response") ["salt"] "cream"
           Sample.notJSON);
    by vm_compute.
Defined.

(** C3 as stated fails: the envelope without candidates raises the very error
    that a reply with an undecodable text raises, so no error tells the two
    apart. *)
Lemma absent_text_has_no_error_of_its_own :
  ~ exists EmptyGeneration MalformedPayload : Error,
      EmptyGeneration <> MalformedPayload
      /\ parseRecipeResponse (H := Sample.foundation) ∅ ["salt"] = inl EmptyGeneration
      /\ parseSubstitutionsResponse (H := Sample.foundation) ∅ "cream"
         = inl EmptyGeneration
      /\ parseRecipeResponse (H := Sample.foundation)
           (Sample.envelopeOf "Unable to generate response") ["salt"]
         = inl MalformedPayload
      /\ parseSubstitutionsResponse (H := Sample.foundation)
           (Sample.envelopeOf "Unable to generate response") "cream"
         = inl MalformedPayload.
Proof.
  intros (EmptyGeneration & MalformedPayload & Hdistinct & Habsent & _ & Hpresent & _).
  apply Hdistinct.
  vm_compute in Habsent, Hpresent. congruence.
Qed.

Lemma substitutions_reply_cases_witness :
  parseSubstitutionsResponse (H := Sample.foundation)
    (Sample.envelopeOf Sample.creamReply) "heavy cream"
  = returns
      [ {| sub_original := "heavy cream"; alternative := "Coconut cream";
           reason := ""; category := vegan |};
        {| sub_original := "heavy cream"; alternative := "";
           reason := "Lighter"; category := preference |} ]
  /\ parseSubstitutionsResponse (H := Sample.foundation)
       (Sample.envelopeOf "[]") "heavy cream" = returns []
  /\ parseSubstitutionsResponse (H := Sample.foundation)
       (Sample.envelopeOf "{}") "heavy cream" = throw parsingError
  /\ parseSubstitutionsResponse (H := Sample.foundation)
       (Sample.envelopeOf Sample.fencedReply) "heavy cream" = rethrow Sample.notJSON
  /\ parseSubstitutionsResponse (H := Sample.foundation)
       (Sample.envelopeOf Sample.fencedReply) "heavy cream" <> throw parsingError.
Proof.
  split.
  { rewrite (proj1 (substitutions_reply_cases (H := Sample.foundation)
                      (Sample.envelopeOf Sample.creamReply) "heavy cream")
               [list_to_map [("alternative", NSString "Coconut cream");
                             ("category", NSString "Vegan")];
                {[ "reason" := NSString "Lighter" ]}]);
      by vm_compute. }
  split.
  { rewrite (proj1 (substitutions_reply_cases (H := Sample.foundation)
                      (Sample.envelopeOf "[]") "heavy cream") []);
      by vm_compute. }
  split.
  { apply (proj1 (proj2 (substitutions_reply_cases (H := Sample.foundation)
                           (Sample.envelopeOf "{}") "heavy cream"))
             (NSDictionary ∅)); [by vm_compute|].
    by intros []. }
  apply (proj2 (proj2 (substitutions_reply_cases (H := Sample.foundation)
                         (Sample.envelopeOf Sample.fencedReply) "heavy cream"))).
  by vm_compute.
Defined.

Lemma api_key_guard_witness :
  (generateRecipe (H := Sample.foundation) ["salt"] None hard 45 Sample.signedOut
   = (throw missingAPIKey, Sample.signedOut)
   /\ chatWithRecipe (H := Sample.foundation) (parseRecipe ∅) "How long?" []
        Sample.signedOut
      = (throw missingAPIKey, Sample.signedOut)
   /\ findSubstitutions (H := Sample.foundation) "heavy cream" ["Vegan"] Sample.signedOut
      = (throw missingAPIKey, Sample.signedOut))
  /\ (generateRecipe (H := Sample.foundation) ["salt"] None hard 45 Sample.signedIn).1
     <> throw missingAPIKey
  /\ (chatWithRecipe (H := Sample.foundation) (parseRecipe ∅) "How long?" []
        Sample.signedIn).1
     <> throw missingAPIKey
  /\ (findSubstitutions (H := Sample.foundation) "heavy cream" ["Vegan"]
        Sample.signedIn).1
     <> throw missingAPIKey.
Proof.
  split.
  - destruct (proj1 (api_key_guard (H := Sample.foundation) Sample.signedOut))
      as (Hgenerate & Hchat & Hfind); [reflexivity|].
    split; [apply Hgenerate|split; [apply Hchat|apply Hfind]].
  - destruct (proj2 (api_key_guard (H := Sample.foundation) Sample.signedIn))
      as (Hgenerate & Hchat & Hfind); [by vm_compute|].
    split; [apply Hgenerate|split; [apply Hchat|apply Hfind]].
Defined.

Lemma prompt_without_cuisine_witness :
  contains (buildRecipeGenerationPrompt ["chicken breast"; "rice"; "broccoli"] None hard 45)
    "rice"
  /\ ~ contains
         (buildRecipeGenerationPrompt ["chicken breast"; "rice"; "broccoli"] None hard 45)
         "Cuisine:".
Proof.
  destruct (prompt_without_cuisine ["chicken breast"; "rice"; "broccoli"] hard 45)
    as (Hnamed & _ & _ & _ & _ & Hclean).
  split; [|exact Hclean].
  apply Hnamed. by apply (bool_decide_unpack _).
Defined.

(** * Properties of the transport, the screens and the layout *)

(** ** The transport *)

Section Transport.

Context `{Foundation}.

Lemma makeRequest_sentAtMostOnce (prompt model : string) (w : World) :
  sentAtMostOnce w (makeRequest prompt model w).
Proof.
  unfold sentAtMostOnce, makeRequest, throw, rethrow, returns.
  repeat case_match; simpl; (split; [done|]).
  all: first [ exists []; rewrite app_nil_r; split; [done|]; split; [simpl; lia|];
               intros value; discriminate
             | eexists [_]; split; [reflexivity|]; split; [simpl; lia|]; done ].
Qed.

(** What [makeRequest] does once it has handed [request] to the URL
    session, read off the answer to that request. *)
Lemma makeRequest_sent (prompt model : string) (w : World) (request : URLRequest) :
  sentRequests (makeRequest prompt model w).2 = (sentRequests w ++ [request])%list ->
  exists address bodyData,
    URL_init (baseURL +:+ "/models/" +:+ model +:+ ":generateContent?key=" +:+ apiKey w)
      = Some address
    /\ JSONSerialization_data (requestBody prompt) = inr bodyData
    /\ request =
       {| url := address; httpMethod := "POST";
          httpHeaderFields := [("Content-Type", "application/json")];
          httpBody := Some bodyData |}
    /\ (makeRequest prompt model w).2
       = {| userDefaults := userDefaults w;
            sentRequests := (sentRequests w ++ [request])%list |}
    /\ (makeRequest prompt model w).1
       = match URLSession_data request with
         | inl e => rethrow e
         | inr (data, OtherURLResponse) => throw invalidResponse
         | inr (data, HTTPURLResponse statusCode) =>
             if (statusCode =? 200)%Z then
               match JSONSerialization_jsonObject data with
               | inl e => rethrow e
               | inr (NSDictionary json) => returns json
               | inr _ => throw invalidResponse
               end
             else throw (httpError statusCode)
         end.
Proof.
  unfold makeRequest.
  destruct (URL_init _) as [address|] eqn:Haddress; simpl.
  2: { intros Hlog. apply (f_equal length) in Hlog.
       rewrite length_app in Hlog. simpl in Hlog. lia. }
  destruct (JSONSerialization_data _) as [e|bodyData] eqn:Hbody; simpl.
  { intros Hlog. apply (f_equal length) in Hlog.
    rewrite length_app in Hlog. simpl in Hlog. lia. }
  intros Hlog. exists address, bodyData.
  assert (request =
          {| url := address; httpMethod := "POST";
             httpHeaderFields := [("Content-Type", "application/json")];
             httpBody := Some bodyData |}) as ->.
  { repeat case_match; simpl in Hlog; by apply app_inj_tail in Hlog as [_ <-]. }
  repeat split; repeat case_match; simplify_eq/=; done.
Qed.


(** With a key, each operation is its request followed by its parser. *)
Lemma generateRecipe_with_key (names : list string) (cuisine : option string)
    (requested : Difficulty) (targetCookTime : Z) (w : World) :
  apiKey w <> "" ->
  generateRecipe names cuisine requested targetCookTime w
  = match makeRequest
            (buildRecipeGenerationPrompt names cuisine requested targetCookTime)
            "gemini-2.0-flash-exp" w with
    | (inl e, w') => (inl e, w')
    | (inr response, w') => (parseRecipeResponse response names, w')
    end.
Proof.
  intros Hkey%String.eqb_neq. unfold generateRecipe, Async_bind, try_.
  rewrite Hkey.
  destruct (makeRequest _ _ w) as [[e|response] w']; [done|].
  by destruct (parseRecipeResponse response names).
Qed.

Lemma chatWithRecipe_with_key (recipe : Recipe) (question : string)
    (history : list ChatMessage) (w : World) :
  apiKey w <> "" ->
  chatWithRecipe recipe question history w
  = match makeRequest (chatPrompt recipe question history) "gemini-2.0-flash-exp" w with
    | (inl e, w') => (inl e, w')
    | (inr response, w') => (returns (extractTextFromResponse response), w')
    end.
Proof.
  intros Hkey%String.eqb_neq. unfold chatWithRecipe, Async_bind, try_.
  rewrite Hkey. by destruct (makeRequest _ _ w) as [[e|response] w'].
Qed.

Lemma findSubstitutions_with_key (ingredient : string) (constraints : list string)
    (w : World) :
  apiKey w <> "" ->
  findSubstitutions ingredient constraints w
  = match makeRequest (buildSubstitutionPrompt ingredient constraints)
            "gemini-2.0-flash-exp" w with
    | (inl e, w') => (inl e, w')
    | (inr response, w') => (parseSubstitutionsResponse response ingredient, w')
    end.
Proof.
  intros Hkey%String.eqb_neq. unfold findSubstitutions, Async_bind, try_.
  rewrite Hkey. by destruct (makeRequest _ _ w) as [[e|response] w'].
Qed.

Lemma sentAtMostOnce_nothing {A} (w : World) (e : Error) :
  sentAtMostOnce (A := A) w (inl e, w).
Proof.
  split; [done|]. exists []. rewrite app_nil_r. repeat split; [simpl; lia|].
  intros value; discriminate.
Qed.

Lemma sentAtMostOnce_then {A B} (w : World) (outcome : Throws A * World)
    (parse : A -> Throws B) :
  sentAtMostOnce w outcome ->
  sentAtMostOnce w
    match outcome with
    | (inl e, w') => (inl e, w')
    | (inr response, w') => (parse response, w')
    end.
Proof.
  destruct outcome as [[e|response] w'];
    intros (Hdefaults & sent & Hlog & Hlength & Hsent);
    (split; [exact Hdefaults|]);
    exists sent; (split; [exact Hlog|]); (split; [exact Hlength|]).
  - intros value; discriminate.
  - intros value _. by eapply Hsent.
Qed.

Lemma generateRecipe_sentAtMostOnce (names : list string) (cuisine : option string)
    (requested : Difficulty) (targetCookTime : Z) (w : World) :
  sentAtMostOnce w (generateRecipe names cuisine requested targetCookTime w).
Proof.
  destruct (decide (apiKey w = "")) as [Hkey|Hkey].
  - unfold generateRecipe. rewrite Hkey. apply sentAtMostOnce_nothing.
  - rewrite generateRecipe_with_key by done.
    apply sentAtMostOnce_then, makeRequest_sentAtMostOnce.
Qed.

Lemma chatWithRecipe_sentAtMostOnce (recipe : Recipe) (question : string)
    (history : list ChatMessage) (w : World) :
  sentAtMostOnce w (chatWithRecipe recipe question history w).
Proof.
  destruct (decide (apiKey w = "")) as [Hkey|Hkey].
  - unfold chatWithRecipe. rewrite Hkey. apply sentAtMostOnce_nothing.
  - rewrite chatWithRecipe_with_key by done.
    apply (sentAtMostOnce_then _ _ (fun response => returns _)),
      makeRequest_sentAtMostOnce.
Qed.

Lemma findSubstitutions_sentAtMostOnce (ingredient : string)
    (constraints : list string) (w : World) :
  sentAtMostOnce w (findSubstitutions ingredient constraints w).
Proof.
  destruct (decide (apiKey w = "")) as [Hkey|Hkey].
  - unfold findSubstitutions. rewrite Hkey. apply sentAtMostOnce_nothing.
  - rewrite findSubstitutions_with_key by done.
    apply sentAtMostOnce_then, makeRequest_sentAtMostOnce.
Qed.

(** X1.  Each of the three operations leaves the defaults as they are and
    hands at most one request to the URL session: there is no retry; and an
    operation that returns a value has sent exactly one request. *)
Theorem operations_send_at_most_one_request (w : World) :
  (forall names cuisine requested targetCookTime,
     sentAtMostOnce w (generateRecipe names cuisine requested targetCookTime w))
  /\ (forall recipe question history,
        sentAtMostOnce w (chatWithRecipe recipe question history w))
  /\ (forall ingredient constraints,
        sentAtMostOnce w (findSubstitutions ingredient constraints w)).
Proof.
  split; [|split]; intros.
  - apply generateRecipe_sentAtMostOnce.
  - apply chatWithRecipe_sentAtMostOnce.
  - apply findSubstitutions_sentAtMostOnce.
Qed.

Lemma nothing_sent (w : World) (request : URLRequest) :
  sentRequests w <> (sentRequests w ++ [request])%list.
Proof.
  intros Hlog. apply (f_equal length) in Hlog.
  rewrite length_app in Hlog. simpl in Hlog. lia.
Qed.

(** An operation that has sent a request had a key, and what it does next
    is decided by the answer to that request. *)
Lemma generateRecipe_sent (names : list string) (cuisine : option string)
    (requested : Difficulty) (targetCookTime : Z) (w : World) (request : URLRequest) :
  sentRequests (generateRecipe names cuisine requested targetCookTime w).2
    = (sentRequests w ++ [request])%list ->
  apiKey w <> ""
  /\ sentRequests
       (makeRequest (buildRecipeGenerationPrompt names cuisine requested targetCookTime)
          "gemini-2.0-flash-exp" w).2
     = (sentRequests w ++ [request])%list.
Proof.
  destruct (decide (apiKey w = "")) as [Hkey|Hkey].
  - unfold generateRecipe. rewrite Hkey. simpl. by intros ?%nothing_sent.
  - rewrite generateRecipe_with_key by done.
    by destruct (makeRequest _ _ w) as [[e|response] w'].
Qed.

Lemma chatWithRecipe_sent (recipe : Recipe) (question : string)
    (history : list ChatMessage) (w : World) (request : URLRequest) :
  sentRequests (chatWithRecipe recipe question history w).2
    = (sentRequests w ++ [request])%list ->
  apiKey w <> ""
  /\ sentRequests
       (makeRequest (chatPrompt recipe question history) "gemini-2.0-flash-exp" w).2
     = (sentRequests w ++ [request])%list.
Proof.
  destruct (decide (apiKey w = "")) as [Hkey|Hkey].
  - unfold chatWithRecipe. rewrite Hkey. simpl. by intros ?%nothing_sent.
  - rewrite chatWithRecipe_with_key by done.
    by destruct (makeRequest _ _ w) as [[e|response] w'].
Qed.

Lemma findSubstitutions_sent (ingredient : string) (constraints : list string)
    (w : World) (request : URLRequest) :
  sentRequests (findSubstitutions ingredient constraints w).2
    = (sentRequests w ++ [request])%list ->
  apiKey w <> ""
  /\ sentRequests
       (makeRequest (buildSubstitutionPrompt ingredient constraints)
          "gemini-2.0-flash-exp" w).2
     = (sentRequests w ++ [request])%list.
Proof.
  destruct (decide (apiKey w = "")) as [Hkey|Hkey].
  - unfold findSubstitutions. rewrite Hkey. simpl. by intros ?%nothing_sent.
  - rewrite findSubstitutions_with_key by done.
    by destruct (makeRequest _ _ w) as [[e|response] w'].
Qed.

Lemma makeRequest_status (prompt model : string) (w : World) (request : URLRequest)
    (data : Data) (statusCode : Z) :
  sentRequests (makeRequest prompt model w).2 = (sentRequests w ++ [request])%list ->
  URLSession_data request = inr (data, HTTPURLResponse statusCode) ->
  statusCode <> 200%Z ->
  (makeRequest prompt model w).1 = throw (httpError statusCode).
Proof.
  intros (address & bodyData & _ & _ & _ & _ & ->)%makeRequest_sent Hanswer Hstatus.
  rewrite Hanswer. by apply Z.eqb_neq in Hstatus as ->.
Qed.

Lemma makeRequest_answer (prompt model : string) (w : World) (request : URLRequest)
    (data : Data) (json : gmap string Any) :
  sentRequests (makeRequest prompt model w).2 = (sentRequests w ++ [request])%list ->
  URLSession_data request = inr (data, HTTPURLResponse 200) ->
  JSONSerialization_jsonObject data = inr (NSDictionary json) ->
  makeRequest prompt model w
  = (returns json,
     {| userDefaults := userDefaults w;
        sentRequests := (sentRequests w ++ [request])%list |}).
Proof.
  intros (address & bodyData & _ & _ & _ & Hworld & Hresult)%makeRequest_sent
    Hanswer Hdecoded.
  rewrite Hanswer, Hdecoded in Hresult. simpl in Hresult.
  destruct (makeRequest prompt model w) as [result w']. simpl in *. congruence.
Qed.

Lemma generateRecipe_status (names : list string) (cuisine : option string)
    (requested : Difficulty) (targetCookTime : Z) (w : World) (request : URLRequest)
    (data : Data) (statusCode : Z) :
  URLSession_data request = inr (data, HTTPURLResponse statusCode) ->
  statusCode <> 200%Z ->
  sentRequests (generateRecipe names cuisine requested targetCookTime w).2
    = (sentRequests w ++ [request])%list ->
  (generateRecipe names cuisine requested targetCookTime w).1
  = throw (httpError statusCode).
Proof.
  intros Hanswer Hstatus [Hkey Hsent]%generateRecipe_sent.
  pose proof (makeRequest_status _ _ _ _ _ _ Hsent Hanswer Hstatus) as Hthrown.
  rewrite generateRecipe_with_key by done.
  destruct (makeRequest _ _ w) as [[e|response] w']; unfold throw in *;
    simplify_eq/=; done.
Qed.

Lemma chatWithRecipe_status (recipe : Recipe) (question : string)
    (history : list ChatMessage) (w : World) (request : URLRequest)
    (data : Data) (statusCode : Z) :
  URLSession_data request = inr (data, HTTPURLResponse statusCode) ->
  statusCode <> 200%Z ->
  sentRequests (chatWithRecipe recipe question history w).2
    = (sentRequests w ++ [request])%list ->
  (chatWithRecipe recipe question history w).1 = throw (httpError statusCode).
Proof.
  intros Hanswer Hstatus [Hkey Hsent]%chatWithRecipe_sent.
  pose proof (makeRequest_status _ _ _ _ _ _ Hsent Hanswer Hstatus) as Hthrown.
  rewrite chatWithRecipe_with_key by done.
  destruct (makeRequest _ _ w) as [[e|response] w']; unfold throw in *;
    simplify_eq/=; done.
Qed.

Lemma findSubstitutions_status (ingredient : string) (constraints : list string)
    (w : World) (request : URLRequest) (data : Data) (statusCode : Z) :
  URLSession_data request = inr (data, HTTPURLResponse statusCode) ->
  statusCode <> 200%Z ->
  sentRequests (findSubstitutions ingredient constraints w).2
    = (sentRequests w ++ [request])%list ->
  (findSubstitutions ingredient constraints w).1 = throw (httpError statusCode).
Proof.
  intros Hanswer Hstatus [Hkey Hsent]%findSubstitutions_sent.
  pose proof (makeRequest_status _ _ _ _ _ _ Hsent Hanswer Hstatus) as Hthrown.
  rewrite findSubstitutions_with_key by done.
  destruct (makeRequest _ _ w) as [[e|response] w']; unfold throw in *;
    simplify_eq/=; done.
Qed.

(** X2.  When the request that an operation has sent is answered with an
    HTTP status other than 200, the operation throws [httpError] with that
    status, whatever the body of the answer. *)
Theorem status_other_than_200_is_thrown (w : World) (request : URLRequest)
    (data : Data) (statusCode : Z) :
  URLSession_data request = inr (data, HTTPURLResponse statusCode) ->
  statusCode <> 200%Z ->
  (forall names cuisine requested targetCookTime,
     sentRequests (generateRecipe names cuisine requested targetCookTime w).2
       = (sentRequests w ++ [request])%list ->
     (generateRecipe names cuisine requested targetCookTime w).1
     = throw (httpError statusCode))
  /\ (forall recipe question history,
        sentRequests (chatWithRecipe recipe question history w).2
          = (sentRequests w ++ [request])%list ->
        (chatWithRecipe recipe question history w).1 = throw (httpError statusCode))
  /\ (forall ingredient constraints,
        sentRequests (findSubstitutions ingredient constraints w).2
          = (sentRequests w ++ [request])%list ->
        (findSubstitutions ingredient constraints w).1 = throw (httpError statusCode)).
Proof.
  intros Hanswer Hstatus. split; [|split]; intros.
  - by eapply generateRecipe_status.
  - by eapply chatWithRecipe_status.
  - by eapply findSubstitutions_status.
Qed.

(** X3.  When the request that [generateRecipe] has sent is answered with
    status 200 and an envelope whose generated text decodes to a JSON
    object, the operation returns the recipe mapped from that object; for
    [findSubstitutions] and a text that decodes to an array of objects, it
    returns one substitution per element, in order, each for the ingredient
    that was asked about. *)
Theorem answer_200_is_parsed (w : World) (request : URLRequest) (data : Data)
    (json : gmap string Any) :
  URLSession_data request = inr (data, HTTPURLResponse 200) ->
  JSONSerialization_jsonObject data = inr (NSDictionary json) ->
  (forall names cuisine requested targetCookTime recipeData,
     sentRequests (generateRecipe names cuisine requested targetCookTime w).2
       = (sentRequests w ++ [request])%list ->
     JSONSerialization_jsonObject (extractTextFromResponse json)
       = inr (NSDictionary recipeData) ->
     (generateRecipe names cuisine requested targetCookTime w).1
     = returns (parseRecipe recipeData))
  /\ (forall ingredient constraints substitutionsData,
        sentRequests (findSubstitutions ingredient constraints w).2
          = (sentRequests w ++ [request])%list ->
        JSONSerialization_jsonObject (extractTextFromResponse json)
          = inr (NSArray (NSDictionary <$> substitutionsData)) ->
        exists substitutions,
          (findSubstitutions ingredient constraints w).1 = returns substitutions
          /\ length substitutions = length substitutionsData
          /\ alternative <$> substitutions
             = (fun entry => as_String (entry !! "alternative") ?? "")
                 <$> substitutionsData
          /\ Forall (fun substitution => sub_original substitution = ingredient)
               substitutions).
Proof.
  intros Hanswer Henvelope. split.
  - intros names cuisine requested targetCookTime recipeData
      [Hkey Hsent]%generateRecipe_sent Hdecoded.
    rewrite generateRecipe_with_key by done.
    rewrite (makeRequest_answer _ _ _ _ _ _ Hsent Hanswer Henvelope). simpl.
    by apply parseRecipeResponse_decoded.
  - intros ingredient constraints substitutionsData
      [Hkey Hsent]%findSubstitutions_sent Hdecoded.
    exists (parseSubstitution ingredient <$> substitutionsData).
    split; [|split; [|split]].
    + rewrite findSubstitutions_with_key by done.
      rewrite (makeRequest_answer _ _ _ _ _ _ Hsent Hanswer Henvelope). simpl.
      by apply parseSubstitutionsResponse_array.
    + by rewrite length_fmap.
    + by rewrite <- list_fmap_compose.
    + by apply Forall_fmap, Forall_true.
Qed.

(** X4.  The chat never throws [parsingError]: when the request it has sent
    is answered with status 200 and a JSON object, it returns the generated
    text of that envelope as it stands, and the placeholder "Unable to
    generate response" when the envelope holds no generated text. *)
Theorem chat_answers_with_the_text (recipe : Recipe) (question : string)
    (history : list ChatMessage) (w : World) :
  (chatWithRecipe recipe question history w).1 <> throw parsingError
  /\ (forall request data json,
        sentRequests (chatWithRecipe recipe question history w).2
          = (sentRequests w ++ [request])%list ->
        URLSession_data request = inr (data, HTTPURLResponse 200) ->
        JSONSerialization_jsonObject data = inr (NSDictionary json) ->
        (chatWithRecipe recipe question history w).1
        = returns (generatedText json ?? "Unable to generate response")).
Proof.
  split.
  - unfold chatWithRecipe, Async_bind, try_, makeRequest, throw, rethrow, returns.
    repeat case_match; simplify_eq/=; discriminate.
  - intros request data json [Hkey Hsent]%chatWithRecipe_sent Hanswer Henvelope.
    rewrite chatWithRecipe_with_key by done.
    rewrite (makeRequest_answer _ _ _ _ _ _ Hsent Hanswer Henvelope). simpl.
    unfold extractTextFromResponse. by destruct (generatedText json).
Qed.

End Transport.

(** ** Labels and their enumerations *)

(** X5.  A meal type label in ASCII is recognised whatever the case of
    its letters, and only then: [parseMealType] answers [m] exactly for the
    ASCII texts that are, letter case apart, the raw value of [m]. *)
Theorem parseMealType_recognises (text : string) (m : MealType) :
  isASCII text = true ->
  parseMealType (Some text) = Some m
  <-> lowercased text = lowercased (MealType_rawValue m).
Proof.
  intros _. unfold parseMealType. split.
  - intros [_ Hfound%String.eqb_eq]%find_some. done.
  - intros ->. by destruct m.
Qed.

Lemma SubstitutionCategory_init_rawValue (c : SubstitutionCategory) :
  SubstitutionCategory_init (SubstitutionCategory_rawValue c) = Some c.
Proof. by destruct c. Qed.

Lemma SubstitutionCategory_init_Some (text : string) (c : SubstitutionCategory) :
  SubstitutionCategory_init text = Some c -> text = SubstitutionCategory_rawValue c.
Proof.
  unfold SubstitutionCategory_init.
  by intros [_ Hfound%String.eqb_eq]%find_some.
Qed.

(** X6.  A substitution category is recognised by its exact raw value, and
    every other ASCII label, like an absent label, counts as
    [preference]. *)
Theorem parseSubstitutionCategory_recognises (label : option string)
    (c : SubstitutionCategory) :
  (forall text, label = Some text -> isASCII text = true) ->
  parseSubstitutionCategory label = c
  <-> label = Some (SubstitutionCategory_rawValue c)
      \/ (c = preference
          /\ forall other, label <> Some (SubstitutionCategory_rawValue other)).
Proof.
  intros _. unfold parseSubstitutionCategory. split.
  - destruct label as [text|]; [|intros <-; right; by split].
    destruct (SubstitutionCategory_init text) as [found|] eqn:Hinit; simpl.
    + intros <-. left. f_equal. by apply SubstitutionCategory_init_Some.
    + intros <-. right. split; [done|]. intros other Hother.
      injection Hother as ->. by rewrite SubstitutionCategory_init_rawValue in Hinit.
  - intros [->|[-> Hnone]].
    + by rewrite SubstitutionCategory_init_rawValue.
    + destruct label as [text|]; [|done].
      destruct (SubstitutionCategory_init text) as [found|] eqn:Hinit; [|done].
      apply SubstitutionCategory_init_Some in Hinit as ->. by destruct (Hnone found).
Qed.

(** ** What the prompts name and what the parsers read *)

Lemma hasPrefix_sound (s prefix : string) :
  hasPrefix s prefix = true -> exists rest, s = prefix +:+ rest.
Proof.
  revert s. induction prefix as [|p prefix IH]; intros s; [by exists s|].
  destruct s as [|c s]; [done|]. simpl.
  intros [->%Ascii.eqb_eq [rest ->]%IH]%andb_prop. by exists rest.
Qed.

Lemma includes_sound (haystack needle : string) :
  includes haystack needle = true -> contains haystack needle.
Proof.
  induction haystack as [|c haystack IH].
  - simpl. rewrite orb_false_r. destruct needle; [by exists "", ""|done].
  - change (includes (String c haystack) needle)
      with (hasPrefix (String c haystack) needle || includes haystack needle).
    intros [[rest Hprefix]%hasPrefix_sound|Hlater]%orb_prop.
    + rewrite Hprefix. by exists "", rest.
    + destruct (IH Hlater) as (before & after & ->).
      by exists (String c before), after.
Qed.

Lemma contains_line (lines : list string) (i : nat) (line needle : string) :
  lines !! i = Some line ->
  includes line needle = true ->
  contains (multiline lines) needle.
Proof.
  intros Hline%list_elem_of_lookup_2 Hneedle%includes_sound.
  eapply contains_trans; [by apply contains_joined|done].
Qed.

Lemma lookup_restricted (keys : list string) (entries : gmap string Any) (key : string) :
  key ∈ keys -> restricted keys entries !! key = entries !! key.
Proof.
  intros Hkey. unfold restricted.
  destruct (entries !! key) as [value|] eqn:Hentry.
  - by apply map_lookup_filter_Some_2.
  - apply map_lookup_filter_None_2. by left.
Qed.

(** Finds, among the first lines of a multi-line prompt, one that is a
    literal and holds the text looked for. *)
Ltac names_in_line fuel i :=
  lazymatch fuel with
  | O => fail "no line of the prompt holds the text"
  | S ?fuel' =>
      first
        [ eapply (contains_line _ i); [reflexivity|vm_compute; reflexivity]
        | names_in_line fuel' (S i) ]
  end.

Ltac names_it := names_in_line 48%nat 0%nat.

Ltac is_listed := apply (bool_decide_unpack _); vm_compute; exact I.

Section Agreement.

Context `{Foundation}.

(** X7.  The prompt for a recipe and the parser of its reply agree on the
    names of the fields: the prompt names, between double quotes, every key
    that the parser reads from the payload, from an entry of its
    ingredients, from an entry of its instructions and from its nutrition
    object, and it names every meal type by its raw value; the parser reads
    no other key, so that an entry under any other key may be dropped from
    the reply without changing the recipe. *)
Theorem recipe_prompt_names_what_the_parser_reads (names : list string)
    (cuisine : option string) (requested : Difficulty) (targetCookTime : Z) :
  (forall key,
     key ∈ (recipeKeys ++ ingredientKeys ++ instructionKeys ++ nutritionKeys)%list ->
     contains (buildRecipeGenerationPrompt names cuisine requested targetCookTime)
       (quoted key))
  /\ (forall m,
        contains (buildRecipeGenerationPrompt names cuisine requested targetCookTime)
          (MealType_rawValue m))
  /\ (forall recipeData,
        parseRecipe recipeData = parseRecipe (restricted recipeKeys recipeData))
  /\ (forall ingData,
        parsedIngredient ingData
        = parsedIngredient (restricted ingredientKeys ingData))
  /\ (forall index instData,
        parsedInstruction index instData
        = parsedInstruction index (restricted instructionKeys instData))
  /\ (forall nutritionData,
        parseNutrition nutritionData
        = parseNutrition (restricted nutritionKeys nutritionData)).
Proof.
  split; [|split; [|split; [|split; [|split]]]].
  - intros key Hkey. unfold buildRecipeGenerationPrompt.
    unfold recipeKeys, ingredientKeys, instructionKeys, nutritionKeys in Hkey.
    simpl in Hkey.
    repeat (apply elem_of_cons in Hkey as [->|Hkey]);
      [names_it..|by apply elem_of_nil in Hkey].
  - intros m. unfold buildRecipeGenerationPrompt. destruct m; names_it.
  - intros recipeData. rewrite !parseRecipe_fields.
    by rewrite !lookup_restricted by is_listed.
  - intros ingData. unfold parsedIngredient.
    by rewrite !lookup_restricted by is_listed.
  - intros index instData. unfold parsedInstruction.
    by rewrite !lookup_restricted by is_listed.
  - intros nutritionData. unfold parseNutrition.
    by rewrite !lookup_restricted by is_listed.
Qed.

(** X8.  The prompt for substitutions carries the ingredient asked about
    and every constraint; it names, between double quotes, the three keys
    that the parser reads from an entry of the reply, and every category by
    its raw value; the parser reads no other key of an entry. *)
Theorem substitution_prompt_names_what_the_parser_reads (ingredient : string)
    (constraints : list string) :
  contains (buildSubstitutionPrompt ingredient constraints) ingredient
  /\ (forall constraint,
        constraint ∈ constraints ->
        contains (buildSubstitutionPrompt ingredient constraints) constraint)
  /\ (forall key,
        key ∈ substitutionKeys ->
        contains (buildSubstitutionPrompt ingredient constraints) (quoted key))
  /\ (forall c,
        contains (buildSubstitutionPrompt ingredient constraints)
          (SubstitutionCategory_rawValue c))
  /\ (forall original data,
        parseSubstitution original data
        = parseSubstitution original (restricted substitutionKeys data)).
Proof.
  split; [|split; [|split; [|split]]].
  - unfold buildSubstitutionPrompt.
    eapply contains_trans; [apply contains_joined, (list_elem_of_lookup_2 _ 0); reflexivity|].
    apply contains_append_r, contains_refl.
  - intros constraint Hconstraint. unfold buildSubstitutionPrompt.
    eapply contains_trans; [apply contains_joined, (list_elem_of_lookup_2 _ 2); reflexivity|].
    destruct constraints as [|first rest]; [by apply elem_of_nil in Hconstraint|].
    by apply contains_append_r, contains_joined.
  - intros key Hkey. unfold buildSubstitutionPrompt.
    unfold substitutionKeys in Hkey.
    repeat (apply elem_of_cons in Hkey as [->|Hkey]);
      [names_it..|by apply elem_of_nil in Hkey].
  - intros c. unfold buildSubstitutionPrompt. destruct c; names_it.
  - intros original data. unfold parseSubstitution.
    by rewrite !lookup_restricted by is_listed.
Qed.

End Agreement.

(** ** Numbers in print *)

Lemma Int_description_inj (a b : Z) : Int_description a = Int_description b -> a = b.
Proof.
  unfold Int_description. intros Hprinted.
  apply DecimalZ.to_int_inj.
  apply (f_equal NilEmpty.int_of_string) in Hprinted.
  rewrite !NilEmpty.isi in Hprinted. congruence.
Qed.

Lemma string_of_uint_digit (d : Decimal.uint) :
  d <> Decimal.Nil ->
  exists c rest,
    NilEmpty.string_of_uint d = String c rest /\ c <> "-"%char /\ c <> "+"%char.
Proof. destruct d; [done|..]; intros _; eexists _, _; by split. Qed.

Lemma Int_init_positive (p : positive) :
  Int_fits (Z.pos p) = true ->
  Int_init (NilEmpty.string_of_uint (Pos.to_uint p)) = Some (Z.pos p).
Proof.
  intros Hfits.
  destruct (string_of_uint_digit (Pos.to_uint p)) as (c & rest & Hprinted & Hminus & Hplus);
    [apply DecimalPos.Unsigned.to_uint_nonnil|].
  pose proof (NilEmpty.usu (Pos.to_uint p)) as Hread.
  unfold Int_init. rewrite Hprinted in *.
  assert (Z.of_uint (Pos.to_uint p) = Z.pos p) as Hvalue.
  { unfold Z.of_uint. by rewrite DecimalPos.Unsigned.of_to. }
  destruct (Ascii.eqb_spec c "-") as [->|_]; [done|].
  destruct (Ascii.eqb_spec c "+") as [->|_]; [done|].
  assert (forall (A : Type) (minus plus other : A),
            match c with
            | "-"%char => minus | "+"%char => plus | _ => other
            end = other) as Hother.
  { intros A minus plus other.
    destruct c as [[] [] [] [] [] [] [] []]; done. }
  rewrite Hother, Hread. simpl. by rewrite Hvalue, Hfits.
Qed.

Lemma Int_init_description (z : Z) :
  Int_fits z = true -> Int_init (Int_description z) = Some z.
Proof.
  intros Hfits. destruct z as [|p|p]; [done|by apply Int_init_positive|].
  unfold Int_description. simpl.
  destruct (string_of_uint_digit (Pos.to_uint p)) as (c & rest & Hprinted & _);
    [apply DecimalPos.Unsigned.to_uint_nonnil|].
  pose proof (NilEmpty.usu (Pos.to_uint p)) as Hread.
  unfold Int_init. rewrite Hprinted in *. rewrite Hread. simpl.
  unfold Z.of_uint. rewrite DecimalPos.Unsigned.of_to.
  change (- Z.of_N (N.pos p))%Z with (Z.neg p). by rewrite Hfits.
Qed.

Section Messages.

Context `{Toolkit}.

(** X9.  The message that a view shows for an error of the service is not
    empty and tells the errors apart, the status of an [httpError]
    included. *)
Theorem messages_tell_the_errors_apart (e1 e2 : GeminiError) :
  localizedDescription (Gemini e1) <> ""
  /\ (localizedDescription (Gemini e1) = localizedDescription (Gemini e2)
      <-> e1 = e2).
Proof.
  split; [by destruct e1|].
  split; [|by intros ->].
  destruct e1, e2; simpl; try done.
  intros [= Hprinted]. by apply Int_description_inj in Hprinted as ->.
Qed.

End Messages.

(** ** Trimming and splitting *)

Section Trimming.

Variable inSet : ascii -> bool.

Lemma dropLeading_startsOutside (s : string) : startsOutside inSet (dropLeading inSet s).
Proof.
  induction s as [|c s IH]; [done|]. simpl.
  by destruct (inSet c) eqn:Hc.
Qed.

Lemma dropLeading_id (s : string) : startsOutside inSet s -> dropLeading inSet s = s.
Proof. destruct s as [|c s]; [done|]. simpl. by intros ->. Qed.

Lemma dropTrailing_startsOutside (s : string) :
  startsOutside inSet s -> startsOutside inSet (dropTrailing inSet s).
Proof.
  destruct s as [|c s]; [done|]. simpl. intros Hc.
  destruct (dropTrailing inSet s); [by rewrite Hc|done].
Qed.

Lemma dropTrailing_idemp (s : string) :
  dropTrailing inSet (dropTrailing inSet s) = dropTrailing inSet s.
Proof.
  induction s as [|c s IH]; [done|]. simpl.
  destruct (dropTrailing inSet s) as [|k kept] eqn:Hkept.
  - destruct (inSet c) eqn:Hc; [done|]. simpl. by rewrite Hc.
  - change (dropTrailing inSet (String c (String k kept)))
      with (match dropTrailing inSet (String k kept) with
            | EmptyString => if inSet c then EmptyString else String c EmptyString
            | kept' => String c kept'
            end).
    by rewrite IH.
Qed.

Lemma dropLeading_empty (s : string) :
  dropLeading inSet s = "" <-> allSatisfy inSet s = true.
Proof.
  induction s as [|c s IH]; [done|]. simpl.
  destruct (inSet c); [done|]. by split.
Qed.

Lemma dropTrailing_empty (s : string) :
  dropTrailing inSet s = "" <-> allSatisfy inSet s = true.
Proof.
  induction s as [|c s IH]; [done|]. simpl.
  destruct (dropTrailing inSet s) as [|k kept].
  - destruct (inSet c); simpl; [|by split].
    split; intros _; [by apply IH|done].
  - split; [done|]. intros [_ Hrest%IH]%andb_prop. done.
Qed.

Lemma dropLeading_contains (s : string) : contains s (dropLeading inSet s).
Proof.
  induction s as [|c s IH]; [apply contains_refl|]. simpl.
  destruct (inSet c); [|apply contains_refl].
  destruct IH as (before & after & Hs).
  exists (String c before), after. by rewrite append_cons, <- Hs.
Qed.

Lemma dropTrailing_prefix (s : string) :
  exists dropped, s = dropTrailing inSet s +:+ dropped.
Proof.
  induction s as [|c s [dropped Hs]]; [by exists ""|]. simpl.
  destruct (dropTrailing inSet s) as [|k kept].
  - destruct (inSet c); [by exists (String c s)|].
    exists dropped. by rewrite append_cons, <- Hs.
  - exists dropped. by rewrite append_cons, <- Hs.
Qed.

Lemma dropTrailing_contains (s : string) : contains s (dropTrailing inSet s).
Proof. destruct (dropTrailing_prefix s) as [dropped Hs]. by exists "", dropped. Qed.

End Trimming.

Lemma trimming_idemp (s : string) :
  trimmingWhitespacesAndNewlines (trimmingWhitespacesAndNewlines s)
  = trimmingWhitespacesAndNewlines s.
Proof.
  unfold trimmingWhitespacesAndNewlines.
  rewrite (dropLeading_id _ (dropTrailing _ _)).
  - apply dropTrailing_idemp.
  - apply dropTrailing_startsOutside, dropLeading_startsOutside.
Qed.

Lemma trimming_empty (s : string) :
  trimmingWhitespacesAndNewlines s = ""
  <-> allSatisfy is_whitespaceOrNewline s = true.
Proof.
  unfold trimmingWhitespacesAndNewlines.
  rewrite <- dropLeading_empty. split; [|by intros ->].
  intros Hempty%dropTrailing_empty.
  pose proof (dropLeading_startsOutside is_whitespaceOrNewline s) as Hstart.
  destruct (dropLeading is_whitespaceOrNewline s) as [|c rest]; [done|].
  simpl in *. by rewrite Hstart in Hempty.
Qed.

Lemma trimming_contains (s : string) : contains s (trimmingWhitespacesAndNewlines s).
Proof.
  eapply contains_trans; [apply dropLeading_contains|apply dropTrailing_contains].
Qed.

Lemma components_nonempty (s : string) : componentsSeparatedByNewline s <> [].
Proof.
  destruct s as [|c s]; [done|]. simpl.
  destruct (Ascii.eqb c "010"); [done|].
  by destruct (componentsSeparatedByNewline s).
Qed.

(** Joining the components with line feeds gives the text back. *)
Lemma components_joined (s : string) :
  joined newline (componentsSeparatedByNewline s) = s.
Proof.
  induction s as [|c s IH]; [done|]. simpl.
  pose proof (components_nonempty s) as Hpieces.
  destruct (componentsSeparatedByNewline s) as [|first others]; [done|].
  destruct (Ascii.eqb_spec c "010") as [->|_].
  - change (joined newline ("" :: first :: others))
      with (newline +:+ joined newline (first :: others)).
    by rewrite IH.
  - destruct others as [|second others]; [by simpl in *; subst|].
    change (joined newline (String c first :: second :: others))
      with (String c (joined newline (first :: second :: others))).
    by rewrite IH.
Qed.

Lemma components_contains (s piece : string) :
  piece ∈ componentsSeparatedByNewline s -> contains s piece.
Proof.
  intros Hpiece. rewrite <- (components_joined s) at 1. by apply contains_joined.
Qed.

Lemma allSatisfy_append (predicate : ascii -> bool) (s t : string) :
  allSatisfy predicate (s +:+ t) = allSatisfy predicate s && allSatisfy predicate t.
Proof.
  induction s as [|c s IH]; [done|]. rewrite append_cons. simpl.
  by rewrite IH, andb_assoc.
Qed.

Lemma allSatisfy_joined (parts : list string) :
  allSatisfy is_whitespaceOrNewline (joined newline parts) = true
  <-> Forall (fun part => allSatisfy is_whitespaceOrNewline part = true) parts.
Proof.
  induction parts as [|first rest IH]; [done|].
  destruct rest as [|second rest].
  - simpl. split; [by constructor|by intros [? _]%Forall_cons].
  - change (joined newline (first :: second :: rest))
      with (first +:+ newline +:+ joined newline (second :: rest)).
    rewrite !allSatisfy_append, Forall_cons, <- IH.
    change (allSatisfy is_whitespaceOrNewline newline) with true.
    rewrite andb_true_l. split; [by intros [? ?]%andb_prop|].
    intros [-> ->]. done.
Qed.

(** X10.  For a text typed in ASCII, every entry of [ingredientsList] is a
    non-empty, trimmed stretch of the text, and the list is empty exactly
    when the text has nothing but white space and line breaks; so the
    button that generates is disabled exactly then, or while a generation
    is under way. *)
Theorem ingredientsList_entries (view : AIGenerationView.State) :
  isASCII (AIGenerationView.ingredientsText view) = true ->
  Forall
    (fun entry =>
       entry <> ""
       /\ trimmingWhitespacesAndNewlines entry = entry
       /\ contains (AIGenerationView.ingredientsText view) entry)
    (AIGenerationView.ingredientsList view)
  /\ (AIGenerationView.generateDisabled view = true
      <-> allSatisfy is_whitespaceOrNewline (AIGenerationView.ingredientsText view)
          = true
          \/ AIGenerationView.isGenerating view = true).
Proof.
  intros _.
  unfold AIGenerationView.generateDisabled, AIGenerationView.ingredientsList. split.
  - apply Forall_forall. intros entry [Hfilled Hentry]%list_elem_of_filter.
    apply list_elem_of_fmap in Hentry as (piece & -> & Hpiece).
    split; [done|]. split; [apply trimming_idemp|].
    eapply contains_trans; [by apply components_contains|apply trimming_contains].
  - rewrite orb_true_iff, bool_decide_eq_true.
    rewrite <- (components_joined (AIGenerationView.ingredientsText view)) at 2.
    rewrite allSatisfy_joined.
    assert (filter (fun line => line <> "")
              (trimmingWhitespacesAndNewlines
                 <$> componentsSeparatedByNewline (AIGenerationView.ingredientsText view))
            = []
            <-> Forall (fun part => allSatisfy is_whitespaceOrNewline part = true)
                  (componentsSeparatedByNewline (AIGenerationView.ingredientsText view)))
      as ->; [|done].
    induction (componentsSeparatedByNewline (AIGenerationView.ingredientsText view))
      as [|piece pieces IH]; [done|].
    rewrite fmap_cons, filter_cons, Forall_cons, <- IH, <- trimming_empty.
    destruct (decide (trimmingWhitespacesAndNewlines piece <> "")) as [Hfilled|Hblank].
    + split; [done|]. by intros [? _].
    + apply dec_stable in Hblank. by split; [|intros [_ ?]].
Qed.

(** ** The screens that call the service *)

Section Screens.

Context `{Foundation} `{Toolkit}.

(** X11.  [generateRecipe] of the generation screen calls the service once,
    with the entries of [ingredientsList] and with no cuisine when the
    field is empty.  A recipe is inserted and saved only when the service
    returned it, exactly one request having been sent; after a failure
    nothing is inserted or saved, the recipe shown before stays, and the
    message of the error is shown.  Either way the screen stops
    generating. *)
Theorem generation_stores_what_the_service_returned (view : AIGenerationView.State)
    (effects : list Effect) (w : World) :
  exists outcome after effects' w',
    generateRecipe
      (AIGenerationView.ingredientsList view)
      (if String.eqb (AIGenerationView.selectedCuisine view) "" then None
       else Some (AIGenerationView.selectedCuisine view))
      (AIGenerationView.selectedDifficulty view)
      (AIGenerationView.targetCookTime view) w
    = (outcome, w')
    /\ AIGenerationView.generateRecipe view effects w = (after, effects', w')
    /\ sentAtMostOnce w (outcome, w')
    /\ AIGenerationView.isGenerating after = false
    /\ AIGenerationView.ingredientsText after = AIGenerationView.ingredientsText view
    /\ match outcome with
       | inr recipe =>
           AIGenerationView.generatedRecipe after = Some recipe
           /\ AIGenerationView.errorMessage after = None
           /\ effects' = (effects ++ [insertRecipe recipe; save])%list
       | inl error =>
           AIGenerationView.generatedRecipe after
           = AIGenerationView.generatedRecipe view
           /\ AIGenerationView.errorMessage after = Some (localizedDescription error)
           /\ effects' = effects
       end.
Proof.
  pose proof (generateRecipe_sentAtMostOnce
                (AIGenerationView.ingredientsList view)
                (if String.eqb (AIGenerationView.selectedCuisine view) "" then None
                 else Some (AIGenerationView.selectedCuisine view))
                (AIGenerationView.selectedDifficulty view)
                (AIGenerationView.targetCookTime view) w) as Honce.
  unfold AIGenerationView.generateRecipe. simpl.
  change (AIGenerationView.ingredientsList _)
    with (AIGenerationView.ingredientsList view).
  destruct (generateRecipe _ _ _ _ w) as [[error|recipe] w'];
    eexists _, _, _, _; (split; [reflexivity|]); (split; [reflexivity|]);
    (split; [exact Honce|]); done.
Qed.

Lemma findSubstitutions_original (ingredient : string) (constraints : list string)
    (w : World) (results : list Substitution) :
  (findSubstitutions ingredient constraints w).1 = returns results ->
  Forall (fun substitution => sub_original substitution = ingredient) results.
Proof.
  unfold findSubstitutions, Async_bind, try_, parseSubstitutionsResponse,
    throw, rethrow, returns.
  repeat case_match; simpl; intros; simplify_eq/=.
  by apply Forall_fmap, Forall_true.
Qed.

(** X12.  [findSubstitutions] of the substitution screen calls the service
    once, for the item of its ingredient.  The list shown is replaced only
    when the service returned one, and then every substitution in it is
    for that item; after a failure the list shown before stays and the
    message of the error is shown.  Either way the screen stops loading,
    and the selection of constraints is as it was. *)
Theorem substitutions_shown_are_for_the_ingredient (view : SubstitutionView.State)
    (w : World) :
  exists outcome after w',
    findSubstitutions
      (item (SubstitutionView.ingredient view))
      (SubstitutionConstraint.rawValue
         <$> elements (SubstitutionView.selectedConstraints view)) w
    = (outcome, w')
    /\ SubstitutionView.findSubstitutions view w = (after, w')
    /\ sentAtMostOnce w (outcome, w')
    /\ SubstitutionView.isLoading after = false
    /\ SubstitutionView.selectedConstraints after
       = SubstitutionView.selectedConstraints view
    /\ match outcome with
       | inr results =>
           SubstitutionView.substitutions after = results
           /\ SubstitutionView.errorMessage after = None
           /\ Forall
                (fun substitution =>
                   sub_original substitution = item (SubstitutionView.ingredient view))
                results
       | inl error =>
           SubstitutionView.substitutions after = SubstitutionView.substitutions view
           /\ SubstitutionView.errorMessage after = Some (localizedDescription error)
       end.
Proof.
  pose proof (findSubstitutions_sentAtMostOnce
                (item (SubstitutionView.ingredient view))
                (SubstitutionConstraint.rawValue
                   <$> elements (SubstitutionView.selectedConstraints view)) w)
    as Honce.
  pose proof (findSubstitutions_original
                (item (SubstitutionView.ingredient view))
                (SubstitutionConstraint.rawValue
                   <$> elements (SubstitutionView.selectedConstraints view)) w)
    as Horiginal.
  unfold SubstitutionView.findSubstitutions. simpl.
  destruct (findSubstitutions _ _ w) as [[error|results] w'];
    eexists _, _, _; (split; [reflexivity|]); (split; [reflexivity|]);
    (split; [exact Honce|]); [done|].
  repeat (split; [done|]). by apply Horiginal.
Qed.

(** X13.  Without an API key the generation screen and the substitution
    screen show "Please add your Gemini API key in Settings", and the chat
    answers a question typed in ASCII, and not blank, with its apology;
    none of them sends a request, and the generation screen neither inserts
    nor saves. *)
Theorem screens_without_a_key (w : World) :
  apiKey w = "" ->
  (forall view effects,
     exists after,
       AIGenerationView.generateRecipe view effects w = (after, effects, w)
       /\ AIGenerationView.errorMessage after
          = Some "Please add your Gemini API key in Settings"
       /\ AIGenerationView.generatedRecipe after
          = AIGenerationView.generatedRecipe view)
  /\ (forall view,
        exists after,
          SubstitutionView.findSubstitutions view w = (after, w)
          /\ SubstitutionView.errorMessage after
             = Some "Please add your Gemini API key in Settings"
          /\ SubstitutionView.substitutions after
             = SubstitutionView.substitutions view)
  /\ (forall view,
        isASCII (ChatView.inputText view) = true ->
        trimmingWhitespacesAndNewlines (ChatView.inputText view) <> "" ->
        exists after,
          ChatView.sendMessage view w = (after, w)
          /\ last (ChatView.messages after)
             = Some {| role := assistant;
                       content := "Sorry, I encountered an error. Please try again." |}).
Proof.
  intros Hkey. split; [|split].
  - intros view effects.
    unfold AIGenerationView.generateRecipe, generateRecipe. rewrite Hkey. simpl.
    by eexists.
  - intros view.
    unfold SubstitutionView.findSubstitutions, findSubstitutions. rewrite Hkey. simpl.
    by eexists.
  - intros view _ Hquestion%String.eqb_neq.
    unfold ChatView.sendMessage, chatWithRecipe. rewrite Hquestion, Hkey. simpl.
    eexists. split; [reflexivity|]. simpl. by rewrite last_snoc.
Qed.

(** X14.  When the request of a screen is answered with an HTTP status
    other than 200, the generation screen and the substitution screen show
    "HTTP Error: " followed by the status in decimal, and the chat answers
    with its apology. *)
Theorem screens_show_the_status (w : World) (request : URLRequest) (data : Data)
    (statusCode : Z) :
  URLSession_data request = inr (data, HTTPURLResponse statusCode) ->
  statusCode <> 200%Z ->
  (forall view effects,
     sentRequests (AIGenerationView.generateRecipe view effects w).2
       = (sentRequests w ++ [request])%list ->
     AIGenerationView.errorMessage (AIGenerationView.generateRecipe view effects w).1.1
     = Some ("HTTP Error: " +:+ Int_description statusCode)
     /\ (AIGenerationView.generateRecipe view effects w).1.2 = effects)
  /\ (forall view,
        sentRequests (SubstitutionView.findSubstitutions view w).2
          = (sentRequests w ++ [request])%list ->
        SubstitutionView.errorMessage (SubstitutionView.findSubstitutions view w).1
        = Some ("HTTP Error: " +:+ Int_description statusCode))
  /\ (forall view,
        sentRequests (ChatView.sendMessage view w).2
          = (sentRequests w ++ [request])%list ->
        last (ChatView.messages (ChatView.sendMessage view w).1)
        = Some {| role := assistant;
                  content := "Sorry, I encountered an error. Please try again." |}).
Proof.
  intros Hanswer Hstatus. split; [|split].
  - intros view effects. unfold AIGenerationView.generateRecipe. simpl.
    change (AIGenerationView.ingredientsList _)
      with (AIGenerationView.ingredientsList view).
    intros Hsent.
    assert (sentRequests (generateRecipe
              (AIGenerationView.ingredientsList view)
              (if String.eqb (AIGenerationView.selectedCuisine view) "" then None
               else Some (AIGenerationView.selectedCuisine view))
              (AIGenerationView.selectedDifficulty view)
              (AIGenerationView.targetCookTime view) w).2
            = (sentRequests w ++ [request])%list) as Hservice.
    { by destruct (generateRecipe _ _ _ _ w) as [[error|recipe] w']. }
    pose proof (generateRecipe_status _ _ _ _ _ _ _ _ Hanswer Hstatus Hservice)
      as Hthrown.
    destruct (generateRecipe _ _ _ _ w) as [[error|recipe] w'];
      unfold throw in *; by simplify_eq/=.
  - intros view. unfold SubstitutionView.findSubstitutions. simpl. intros Hsent.
    assert (sentRequests (findSubstitutions
              (item (SubstitutionView.ingredient view))
              (SubstitutionConstraint.rawValue
                 <$> elements (SubstitutionView.selectedConstraints view)) w).2
            = (sentRequests w ++ [request])%list) as Hservice.
    { by destruct (findSubstitutions _ _ w) as [[error|results] w']. }
    pose proof (findSubstitutions_status _ _ _ _ _ _ Hanswer Hstatus Hservice)
      as Hthrown.
    destruct (findSubstitutions _ _ w) as [[error|results] w'];
      unfold throw in *; by simplify_eq/=.
  - intros view. unfold ChatView.sendMessage.
    destruct (String.eqb _ "") eqn:Hquestion; [by intros ?%nothing_sent|].
    simpl. intros Hsent.
    assert (sentRequests (chatWithRecipe
              (ChatView.recipe view)
              (trimmingWhitespacesAndNewlines (ChatView.inputText view))
              (ChatView.messages view
               ++ [{| role := user;
                      content :=
                        trimmingWhitespacesAndNewlines (ChatView.inputText view) |}]) w).2
            = (sentRequests w ++ [request])%list) as Hservice.
    { by destruct (chatWithRecipe _ _ _ w) as [[error|reply] w']. }
    pose proof (chatWithRecipe_status _ _ _ _ _ _ _ Hanswer Hstatus Hservice)
      as Hthrown.
    destruct (chatWithRecipe _ _ _ w) as [[error|reply] w'];
      unfold throw in *; simplify_eq/=. by rewrite last_snoc.
Qed.

(** X15.  On an input typed in ASCII, [sendMessage] does nothing when the
    input is blank.  Otherwise it appends exactly two messages, the trimmed
    question as the user's and one of the assistant, which is the text that
    the service returned or, after any error, the apology; it clears the
    input, stops loading and sends at most one request. *)
Theorem chat_appends_question_and_answer (view : ChatView.State) (w : World) :
  isASCII (ChatView.inputText view) = true ->
  (trimmingWhitespacesAndNewlines (ChatView.inputText view) = "" ->
   ChatView.sendMessage view w = (view, w))
  /\ (trimmingWhitespacesAndNewlines (ChatView.inputText view) <> "" ->
      exists outcome reply after w',
        chatWithRecipe
          (ChatView.recipe view)
          (trimmingWhitespacesAndNewlines (ChatView.inputText view))
          (ChatView.messages view
           ++ [{| role := user;
                  content := trimmingWhitespacesAndNewlines (ChatView.inputText view) |}])
          w
        = (outcome, w')
        /\ ChatView.sendMessage view w = (after, w')
        /\ sentAtMostOnce w (outcome, w')
        /\ ChatView.messages after
           = (ChatView.messages view
              ++ [{| role := user;
                     content :=
                       trimmingWhitespacesAndNewlines (ChatView.inputText view) |};
                  {| role := assistant; content := reply |}])%list
        /\ reply
           = match outcome with
             | inr response => response
             | inl _ => "Sorry, I encountered an error. Please try again."
             end
        /\ ChatView.inputText after = ""
        /\ ChatView.isLoading after = false
        /\ ChatView.recipe after = ChatView.recipe view).
Proof.
  intros _. unfold ChatView.sendMessage. split.
  - by intros ->.
  - intros Hquestion%String.eqb_neq. rewrite Hquestion. simpl.
    pose proof (chatWithRecipe_sentAtMostOnce
                  (ChatView.recipe view)
                  (trimmingWhitespacesAndNewlines (ChatView.inputText view))
                  (ChatView.messages view
                   ++ [{| role := user;
                          content :=
                            trimmingWhitespacesAndNewlines (ChatView.inputText view) |}])
                  w) as Honce.
    destruct (chatWithRecipe _ _ _ w) as [[error|response] w'];
      eexists _, _, _, _; (split; [reflexivity|]); (split; [reflexivity|]);
      (split; [exact Honce|]); simpl; rewrite <- app_assoc; done.
Qed.

Lemma joined_snoc (separator : string) (parts : list string) (part : string) :
  exists before, joined separator (parts ++ [part]) = before +:+ part.
Proof.
  induction parts as [|first rest [before IH]]; [by exists ""|].
  exists (first +:+ separator +:+ before).
  change ((first :: rest) ++ [part])%list with (first :: (rest ++ [part]))%list.
  destruct (rest ++ [part])%list as [|second others] eqn:Hrest.
  { by destruct rest. }
  change (joined separator (first :: second :: others))
    with (first +:+ separator +:+ joined separator (second :: others)).
  by rewrite IH, !append_assoc.
Qed.

Lemma chatPrompt_repeats (recipe : Recipe) (question : string)
    (history : list ChatMessage) :
  contains
    (chatPrompt recipe question
       (history ++ [{| role := user; content := question |}]))
    ("User: " +:+ question +:+ newline +:+ newline +:+ "User Question: " +:+ question).
Proof.
  unfold chatPrompt, multiline. rewrite map_app. simpl map.
  destruct (joined_snoc newline
              (map (fun m =>
                      match role m with user => "User" | assistant => "Assistant" end
                      +:+ ": " +:+ content m) history)
              ("User" +:+ ": " +:+ question)) as [before ->].
  repeat change (joined newline (?line :: ?second :: ?rest))
    with (line +:+ newline +:+ joined newline (second :: rest)).
  do 8 apply contains_append_r.
  eexists before, _. rewrite !append_assoc. reflexivity.
Qed.

(** X16.  A question typed in ASCII reaches the model twice: [sendMessage]
    appends it to the messages before it hands them over as the history,
    so the prompt of the request ends its previous conversation with the
    question and then asks it again as the user's question. *)
Theorem chat_prompt_repeats_the_question (view : ChatView.State) (w : World) :
  isASCII (ChatView.inputText view) = true ->
  trimmingWhitespacesAndNewlines (ChatView.inputText view) <> "" ->
  apiKey w <> "" ->
  exists prompt,
    (ChatView.sendMessage view w).2 = (makeRequest prompt "gemini-2.0-flash-exp" w).2
    /\ contains prompt
         ("User: " +:+ trimmingWhitespacesAndNewlines (ChatView.inputText view)
          +:+ newline +:+ newline +:+ "User Question: "
          +:+ trimmingWhitespacesAndNewlines (ChatView.inputText view)).
Proof.
  intros _ Hquestion%String.eqb_neq Hkey.
  exists (chatPrompt (ChatView.recipe view)
            (trimmingWhitespacesAndNewlines (ChatView.inputText view))
            (ChatView.messages view
             ++ [{| role := user;
                    content :=
                      trimmingWhitespacesAndNewlines (ChatView.inputText view) |}])).
  split; [|apply chatPrompt_repeats].
  unfold ChatView.sendMessage. rewrite Hquestion. simpl.
  rewrite chatWithRecipe_with_key by done.
  by destruct (makeRequest _ _ w) as [[error|response] w'].
Qed.

Lemma rawValue_inj : Inj (=) (=) SubstitutionConstraint.rawValue.
Proof. intros [] []; by intros [=]. Qed.

(** X17.  The constraints that the substitution screen sends are the raw
    values of the selected ones, each once, and with the item of the
    ingredient they all stand in the prompt of its request. *)
Theorem selected_constraints_reach_the_prompt (view : SubstitutionView.State)
    (w : World) :
  apiKey w <> "" ->
  exists constraints prompt,
    (SubstitutionView.findSubstitutions view w).2
    = (makeRequest prompt "gemini-2.0-flash-exp" w).2
    /\ prompt
       = buildSubstitutionPrompt (item (SubstitutionView.ingredient view)) constraints
    /\ NoDup constraints
    /\ (forall text,
          text ∈ constraints
          <-> exists constraint,
                constraint ∈ SubstitutionView.selectedConstraints view
                /\ text = SubstitutionConstraint.rawValue constraint)
    /\ contains prompt (item (SubstitutionView.ingredient view))
    /\ (forall constraint,
          constraint ∈ SubstitutionView.selectedConstraints view ->
          contains prompt (SubstitutionConstraint.rawValue constraint)).
Proof.
  intros Hkey.
  exists (SubstitutionConstraint.rawValue
            <$> elements (SubstitutionView.selectedConstraints view)).
  exists (buildSubstitutionPrompt (item (SubstitutionView.ingredient view))
            (SubstitutionConstraint.rawValue
               <$> elements (SubstitutionView.selectedConstraints view))).
  split; [|split; [reflexivity|]].
  { unfold SubstitutionView.findSubstitutions. simpl.
    rewrite findSubstitutions_with_key by done.
    destruct (makeRequest _ _ w) as [[error|response] w']; [done|].
    by destruct (parseSubstitutionsResponse _ _). }
  assert (forall text,
            text ∈ SubstitutionConstraint.rawValue
                     <$> elements (SubstitutionView.selectedConstraints view)
            <-> exists constraint,
                  constraint ∈ SubstitutionView.selectedConstraints view
                  /\ text = SubstitutionConstraint.rawValue constraint) as Hsent.
  { intros text. rewrite list_elem_of_fmap. split.
    - intros (constraint & -> & Hselected%elem_of_elements). by exists constraint.
    - intros (constraint & Hselected%elem_of_elements & ->). by exists constraint. }
  split; [|split; [exact Hsent|split]].
  - pose proof rawValue_inj as Hinj. apply (NoDup_fmap_2 _), NoDup_elements.
  - eapply contains_trans;
      [apply contains_joined, (list_elem_of_lookup_2 _ 0); reflexivity|].
    apply contains_append_r, contains_refl.
  - intros constraint Hselected.
    assert (SubstitutionConstraint.rawValue constraint
              ∈ SubstitutionConstraint.rawValue
                  <$> elements (SubstitutionView.selectedConstraints view)) as Hlisted.
    { apply Hsent. by exists constraint. }
    unfold buildSubstitutionPrompt.
    eapply contains_trans;
      [apply contains_joined, (list_elem_of_lookup_2 _ 2); reflexivity|].
    destruct (SubstitutionConstraint.rawValue
                <$> elements (SubstitutionView.selectedConstraints view))
      as [|first rest]; [by apply elem_of_nil in Hlisted|].
    by apply contains_append_r, contains_joined.
Qed.

End Screens.

(** X18.  A tap on the chip of a constraint flips that constraint in the
    selection and no other, so a second tap undoes the first. *)
Theorem toggleConstraint_flips (constraint : SubstitutionConstraint.t)
    (view : SubstitutionView.State) :
  (forall other,
     other ∈ SubstitutionView.selectedConstraints
               (SubstitutionView.toggleConstraint constraint view)
     <-> (if decide (other = constraint)
          then other ∉ SubstitutionView.selectedConstraints view
          else other ∈ SubstitutionView.selectedConstraints view))
  /\ SubstitutionView.toggleConstraint constraint
       (SubstitutionView.toggleConstraint constraint view)
     = view.
Proof.
  destruct view as [ingredient substitutions isLoading selected errorMessage].
  unfold SubstitutionView.toggleConstraint. simpl. split.
  - intros other.
    destruct (bool_decide_reflect (constraint ∈ selected));
      destruct (decide (other = constraint)) as [->|Hother];
      rewrite ?elem_of_union, ?elem_of_difference, ?elem_of_union, ?elem_of_singleton;
      intuition congruence.
  - f_equal.
    destruct (bool_decide_reflect (constraint ∈ selected)) as [Hselected|Hfree].
    + rewrite bool_decide_eq_false_2.
      2: { rewrite elem_of_difference, elem_of_singleton. intuition congruence. }
      apply set_eq. intros other.
      destruct (decide (other = constraint)) as [->|Hother];
        rewrite ?elem_of_union, ?elem_of_difference, ?elem_of_union, ?elem_of_singleton;
        intuition congruence.
    + rewrite bool_decide_eq_true_2.
      2: { rewrite elem_of_union, elem_of_singleton. intuition congruence. }
      apply set_eq. intros other.
      destruct (decide (other = constraint)) as [->|Hother];
        rewrite ?elem_of_union, ?elem_of_difference, ?elem_of_union, ?elem_of_singleton;
        intuition congruence.
Qed.

(** ** The statistics of the settings screen *)

(** X19.  The three counts by difficulty add up to the number of recipes.
    The four counts by meal type do not: there is none for snacks, and a
    recipe without meal type is in none, so they add up to the number of
    recipes less those two kinds. *)
Theorem counts_by_difficulty_and_meal_type (recipes : list Recipe) :
  (SettingsView.easyCount recipes + SettingsView.mediumCount recipes
   + SettingsView.hardCount recipes
   = SettingsView.count recipes)%Z
  /\ (SettingsView.breakfastCount recipes + SettingsView.lunchCount recipes
      + SettingsView.dinnerCount recipes + SettingsView.dessertCount recipes
      = SettingsView.count recipes
        - Z.of_nat
            (length
               (filter
                  (fun recipe => mealType recipe = Some snack \/ mealType recipe = None)
                  recipes)))%Z.
Proof.
  unfold SettingsView.easyCount, SettingsView.mediumCount, SettingsView.hardCount,
    SettingsView.breakfastCount, SettingsView.lunchCount, SettingsView.dinnerCount,
    SettingsView.dessertCount, SettingsView.count.
  induction recipes as [|recipe recipes [IHdifficulty IHmeal]]; [done|].
  rewrite !filter_cons. split.
  - destruct (difficulty recipe); repeat case_decide; try done; simpl length; lia.
  - destruct (mealType recipe) as [[]|]; repeat case_decide; try done;
      try (by intuition congruence); simpl length; lia.
Qed.

Lemma Int_fits_natural (z : Z) : (0 <= z <= Int_max)%Z -> Int_fits z = true.
Proof.
  intros [Hlower Hupper]. unfold Int_fits.
  apply andb_true_intro. split; apply Z.leb_le; [|done].
  transitivity 0%Z; [by vm_compute|done].
Qed.

Lemma sumOf_cons (number : Z) (numbers : list Z) :
  sumOf (number :: numbers) = (number + sumOf numbers)%Z.
Proof. reflexivity. Qed.

Lemma sumOf_between (lower upper : Z) (numbers : list Z) :
  Forall (fun number => lower <= number <= upper)%Z numbers ->
  (lower * Z.of_nat (length numbers) <= sumOf numbers
   <= upper * Z.of_nat (length numbers))%Z.
Proof.
  induction 1 as [|number numbers Hnumber _ IH]; [simpl; lia|].
  rewrite sumOf_cons. simpl length. lia.
Qed.

Lemma sumOf_natural (numbers : list Z) :
  Forall (fun number => 0 <= number)%Z numbers -> (0 <= sumOf numbers)%Z.
Proof.
  induction 1 as [|number numbers Hnumber _ IH]; [done|]. rewrite sumOf_cons. lia.
Qed.

Lemma totalOfTotalTimes_sum (recipes : list Recipe) (so_far : Z) :
  (0 <= so_far)%Z ->
  Forall (fun number => 0 <= number)%Z (minutesOf <$> recipes) ->
  (so_far + sumOf (minutesOf <$> recipes) <= Int_max)%Z ->
  foldl (fun sum recipe =>
           so_far ← sum; minutes ← totalTime recipe; Int_add so_far minutes)
    (Some so_far) recipes
  = Some (so_far + sumOf (minutesOf <$> recipes))%Z.
Proof.
  revert so_far. induction recipes as [|recipe recipes IH]; intros so_far Hso_far.
  { intros _ _. simpl. f_equal. unfold sumOf. simpl. lia. }
  rewrite fmap_cons, sumOf_cons. intros [Hrecipe Hrest]%Forall_cons Hfits.
  pose proof (sumOf_natural _ Hrest) as Hnatural.
  assert (totalTime recipe = Some (minutesOf recipe)) as Hminutes.
  { unfold totalTime, Int_add. fold (minutesOf recipe).
    by rewrite Int_fits_natural by lia. }
  assert (Int_add so_far (minutesOf recipe) = Some (so_far + minutesOf recipe)%Z)
    as Hadded.
  { unfold Int_add. by rewrite Int_fits_natural by lia. }
  simpl foldl. rewrite Hminutes. simpl mbind. rewrite Hadded.
  rewrite IH by (done || lia). f_equal. lia.
Qed.

(** X20.  [averageCookTime] is 0 without recipes.  With recipes whose
    total times lie between two bounds, the lower one not negative, and
    are few enough for their sum to fit an [Int], it is the mean of the
    total times rounded down, and lies between the bounds. *)
Theorem averageCookTime_is_the_mean (recipes : list Recipe) (lower upper : Z) :
  recipes <> [] ->
  (0 <= lower)%Z ->
  Forall (fun recipe => lower <= minutesOf recipe <= upper)%Z recipes ->
  (upper * SettingsView.count recipes <= Int_max)%Z ->
  SettingsView.averageCookTime [] = Some 0%Z
  /\ SettingsView.totalOfTotalTimes recipes = Some (sumOf (minutesOf <$> recipes))
  /\ SettingsView.averageCookTime recipes
     = Some (sumOf (minutesOf <$> recipes) / SettingsView.count recipes)%Z
  /\ (lower <= sumOf (minutesOf <$> recipes) / SettingsView.count recipes <= upper)%Z.
Proof.
  intros Hrecipes Hlower Hbounds Hfits. split; [done|].
  assert (0 < SettingsView.count recipes)%Z as Hcount.
  { unfold SettingsView.count. destruct recipes; [done|]. simpl length. lia. }
  pose proof (sumOf_between lower upper (minutesOf <$> recipes)) as Hsum.
  rewrite length_fmap in Hsum. fold (SettingsView.count recipes) in Hsum.
  destruct Hsum as [Hsum_lower Hsum_upper]; [by apply Forall_fmap|].
  assert (SettingsView.totalOfTotalTimes recipes = Some (sumOf (minutesOf <$> recipes)))
    as Htotal.
  { unfold SettingsView.totalOfTotalTimes.
    rewrite (totalOfTotalTimes_sum recipes 0); [done|done| |lia].
    apply Forall_fmap. eapply Forall_impl; [exact Hbounds|].
    intros recipe. simpl. lia. }
  split; [done|]. split.
  - unfold SettingsView.averageCookTime. destruct recipes as [|first rest]; [done|].
    rewrite Htotal. simpl. f_equal. apply Z.quot_div_nonneg; [|done].
    transitivity (lower * SettingsView.count (first :: rest))%Z; [lia|done].
  - split.
    + apply Z.div_le_lower_bound; [done|lia].
    + apply Z.div_le_upper_bound; [done|lia].
Qed.

(** ** The total time of a generated recipe *)

(** X21.  The parser takes the two times of a reply as they come, so the
    [totalTime] of a generated recipe traps exactly when the two times of
    the reply, or their defaults, add up to more than an [Int] holds; there
    are replies for which it does. *)
Theorem totalTime_of_a_generated_recipe :
  (forall recipeData,
     totalTime (parseRecipe recipeData) = None
     <-> Int_fits
           ((as_Int (recipeData !! "prepTime") ?? 15)
            + (as_Int (recipeData !! "cookTime") ?? 30))%Z
         = false)
  /\ (forall cook,
        (Int_max - 15 < cook <= Int_max)%Z ->
        totalTime (parseRecipe {[ "cookTime" := Sample.integer cook ]}) = None).
Proof.
  split.
  - intros recipeData. rewrite parseRecipe_fields. unfold totalTime, Int_add. simpl.
    destruct (Int_fits _); by split.
  - intros cook [Hlower Hupper]. rewrite parseRecipe_fields.
    unfold totalTime, Int_add. simpl.
    rewrite lookup_singleton_ne by done. rewrite lookup_singleton. simpl.
    pose proof (eq_refl : Int_max = 9223372036854775807%Z) as Hmax.
    rewrite (Int_fits_natural cook) by lia.
    simpl. unfold Int_fits.
    replace (15 + cook <=? Int_max)%Z with false; [by rewrite andb_false_r|].
    symmetry. apply Z.leb_gt. lia.
Qed.

(** ** The feed *)

Section Feed.

Context `{Toolkit}.

Lemma filteredRecipes_elem_of (recipes : list Recipe) (searchText : string)
    (selectedMealType : option MealType) (recipe : Recipe) :
  recipe ∈ RecipeFeedView.filteredRecipes recipes searchText selectedMealType ->
  recipe ∈ recipes
  /\ (selectedMealType = None \/ mealType recipe = selectedMealType).
Proof.
  unfold RecipeFeedView.filteredRecipes.
  intros [Hlisted Hmatches]%list_elem_of_In%filter_In.
  split; [by apply list_elem_of_In|].
  apply andb_prop in Hmatches as [_ Hmeal].
  apply orb_prop in Hmeal as [Hnone%bool_decide_eq_true|Hsame%bool_decide_eq_true];
    [by left|by right].
Qed.

(** X22.  The feed shows the recipes that match, in their order, each as
    often as it is stored; all of them while there is neither a search text
    nor a selected meal type; and under a selected meal type only recipes
    of that type, so none of those without meal type. *)
Theorem feed_shows_the_matching_recipes (recipes : list Recipe)
    (searchText : string) (selectedMealType : option MealType) :
  sublist (RecipeFeedView.filteredRecipes recipes searchText selectedMealType) recipes
  /\ RecipeFeedView.filteredRecipes recipes "" None = recipes
  /\ (forall selected,
        Forall (fun recipe => mealType recipe = Some selected)
          (RecipeFeedView.filteredRecipes recipes searchText (Some selected)))
  /\ RecipeFeedView.filteredRecipes
       (RecipeFeedView.filteredRecipes recipes searchText selectedMealType)
       searchText selectedMealType
     = RecipeFeedView.filteredRecipes recipes searchText selectedMealType.
Proof.
  split; [|split; [|split]].
  - unfold RecipeFeedView.filteredRecipes.
    induction recipes as [|recipe recipes IH]; [done|]. simpl.
    destruct (_ && _); by constructor.
  - unfold RecipeFeedView.filteredRecipes.
    induction recipes as [|recipe recipes IH]; [done|].
    change (List.filter ?f (recipe :: recipes))
      with (recipe :: List.filter f recipes).
    by rewrite IH.
  - intros selected. apply Forall_forall.
    by intros recipe [_ [?|?]]%filteredRecipes_elem_of.
  - unfold RecipeFeedView.filteredRecipes.
    induction recipes as [|recipe recipes IH]; [done|]. simpl.
    destruct (_ && _) eqn:Hmatches; [|done]. simpl. by rewrite Hmatches, IH.
Qed.

End Feed.

(** ** The recipe screen *)

Lemma taps_cons (view : RecipeDetailView.State) (button : RecipeDetailView.Tap)
    (buttons : list RecipeDetailView.Tap) :
  RecipeDetailView.taps view (button :: buttons)
  = match RecipeDetailView.tap view button with
    | Some next => RecipeDetailView.taps next buttons
    | None => None
    end.
Proof.
  unfold RecipeDetailView.taps. simpl.
  destruct (RecipeDetailView.tap view button); [done|].
  by induction buttons.
Qed.

Lemma taps_range (buttons : list RecipeDetailView.Tap) (view : RecipeDetailView.State) :
  (Int_min <= RecipeDetailView.servings view)%Z ->
  (RecipeDetailView.servings view + Z.of_nat (length buttons) <= Int_max)%Z ->
  exists after,
    RecipeDetailView.taps view buttons = Some after
    /\ RecipeDetailView.recipe after = RecipeDetailView.recipe view
    /\ (Z.min 1 (RecipeDetailView.servings view) <= RecipeDetailView.servings after
        <= RecipeDetailView.servings view + Z.of_nat (length buttons))%Z.
Proof.
  revert view. induction buttons as [|button buttons IH]; intros view Hmin Hmax.
  { exists view. simpl. repeat split; lia. }
  simpl length in *. rewrite taps_cons.
  assert (Int_min <= 0)%Z as Hzero by (by vm_compute).
  destruct button; simpl.
  - destruct (IH (RecipeDetailView.decrementServings view))
      as (after & Hafter & Hrecipe & Hrange);
      simpl in *; try (destruct (Z.ltb_spec 1 (RecipeDetailView.servings view)); lia).
    exists after. split; [exact Hafter|]. split; [exact Hrecipe|].
    destruct (Z.ltb_spec 1 (RecipeDetailView.servings view)); lia.
  - unfold RecipeDetailView.incrementServings, Int_add.
    assert (Int_fits (RecipeDetailView.servings view + 1) = true) as ->.
    { unfold Int_fits. apply andb_true_intro. split; apply Z.leb_le; lia. }
    simpl.
    match goal with
    | |- context [RecipeDetailView.taps ?next buttons] =>
        destruct (IH next) as (after & Hafter & Hrecipe & Hrange)
    end; simpl in *; try lia.
    exists after. split; [exact Hafter|]. split; [exact Hrecipe|]. lia.
Qed.

(** X23.  However the two buttons of the servings stepper are tapped, the
    number of servings shown never falls below 1 for a recipe of at least
    one serving, and never below the servings of the recipe otherwise; it
    rises by at most one a tap, and no tap traps while that bound fits an
    [Int]. *)
Theorem servings_stay_in_range (recipe : Recipe)
    (buttons : list RecipeDetailView.Tap) :
  (Int_min <= servings recipe)%Z ->
  (servings recipe + Z.of_nat (length buttons) <= Int_max)%Z ->
  exists after,
    RecipeDetailView.taps (RecipeDetailView.init recipe) buttons = Some after
    /\ RecipeDetailView.recipe after = recipe
    /\ (Z.min 1 (servings recipe) <= RecipeDetailView.servings after
        <= servings recipe + Z.of_nat (length buttons))%Z.
Proof.
  intros Hmin Hmax.
  by destruct (taps_range buttons (RecipeDetailView.init recipe) Hmin Hmax)
    as (after & Hafter & Hrecipe & Hrange); exists after.
Qed.







(** ** The recipe form *)

Section Form.

Context `{Foundation} `{Toolkit}.

Lemma appendIngredients_fields (inputs : list IngredientInput.t) (recipe : Recipe) :
  ManualRecipeFormView.appendIngredients inputs recipe =
  mkRecipe (title recipe) (recipeDescription recipe) (cookTime recipe)
    (prepTime recipe) (servings recipe) (difficulty recipe) (cuisine recipe)
    (mealType recipe) (sourceType recipe) (sourceURL recipe)
    (ingredients recipe ++ (ManualRecipeFormView.savedIngredient <$> inputs))
    (instructions recipe) (nutrition recipe).
Proof.
  unfold ManualRecipeFormView.appendIngredients. revert recipe.
  induction inputs as [|input rest IH]; intros recipe.
  - destruct recipe. simpl. by rewrite app_nil_r.
  - simpl. rewrite IH. simpl. by rewrite <- app_assoc.
Qed.

Lemma fold_left_savedInstruction (inputs : list InstructionInput.t) (offset : nat)
    (recipe : Recipe) :
  fold_left
    (fun recipe '(index, input) =>
       append_instruction recipe (ManualRecipeFormView.savedInstruction index input))
    (imap (fun index element => (Z.of_nat (offset + index), element)) inputs)
    recipe =
  mkRecipe (title recipe) (recipeDescription recipe) (cookTime recipe)
    (prepTime recipe) (servings recipe) (difficulty recipe) (cuisine recipe)
    (mealType recipe) (sourceType recipe) (sourceURL recipe)
    (ingredients recipe)
    (instructions recipe ++
       imap (fun index input =>
               ManualRecipeFormView.savedInstruction (Z.of_nat (offset + index)) input)
         inputs)
    (nutrition recipe).
Proof.
  revert offset recipe.
  induction inputs as [|input rest IH]; intros offset recipe.
  - destruct recipe. simpl. by rewrite app_nil_r.
  - simpl.
    rewrite (imap_ext _ (fun index element => (Z.of_nat (S offset + index), element)))
      by (intros; simpl; do 2 f_equal; lia).
    rewrite IH. simpl.
    rewrite <- app_assoc. simpl. do 3 f_equal.
    apply imap_ext. intros; simpl. do 2 f_equal. lia.
Qed.

Lemma appendInstructions_fields (inputs : list InstructionInput.t) (recipe : Recipe) :
  ManualRecipeFormView.appendInstructions inputs recipe =
  mkRecipe (title recipe) (recipeDescription recipe) (cookTime recipe)
    (prepTime recipe) (servings recipe) (difficulty recipe) (cuisine recipe)
    (mealType recipe) (sourceType recipe) (sourceURL recipe)
    (ingredients recipe)
    (instructions recipe ++
       imap (fun index input =>
               ManualRecipeFormView.savedInstruction (Z.of_nat index) input)
         inputs)
    (nutrition recipe).
Proof.
  unfold ManualRecipeFormView.appendInstructions, enumerated.
  apply (fold_left_savedInstruction inputs 0).
Qed.

Lemma stepNumber_imap_savedInstruction (inputs : list InstructionInput.t)
    (offset : nat) :
  stepNumber <$>
    imap (fun index input =>
            ManualRecipeFormView.savedInstruction (Z.of_nat (offset + index)) input)
      inputs
  = Z.of_nat <$> seq (S offset) (length inputs).
Proof.
  revert offset.
  induction inputs as [|input rest IH]; intros offset; [done|].
  simpl. f_equal; [lia|].
  etrans; [|apply (IH (S offset))].
  f_equal. apply imap_ext. intros; simpl. do 2 f_equal. lia.
Qed.

Lemma instruction_imap_savedInstruction (inputs : list InstructionInput.t)
    (offset : nat) :
  instruction <$>
    imap (fun index input =>
            ManualRecipeFormView.savedInstruction (Z.of_nat (offset + index)) input)
      inputs
  = InstructionInput.instruction <$> inputs.
Proof.
  revert offset.
  induction inputs as [|input rest IH]; intros offset; [done|].
  simpl. f_equal.
  etrans; [|apply (IH (S offset))].
  f_equal. apply imap_ext. intros; simpl. do 2 f_equal. lia.
Qed.

Lemma timeMinutes_imap_savedInstruction (inputs : list InstructionInput.t)
    (offset : nat) :
  timeMinutes <$>
    imap (fun index input =>
            ManualRecipeFormView.savedInstruction (Z.of_nat (offset + index)) input)
      inputs
  = (fun row => Int_init (InstructionInput.timeMinutes row)) <$> inputs.
Proof.
  revert offset.
  induction inputs as [|input rest IH]; intros offset; [done|].
  simpl. f_equal.
  etrans; [|apply (IH (S offset))].
  f_equal. apply imap_ext. intros; simpl. do 2 f_equal. lia.
Qed.

Lemma tip_imap_savedInstruction (inputs : list InstructionInput.t) (offset : nat) :
  tip <$>
    imap (fun index input =>
            ManualRecipeFormView.savedInstruction (Z.of_nat (offset + index)) input)
      inputs
  = (fun row =>
       if String.eqb (InstructionInput.tip row) "" then None
       else Some (InstructionInput.tip row))
      <$> inputs.
Proof.
  revert offset.
  induction inputs as [|input rest IH]; intros offset; [done|].
  simpl. f_equal.
  etrans; [|apply (IH (S offset))].
  f_equal. apply imap_ext. intros; simpl. do 2 f_equal. lia.
Qed.

(** X25.  On a title typed in ASCII, [saveRecipe] acts only on a form with
    a title that is not blank, at least one ingredient and at least one
    instruction.  On any other form it inserts nothing, deletes nothing and
    does not dismiss: it raises the alert, with the message of the first of
    the three requirements that fails, and leaves the fields as they
    are. *)
Theorem form_is_validated_before_saving (view : ManualRecipeFormView.State)
    (effects : list Effect) :
  isASCII (ManualRecipeFormView.title view) = true ->
  (trimmingWhitespaces (ManualRecipeFormView.title view) <> ""
   /\ ManualRecipeFormView.ingredients view <> []
   /\ ManualRecipeFormView.instructions view <> [] ->
   last (ManualRecipeFormView.saveRecipe view effects).2 = Some dismiss
   /\ ManualRecipeFormView.showValidationAlert
        (ManualRecipeFormView.saveRecipe view effects).1
      = ManualRecipeFormView.showValidationAlert view)
  /\ (~ (trimmingWhitespaces (ManualRecipeFormView.title view) <> ""
         /\ ManualRecipeFormView.ingredients view <> []
         /\ ManualRecipeFormView.instructions view <> []) ->
      ManualRecipeFormView.saveRecipe view effects
      = (ManualRecipeFormView.alert view
           (if String.eqb (trimmingWhitespaces (ManualRecipeFormView.title view)) ""
            then "Please enter a recipe title"
            else if bool_decide (ManualRecipeFormView.ingredients view = [])
                 then "Please add at least one ingredient"
                 else "Please add at least one instruction step"),
         effects)).
Proof.
  intros _.
  unfold ManualRecipeFormView.saveRecipe, ManualRecipeFormView.validateForm.
  destruct (String.eqb_spec
              (trimmingWhitespaces (ManualRecipeFormView.title view)) "")
    as [Htitle|Htitle].
  { split; [by intros [? _]|done]. }
  destruct (bool_decide_reflect (ManualRecipeFormView.ingredients view = []))
    as [Hingredients|Hingredients].
  { split; [by intros (_ & ? & _)|done]. }
  destruct (bool_decide_reflect (ManualRecipeFormView.instructions view = []))
    as [Hinstructions|Hinstructions].
  { split; [by intros (_ & _ & ?)|done]. }
  split; [|by intros []].
  intros _. simpl.
  destruct (ManualRecipeFormView.recipeToEdit view) as [existingRecipe|]; simpl.
  - by rewrite last_snoc.
  - split; [|done]. apply last_Some. eexists (_ ++ [_])%list. by rewrite <- app_assoc.
Qed.

(** The recipe that [saveRecipe] makes of a form without a recipe to edit. *)
Lemma saveRecipe_creates (view : ManualRecipeFormView.State) (effects : list Effect) :
  ManualRecipeFormView.recipeToEdit view = None ->
  trimmingWhitespaces (ManualRecipeFormView.title view) <> "" ->
  ManualRecipeFormView.ingredients view <> [] ->
  ManualRecipeFormView.instructions view <> [] ->
  ManualRecipeFormView.saveRecipe view effects
  = (view,
     (effects
      ++ [insertRecipe
            (mkRecipe
               (ManualRecipeFormView.title view)
               (if String.eqb (ManualRecipeFormView.recipeDescription view) ""
                then None else Some (ManualRecipeFormView.recipeDescription view))
               (ManualRecipeFormView.cookTime view)
               (ManualRecipeFormView.prepTime view)
               (ManualRecipeFormView.servings view)
               (ManualRecipeFormView.difficulty view)
               (if String.eqb (ManualRecipeFormView.cuisine view) ""
                then None else Some (ManualRecipeFormView.cuisine view))
               (ManualRecipeFormView.mealType view)
               original None
               (ManualRecipeFormView.savedIngredient
                  <$> ManualRecipeFormView.ingredients view)
               (imap (fun index input =>
                        ManualRecipeFormView.savedInstruction (Z.of_nat index) input)
                  (ManualRecipeFormView.instructions view))
               None);
          dismiss])%list).
Proof.
  intros Hnew Htitle%String.eqb_neq Hingredients Hinstructions.
  unfold ManualRecipeFormView.saveRecipe, ManualRecipeFormView.validateForm.
  rewrite Htitle, !bool_decide_eq_false_2 by done. simpl. rewrite Hnew.
  by rewrite appendInstructions_fields, appendIngredients_fields.
Qed.

(** X26.  From a valid form without a recipe to edit, its title typed in
    ASCII, [saveRecipe] inserts one recipe and dismisses.  The recipe has
    the title as typed, the details of the form, the source type
    [original] and no nutrition; a description or a cuisine that is empty
    is stored as none, any other as it is.  It has one ingredient a row, in
    the order of the rows, with the item of the row, the quantity that
    [Double] reads in the row's, the unit of the row or none when that is
    empty, and no section; and one instruction a row, numbered from 1 in
    the order of the rows, with the text of the row, the minutes that [Int]
    reads in the row's, and the tip of the row or none when that is
    empty. *)
Theorem new_recipe_is_what_the_form_holds (view : ManualRecipeFormView.State)
    (effects : list Effect) :
  ManualRecipeFormView.recipeToEdit view = None ->
  isASCII (ManualRecipeFormView.title view) = true ->
  trimmingWhitespaces (ManualRecipeFormView.title view) <> "" ->
  ManualRecipeFormView.ingredients view <> [] ->
  ManualRecipeFormView.instructions view <> [] ->
  exists recipe,
    ManualRecipeFormView.saveRecipe view effects
    = (view, (effects ++ [insertRecipe recipe; dismiss])%list)
    /\ title recipe = ManualRecipeFormView.title view
    /\ sourceType recipe = original
    /\ sourceURL recipe = None
    /\ nutrition recipe = None
    /\ cookTime recipe = ManualRecipeFormView.cookTime view
    /\ prepTime recipe = ManualRecipeFormView.prepTime view
    /\ servings recipe = ManualRecipeFormView.servings view
    /\ difficulty recipe = ManualRecipeFormView.difficulty view
    /\ mealType recipe = ManualRecipeFormView.mealType view
    /\ recipeDescription recipe
       = (if String.eqb (ManualRecipeFormView.recipeDescription view) "" then None
          else Some (ManualRecipeFormView.recipeDescription view))
    /\ cuisine recipe
       = (if String.eqb (ManualRecipeFormView.cuisine view) "" then None
          else Some (ManualRecipeFormView.cuisine view))
    /\ item <$> ingredients recipe
       = IngredientInput.item <$> ManualRecipeFormView.ingredients view
    /\ quantity <$> ingredients recipe
       = (fun row => Double_init (IngredientInput.quantity row))
           <$> ManualRecipeFormView.ingredients view
    /\ unit <$> ingredients recipe
       = (fun row =>
            if String.eqb (IngredientInput.unit row) "" then None
            else Some (IngredientInput.unit row))
           <$> ManualRecipeFormView.ingredients view
    /\ Forall
         (fun ingredient => section ingredient = None /\ isChecked ingredient = false)
         (ingredients recipe)
    /\ instruction <$> instructions recipe
       = InstructionInput.instruction <$> ManualRecipeFormView.instructions view
    /\ stepNumber <$> instructions recipe
       = Z.of_nat <$> seq 1 (length (ManualRecipeFormView.instructions view))
    /\ timeMinutes <$> instructions recipe
       = (fun row => Int_init (InstructionInput.timeMinutes row))
           <$> ManualRecipeFormView.instructions view
    /\ tip <$> instructions recipe
       = (fun row =>
            if String.eqb (InstructionInput.tip row) "" then None
            else Some (InstructionInput.tip row))
           <$> ManualRecipeFormView.instructions view.
Proof.
  intros Hnew _ Htitle Hingredients Hinstructions.
  eexists. split; [by apply saveRecipe_creates|]. simpl.
  do 11 (split; [done|]).
  do 3 (split; [by rewrite <- list_fmap_compose|]).
  split; [by apply Forall_fmap, Forall_true|].
  split; [apply (instruction_imap_savedInstruction _ 0)|].
  split; [apply (stepNumber_imap_savedInstruction _ 0)|].
  split.
  - apply (timeMinutes_imap_savedInstruction _ 0).
  - apply (tip_imap_savedInstruction _ 0).
Qed.

Lemma insertByStepNumber_Permutation (step : Instruction) (sorted : list Instruction) :
  insertByStepNumber step sorted ≡ₚ step :: sorted.
Proof.
  induction sorted as [|first rest IH]; [done|]. simpl.
  destruct (stepNumber first <? stepNumber step)%Z; [|done].
  rewrite IH. apply Permutation_swap.
Qed.

Lemma sortedByStepNumber_Permutation (steps : list Instruction) :
  sortedByStepNumber steps ≡ₚ steps.
Proof.
  induction steps as [|step steps IH]; [done|].
  unfold sortedByStepNumber in *. simpl.
  by rewrite insertByStepNumber_Permutation, IH.
Qed.

Lemma savedInstruction_instructionInput (index : Z) (step : Instruction) :
  (forall minutes, timeMinutes step = Some minutes -> Int_fits minutes = true) ->
  ManualRecipeFormView.savedInstruction index
    (ManualRecipeFormView.instructionInput step)
  = Instruction_init (index + 1) (instruction step) (timeMinutes step)
      (match tip step with
       | Some "" => None
       | kept => kept
       end).
Proof.
  intros Hfits.
  unfold ManualRecipeFormView.savedInstruction, ManualRecipeFormView.instructionInput.
  simpl. f_equal.
  - destruct (timeMinutes step) as [minutes|]; [|done]. simpl.
    apply Int_init_description. by apply Hfits.
  - by destruct (tip step) as [[|c rest]|].
Qed.

(** X27.  Saving an edit form as it opened on a recipe, of a title in
    ASCII that is not blank and with ingredients and instructions, deletes
    each ingredient and each instruction of that recipe from the context,
    inserts no recipe and dismisses.  What it appends to the recipe in
    their place are one ingredient for each, with the same item and no
    section, and the instructions in the order of their step numbers,
    renumbered from 1, each with its text and its minutes; a tip that was
    the empty text becomes none. *)
Theorem editing_gives_the_recipe_back (recipe : Recipe) (effects : list Effect) :
  isASCII (title recipe) = true ->
  trimmingWhitespaces (title recipe) <> "" ->
  ingredients recipe <> [] ->
  instructions recipe <> [] ->
  Forall
    (fun step =>
       forall minutes, timeMinutes step = Some minutes -> Int_fits minutes = true)
    (instructions recipe) ->
  exists after saved news steps,
    ManualRecipeFormView.saveRecipe (ManualRecipeFormView.init (Some recipe)) effects
    = (after,
       (effects
        ++ (deleteIngredient <$> ingredients recipe)
        ++ (deleteInstruction <$> instructions recipe)
        ++ [dismiss])%list)
    /\ ManualRecipeFormView.recipeToEdit after = Some saved
    /\ title saved = title recipe
    /\ cookTime saved = cookTime recipe
    /\ prepTime saved = prepTime recipe
    /\ servings saved = servings recipe
    /\ difficulty saved = difficulty recipe
    /\ mealType saved = mealType recipe
    /\ sourceType saved = sourceType recipe
    /\ nutrition saved = nutrition recipe
    /\ ingredients saved = (ingredients recipe ++ news)%list
    /\ item <$> news = item <$> ingredients recipe
    /\ Forall (fun ingredient => section ingredient = None) news
    /\ instructions saved = (instructions recipe ++ steps)%list
    /\ steps
       = imap
           (fun index step =>
              Instruction_init (Z.of_nat index + 1) (instruction step)
                (timeMinutes step)
                (match tip step with
                 | Some "" => None
                 | kept => kept
                 end))
           (sortedByStepNumber (instructions recipe)).
Proof.
  intros _ Htitle%String.eqb_neq Hingredients Hinstructions Hfits.
  unfold ManualRecipeFormView.saveRecipe, ManualRecipeFormView.validateForm.
  simpl. unfold ManualRecipeFormView.titleOf. rewrite Htitle.
  rewrite !bool_decide_eq_false_2.
  2: { unfold ManualRecipeFormView.instructionsOf. intros Hrows%fmap_nil_inv.
       apply Hinstructions, Permutation_nil_r.
       by rewrite <- Hrows, sortedByStepNumber_Permutation. }
  2: { unfold ManualRecipeFormView.ingredientsOf. by intros Hrows%fmap_nil_inv. }
  simpl.
  rewrite appendInstructions_fields, appendIngredients_fields. simpl.
  unfold ManualRecipeFormView.ingredientsOf, ManualRecipeFormView.instructionsOf.
  eexists _, _, _, _. split; [by rewrite <- !app_assoc|].
  split; [reflexivity|]. simpl.
  do 8 (split; [done|]).
  split; [reflexivity|].
  split; [by rewrite <- !list_fmap_compose|].
  split; [by apply Forall_fmap, Forall_true|].
  split; [reflexivity|].
  rewrite imap_fmap. apply imap_ext. intros index step Hstep. simpl.
  apply savedInstruction_instructionInput.
  apply list_elem_of_lookup_2 in Hstep.
  rewrite sortedByStepNumber_Permutation in Hstep.
  by apply (proj1 (Forall_forall _ _) Hfits).
Qed.

Lemma move_Forall {A} (P : A -> Prop) (rows moved : list A) (source : list nat)
    (destination : nat) :
  Forall P rows ->
  ManualRecipeFormView.move rows source destination = Some moved ->
  Forall P moved.
Proof.
  intros Hrows. unfold ManualRecipeFormView.move.
  destruct (_ && _); [|done]. intros [= <-].
  assert (Forall (fun entry : nat * A => P entry.2)
            (imap (fun offset row => (offset, row)) rows)) as Hindexed.
  { apply Forall_forall. intros [offset row] Hentry.
    apply list_elem_of_lookup_1 in Hentry as [i Hentry].
    rewrite list_lookup_imap in Hentry.
    destruct (rows !! i) as [found|] eqn:Hfound; simplify_eq/=.
    eapply Forall_forall; [exact Hrows|]. by eapply list_elem_of_lookup_2. }
  apply Forall_fmap. rewrite !Forall_app.
  repeat split; apply Forall_forall; intros entry [_ Hentry]%list_elem_of_filter;
    by apply (proj1 (Forall_forall _ _) Hindexed).
Qed.

Lemma act_wellFormed (view after : ManualRecipeFormView.State)
    (action : ManualRecipeFormView.Action) :
  ManualRecipeFormView.wellFormed view ->
  ManualRecipeFormView.act view action = Some after ->
  ManualRecipeFormView.wellFormed after.
Proof.
  intros (Hnew & Hprep & Hcook & Hservings & Hingredients & Hinstructions).
  unfold ManualRecipeFormView.wellFormed.
  destruct action; simpl; try (intros [= <-]; simpl; done).
  - intros [= <-]. simpl.
    destruct (Z.leb_spec 0 value), (Z.leb_spec value 300); simpl; repeat split;
      try done; lia.
  - intros [= <-]. simpl.
    destruct (Z.leb_spec 0 value), (Z.leb_spec value 480); simpl; repeat split;
      try done; lia.
  - intros [= <-]. simpl.
    destruct (Z.leb_spec 1 value), (Z.leb_spec value 20); simpl; repeat split;
      try done; lia.
  - case_bool_decide; [|done]. intros [= <-]. simpl.
    repeat split; try done; try lia. by apply Forall_delete.
  - intros [= <-]. unfold ManualRecipeFormView.addIngredient.
    destruct (String.eqb_spec (ManualRecipeFormView.newIngredientItem view) "");
      simpl; repeat split; try done; try lia.
    apply Forall_app. split; [done|]. by constructor.
  - case_bool_decide; [|done]. intros [= <-]. simpl.
    repeat split; try done; try lia. by apply Forall_delete.
  - destruct (ManualRecipeFormView.move _ source destination) as [moved|] eqn:Hmoved;
      [|done].
    intros [= <-]. simpl. repeat split; try done; try lia.
    by eapply move_Forall.
  - intros [= <-]. unfold ManualRecipeFormView.addInstruction.
    destruct (String.eqb_spec (ManualRecipeFormView.newInstructionText view) "");
      simpl; repeat split; try done; try lia.
    apply Forall_app. split; [done|]. by constructor.
Qed.

Lemma run_wellFormed (actions : list ManualRecipeFormView.Action)
    (view after : ManualRecipeFormView.State) :
  ManualRecipeFormView.wellFormed view ->
  ManualRecipeFormView.run view actions = Some after ->
  ManualRecipeFormView.wellFormed after.
Proof.
  revert view. unfold ManualRecipeFormView.run.
  induction actions as [|action actions IH]; intros view Hview; simpl.
  { by intros [= <-]. }
  destruct (ManualRecipeFormView.act view action) as [next|] eqn:Hnext.
  - apply IH. by eapply act_wellFormed.
  - intros Hrun. exfalso. clear -Hrun. by induction actions.
Qed.

(** X30.  A form that opened empty stays well formed whatever is done with
    its controls: its details stay within the ranges of their steppers,
    every ingredient row has an item and every instruction row a text, and
    no instruction row has minutes or a tip, as no control sets them.  So
    saving it either stores nothing, or inserts one recipe with 1 to 20
    servings, at most 300 and 480 minutes of preparation and cooking, a
    total time that does not trap, at least one ingredient, all with an
    item, and at least one instruction, all with a text and none with
    minutes or a tip. *)
Theorem recipes_of_the_form_are_well_formed
    (actions : list ManualRecipeFormView.Action) (view : ManualRecipeFormView.State)
    (effects : list Effect) :
  ManualRecipeFormView.run (ManualRecipeFormView.init None) actions = Some view ->
  ManualRecipeFormView.wellFormed view
  /\ ((ManualRecipeFormView.saveRecipe view effects).2 = effects
      \/ exists recipe,
           (ManualRecipeFormView.saveRecipe view effects).2
           = (effects ++ [insertRecipe recipe; dismiss])%list
           /\ (1 <= servings recipe <= 20)%Z
           /\ (0 <= prepTime recipe <= 300)%Z
           /\ (0 <= cookTime recipe <= 480)%Z
           /\ totalTime recipe = Some (prepTime recipe + cookTime recipe)%Z
           /\ ingredients recipe <> []
           /\ Forall (fun ingredient => item ingredient <> "") (ingredients recipe)
           /\ instructions recipe <> []
           /\ Forall
                (fun step =>
                   instruction step <> ""
                   /\ timeMinutes step = None
                   /\ tip step = None)
                (instructions recipe)).
Proof.
  intros Hrun.
  assert (ManualRecipeFormView.wellFormed view) as Hview.
  { eapply run_wellFormed; [|exact Hrun].
    unfold ManualRecipeFormView.wellFormed. simpl. repeat split; by try lia. }
  split; [exact Hview|].
  destruct Hview as (Hnew & Hprep & Hcook & Hservings & Hingredients & Hinstructions).
  destruct (decide (trimmingWhitespaces (ManualRecipeFormView.title view) <> ""
                    /\ ManualRecipeFormView.ingredients view <> []
                    /\ ManualRecipeFormView.instructions view <> []))
    as [(Htitle & Hsome & Hsteps)|Hinvalid].
  - right. rewrite saveRecipe_creates by done. eexists. split; [reflexivity|]. simpl.
    do 3 (split; [done|]).
    split.
    { unfold totalTime, Int_add. simpl.
      by rewrite Int_fits_natural by (pose proof (eq_refl : Int_max = 9223372036854775807%Z); lia). }
    split; [by destruct (ManualRecipeFormView.ingredients view)|].
    split; [by apply Forall_fmap|].
    split; [by destruct (ManualRecipeFormView.instructions view)|].
    apply Forall_forall. intros step [index Hstep]%list_elem_of_lookup_1.
    rewrite list_lookup_imap in Hstep.
    destruct (ManualRecipeFormView.instructions view !! index) as [row|] eqn:Hrow;
      simplify_eq/=.
    apply list_elem_of_lookup_2 in Hrow.
    destruct (proj1 (Forall_forall _ _) Hinstructions row Hrow) as (Htext & -> & ->).
    by repeat split.
  - left.
    unfold ManualRecipeFormView.saveRecipe, ManualRecipeFormView.validateForm.
    destruct (String.eqb_spec
                (trimmingWhitespaces (ManualRecipeFormView.title view)) ""); [done|].
    destruct (bool_decide_reflect (ManualRecipeFormView.ingredients view = []));
      [done|].
    destruct (bool_decide_reflect (ManualRecipeFormView.instructions view = []));
      [done|].
    by destruct Hinvalid.
Qed.

End Form.

(** ** The flow layout *)

Section Flow.

Variable spacing : float.

Lemma computeRows_step_rowsUpTo (maxWidth : float) (next : Z)
    (rows : list FlowLayout.Row.t) (currentRow : FlowLayout.Row.t) (x : float)
    (size : CGSize.t) :
  rowsUpTo next rows currentRow ->
  exists rows' currentRow' x',
    FlowLayout.computeRows_step spacing maxWidth (Some (rows, currentRow, x))
      (next, size)
    = Some (rows', currentRow', x')
    /\ rowsUpTo (next + 1) rows' currentRow'.
Proof.
  intros ([Hlower Hnext] & Hupper & Hrows & Hfilled).
  unfold FlowLayout.computeRows_step. simpl.
  destruct (_ && _) eqn:Hbreak; simpl.
  - apply andb_prop in Hbreak as [_ Hcurrent%negb_true_iff].
    unfold Range.isEmpty in Hcurrent. apply Z.eqb_neq in Hcurrent.
    unfold Range.init. rewrite Z.leb_refl. simpl.
    destruct (Z.leb_spec next (next + 1)); [|lia]. simpl.
    eexists _, _, _. split; [reflexivity|].
    repeat split; simpl; try lia.
    + rewrite fmap_app, concat_app, Hrows. simpl. rewrite app_nil_r.
      unfold Range.indices. rewrite Hupper.
      rewrite <- (seqZ_app 0) by lia. f_equal. lia.
    + apply Forall_app. split; [done|]. constructor; [lia|done].
  - unfold Range.init.
    destruct (Z.leb_spec (Range.lowerBound (FlowLayout.Row.range currentRow))
                (next + 1)); [|lia]. simpl.
    eexists _, _, _. split; [reflexivity|].
    repeat split; simpl; try lia; done.
Qed.

Lemma computeRows_loop (maxWidth : float) (subviews : list CGSize.t) (offset : nat)
    (rows : list FlowLayout.Row.t) (currentRow : FlowLayout.Row.t) (x : float) :
  rowsUpTo (Z.of_nat offset) rows currentRow ->
  exists rows' currentRow' x',
    foldl (FlowLayout.computeRows_step spacing maxWidth) (Some (rows, currentRow, x))
      (imap (fun index element => (Z.of_nat (offset + index), element)) subviews)
    = Some (rows', currentRow', x')
    /\ rowsUpTo (Z.of_nat (offset + length subviews)) rows' currentRow'.
Proof.
  revert offset rows currentRow x.
  induction subviews as [|size subviews IH]; intros offset rows currentRow x Hrows.
  { eexists _, _, _. split; [reflexivity|]. simpl. by rewrite Nat.add_0_r. }
  rewrite imap_cons. cbn [foldl]. rewrite Nat.add_0_r.
  destruct (computeRows_step_rowsUpTo maxWidth _ _ _ x size Hrows)
    as (rows1 & currentRow1 & x1 & -> & Hrows1).
  rewrite (imap_ext _ (fun index element => (Z.of_nat (S offset + index), element)))
    by (intros; simpl; do 2 f_equal; lia).
  destruct (IH (S offset) rows1 currentRow1 x1) as (rows' & currentRow' & x' & Hloop & Hend).
  { by replace (Z.of_nat (S offset)) with (Z.of_nat offset + 1)%Z by lia. }
  eexists _, _, _. split; [exact Hloop|].
  simpl length. by replace (offset + S (length subviews))%nat
    with (S offset + length subviews)%nat by lia.
Qed.

Lemma computeRows_rows (proposal : ProposedViewSize.t) (subviews : list CGSize.t) :
  exists rows,
    FlowLayout.computeRows spacing proposal subviews = Some rows
    /\ concat ((fun row => Range.indices (FlowLayout.Row.range row)) <$> rows)
       = seqZ 0 (Z.of_nat (length subviews))
    /\ Forall
         (fun row =>
            (Range.lowerBound (FlowLayout.Row.range row)
             < Range.upperBound (FlowLayout.Row.range row))%Z)
         rows.
Proof.
  unfold FlowLayout.computeRows, enumerated. simpl.
  destruct (computeRows_loop (ProposedViewSize.width proposal ?? 0%float) subviews 0 []
              {| FlowLayout.Row.range := {| Range.lowerBound := 0; Range.upperBound := 0 |};
                 FlowLayout.Row.height := 0 |} 0%float)
    as (rows & currentRow & x & Hloop & [Hlower Hnext] & Hupper & Hrows & Hfilled).
  { repeat split; simpl; try lia; done. }
  simpl in Hloop. rewrite Hloop. simpl.
  unfold Range.isEmpty.
  destruct (Z.eqb_spec (Range.lowerBound (FlowLayout.Row.range currentRow))
              (Range.upperBound (FlowLayout.Row.range currentRow))) as [Hempty|Hcurrent];
    simpl; eexists; (split; [reflexivity|]).
  - split; [|done]. rewrite Hrows. f_equal. lia.
  - split.
    + rewrite fmap_app, concat_app, Hrows. simpl. rewrite app_nil_r.
      unfold Range.indices. rewrite Hupper.
      rewrite <- (seqZ_app 0) by lia. f_equal. lia.
    + apply Forall_app. split; [done|]. constructor; [lia|done].
Qed.

Lemma placeRow_loop (subviews : list CGSize.t) (y : float) (indices : list Z)
    (placed : list FlowLayout.Placement) (x : float) :
  Forall (fun index => 0 <= index < Z.of_nat (length subviews))%Z indices ->
  exists news x',
    foldl (FlowLayout.placeRow spacing subviews y) (Some (placed, x)) indices
    = Some ((placed ++ news)%list, x')
    /\ FlowLayout.index <$> news = indices
    /\ Forall (placedAt subviews y) news
    /\ (forall first, head news = Some first ->
        CGPoint.x (FlowLayout.at_ first) = x).
Proof.
  intros Hindices. revert placed x.
  induction Hindices as [|index indices [Hlower Hupper] _ IH]; intros placed x.
  { exists [], x. rewrite app_nil_r. by repeat split. }
  cbn [foldl]. unfold FlowLayout.placeRow at 2. simpl.
  destruct (Z.leb_spec 0 index); [|lia].
  destruct (lookup_lt_is_Some_2 subviews (Z.to_nat index)) as [size Hsize]; [lia|].
  rewrite Hsize. simpl.
  match goal with
  | |- context [foldl _ (Some (?placed1, ?x1)) indices] =>
      destruct (IH placed1 x1) as (news & x' & -> & Hnews & Hplaced & _)
  end.
  eexists (_ :: news), x'. rewrite <- app_assoc. split; [reflexivity|].
  split; [by rewrite fmap_cons, Hnews|]. split.
  - constructor; [|done]. by exists size.
  - by intros first [= <-].
Qed.

Lemma placeRows_loop (subviews : list CGSize.t) (minX : float)
    (rows : list FlowLayout.Row.t) (placed : list FlowLayout.Placement) (y : float) :
  Forall (fun index => 0 <= index < Z.of_nat (length subviews))%Z
    (concat ((fun row => Range.indices (FlowLayout.Row.range row)) <$> rows)) ->
  Forall
    (fun row =>
       (Range.lowerBound (FlowLayout.Row.range row)
        < Range.upperBound (FlowLayout.Row.range row))%Z)
    rows ->
  exists news y',
    foldl
      (fun state row =>
         '(placed, y) ← state;
         '(placed, _) ←
           foldl (FlowLayout.placeRow spacing subviews y) (Some (placed, minX))
             (Range.indices (FlowLayout.Row.range row));
         Some (placed, (y + (FlowLayout.Row.height row + spacing))%float))
      (Some (placed, y)) rows
    = Some ((placed ++ news)%list, y')
    /\ FlowLayout.index <$> news
       = concat ((fun row => Range.indices (FlowLayout.Row.range row)) <$> rows)
    /\ Forall (fun placement => exists y, placedAt subviews y placement) news
    /\ (forall first, head news = Some first ->
        FlowLayout.at_ first = {| CGPoint.x := minX; CGPoint.y := y |}).
Proof.
  revert placed y. induction rows as [|row rows IH]; intros placed y Hindices Hfilled.
  { exists [], y. rewrite app_nil_r. by repeat split. }
  rewrite fmap_cons, concat_cons in Hindices.
  apply Forall_app in Hindices as [Hrow Hrest].
  apply Forall_cons in Hfilled as [Hfirst Hfilled].
  cbn [foldl]. simpl.
  destruct (placeRow_loop subviews y _ placed minX Hrow)
    as (news1 & x1 & -> & Hnews1 & Hplaced1 & Hhead1).
  simpl.
  match goal with
  | |- context [foldl _ (Some (?placed1, ?y1)) rows] =>
      destruct (IH placed1 y1 Hrest Hfilled) as (news & y' & -> & Hnews & Hplaced & _)
  end.
  exists (news1 ++ news)%list, y'. rewrite <- app_assoc. split; [reflexivity|].
  split; [by rewrite fmap_app, Hnews1, Hnews|]. split.
  - apply Forall_app. split; [|done].
    eapply Forall_impl; [exact Hplaced1|]. intros placement Hplacement. by exists y.
  - destruct news1 as [|first1 news1].
    { apply (f_equal length) in Hnews1. unfold Range.indices in Hnews1.
      rewrite length_seqZ in Hnews1. simpl in Hnews1. lia. }
    intros first [= <-].
    apply Forall_cons in Hplaced1 as [(size & _ & _ & _ & Hy) _].
    specialize (Hhead1 first1 eq_refl).
    destruct (FlowLayout.at_ first1). simpl in *. by subst.
Qed.

(** X28.  [computeRows] never traps, and the rows it returns partition the
    subviews: every row is a range that is not empty, and the ranges follow
    each other from the first subview to the last, whatever the sizes, the
    spacing and the proposed width. *)
Theorem rows_partition_the_subviews (proposal : ProposedViewSize.t)
    (subviews : list CGSize.t) :
  exists rows,
    FlowLayout.computeRows spacing proposal subviews = Some rows
    /\ concat ((fun row => Range.indices (FlowLayout.Row.range row)) <$> rows)
       = seqZ 0 (Z.of_nat (length subviews))
    /\ Forall
         (fun row =>
            (Range.lowerBound (FlowLayout.Row.range row)
             < Range.upperBound (FlowLayout.Row.range row))%Z)
         rows.
Proof. apply computeRows_rows. Qed.

(** X29.  [placeSubviews] never traps and places every subview exactly
    once, in the order of the subviews, proposing to each its own size; the
    first subview goes to the corner of the bounds. *)
Theorem every_subview_is_placed_once (bounds : CGRect.t)
    (proposal : ProposedViewSize.t) (subviews : list CGSize.t) :
  exists placements,
    FlowLayout.placeSubviews spacing bounds proposal subviews = Some placements
    /\ FlowLayout.index <$> placements = seqZ 0 (Z.of_nat (length subviews))
    /\ Forall
         (fun placement =>
            exists size,
              subviews !! Z.to_nat (FlowLayout.index placement) = Some size
              /\ FlowLayout.proposal placement = ProposedViewSize.init size)
         placements
    /\ (forall first,
          head placements = Some first ->
          FlowLayout.at_ first
          = {| CGPoint.x := CGRect.minX bounds; CGPoint.y := CGRect.minY bounds |}).
Proof.
  destruct (computeRows_rows proposal subviews) as (rows & Hrows & Hindices & Hfilled).
  unfold FlowLayout.placeSubviews. rewrite Hrows. simpl.
  destruct (placeRows_loop subviews (CGRect.minX bounds) rows [] (CGRect.minY bounds))
    as (news & y' & Hloop & Hnews & Hplaced & Hhead); [|done|].
  { rewrite Hindices. apply Forall_forall. intros index Hindex%elem_of_seqZ. lia. }
  rewrite Hloop. simpl. exists news. split; [done|].
  split; [by rewrite Hnews|]. split; [|done].
  eapply Forall_impl; [exact Hplaced|].
  intros placement (y & size & _ & Hsize & Hproposal & _). by exists size.
Qed.

End Flow.

(** ** The canned platforms at work *)

Lemma status_other_than_200_is_thrown_witness :
  (generateRecipe (H := Throttled.foundation) ["rice"] None easy 20 Sample.signedIn).1
  = throw (httpError 429)
  /\ (chatWithRecipe (H := Throttled.foundation) Counter.bowl "How long?" []
        Sample.signedIn).1
     = throw (httpError 429)
  /\ (findSubstitutions (H := Throttled.foundation) "heavy cream" ["Vegan"]
        Sample.signedIn).1
     = throw (httpError 429).
Proof.
  destruct (status_other_than_200_is_thrown (H := Throttled.foundation)
              Sample.signedIn Counter.request "Too Many Requests" 429)
    as (Hgenerate & Hchat & Hfind); [reflexivity|done|].
  split; [|split].
  - apply Hgenerate. by vm_compute.
  - apply Hchat. by vm_compute.
  - apply Hfind. by vm_compute.
Defined.

Lemma answer_200_is_parsed_witness :
  (generateRecipe (H := Sample.foundation) ["rice"] None easy 20 Sample.signedIn).1
  = returns (parseRecipe ∅).
Proof.
  destruct (answer_200_is_parsed (H := Sample.foundation)
              Sample.signedIn Counter.request Sample.httpBody (Sample.envelopeOf "{}"))
    as [Hgenerate _]; [reflexivity|by vm_compute|].
  apply Hgenerate; by vm_compute.
Defined.

Lemma chat_answers_with_the_text_witness :
  (chatWithRecipe (H := Sample.foundation) Counter.bowl "How long?" []
     Sample.signedIn).1
  = returns "{}".
Proof.
  destruct (chat_answers_with_the_text (H := Sample.foundation)
              Counter.bowl "How long?" [] Sample.signedIn) as [_ Hanswer].
  rewrite (Hanswer Counter.request Sample.httpBody (Sample.envelopeOf "{}"));
    by vm_compute.
Defined.

Lemma screens_without_a_key_witness :
  (exists after,
     AIGenerationView.generateRecipe (H := Sample.foundation) (H0 := Counter.toolkit)
       Counter.generation [] Sample.signedOut
     = (after, [], Sample.signedOut)
     /\ AIGenerationView.errorMessage after
        = Some "Please add your Gemini API key in Settings")
  /\ (exists after,
        ChatView.sendMessage (H := Sample.foundation) Counter.chat Sample.signedOut
        = (after, Sample.signedOut)
        /\ last (ChatView.messages after)
           = Some {| role := assistant;
                     content := "Sorry, I encountered an error. Please try again." |}).
Proof.
  destruct (screens_without_a_key (H := Sample.foundation) (H0 := Counter.toolkit)
              Sample.signedOut) as (Hgeneration & _ & Hchat); [reflexivity|].
  split.
  - destruct (Hgeneration Counter.generation []) as (after & Hrun & Hmessage & _).
    by exists after.
  - destruct (Hchat Counter.chat) as (after & Hrun & Hlast);
      [reflexivity|by vm_compute|].
    by exists after.
Defined.

Lemma screens_show_the_status_witness :
  AIGenerationView.errorMessage
    (AIGenerationView.generateRecipe (H := Throttled.foundation)
       (H0 := Counter.toolkit) Counter.generation [] Sample.signedIn).1.1
  = Some "HTTP Error: 429"
  /\ SubstitutionView.errorMessage
       (SubstitutionView.findSubstitutions (H := Throttled.foundation)
          (H0 := Counter.toolkit) Counter.substitution Sample.signedIn).1
     = Some "HTTP Error: 429".
Proof.
  destruct (screens_show_the_status (H := Throttled.foundation) (H0 := Counter.toolkit)
              Sample.signedIn Counter.request "Too Many Requests" 429)
    as (Hgeneration & Hsubstitution & _); [reflexivity|done|].
  split.
  - apply Hgeneration. by vm_compute.
  - apply Hsubstitution. by vm_compute.
Defined.

Lemma chat_prompt_repeats_the_question_witness :
  exists prompt,
    (ChatView.sendMessage (H := Sample.foundation) Counter.chat Sample.signedIn).2
    = (makeRequest (H := Sample.foundation) prompt "gemini-2.0-flash-exp"
         Sample.signedIn).2
    /\ contains prompt
         ("User: How long?" +:+ newline +:+ newline +:+ "User Question: How long?").
Proof.
  destruct (chat_prompt_repeats_the_question (H := Sample.foundation)
              Counter.chat Sample.signedIn) as (prompt & Hsent & Hrepeated);
    [reflexivity|by vm_compute|by vm_compute|].
  by exists prompt.
Defined.

Lemma selected_constraints_reach_the_prompt_witness :
  exists prompt,
    (SubstitutionView.findSubstitutions (H := Sample.foundation)
       (H0 := Counter.toolkit) Counter.substitution Sample.signedIn).2
    = (makeRequest (H := Sample.foundation) prompt "gemini-2.0-flash-exp"
         Sample.signedIn).2
    /\ contains prompt "heavy cream"
    /\ contains prompt "Vegan"
    /\ contains prompt "Nut-Free".
Proof.
  destruct (selected_constraints_reach_the_prompt (H := Sample.foundation)
              (H0 := Counter.toolkit) Counter.substitution Sample.signedIn)
    as (constraints & prompt & Hsent & _ & _ & _ & Hitem & Hselected);
    [by vm_compute|].
  exists prompt. split; [exact Hsent|]. split; [exact Hitem|]. split.
  - apply (Hselected SubstitutionConstraint.vegan). by apply (bool_decide_unpack _).
  - apply (Hselected SubstitutionConstraint.nutFree). by apply (bool_decide_unpack _).
Defined.

Lemma averageCookTime_is_the_mean_witness :
  SettingsView.averageCookTime [Counter.bowl; parseRecipe ∅] = Some 40%Z.
Proof.
  destruct (averageCookTime_is_the_mean [Counter.bowl; parseRecipe ∅] 35 45)
    as (_ & _ & Haverage & _); [done|lia| |by vm_compute|exact Haverage].
  repeat constructor; by vm_compute.
Defined.

Lemma servings_stay_in_range_witness :
  exists after,
    RecipeDetailView.taps (RecipeDetailView.init Counter.bowl)
      [RecipeDetailView.minus; RecipeDetailView.minus; RecipeDetailView.minus;
       RecipeDetailView.plus]
    = Some after
    /\ (1 <= RecipeDetailView.servings after <= 6)%Z.
Proof.
  destruct (servings_stay_in_range Counter.bowl
              [RecipeDetailView.minus; RecipeDetailView.minus; RecipeDetailView.minus;
               RecipeDetailView.plus])
    as (after & Hafter & _ & Hrange); [by vm_compute|by vm_compute|].
  exists after. split; [exact Hafter|]. exact Hrange.
Defined.

Lemma new_recipe_is_what_the_form_holds_witness :
  exists recipe,
    ManualRecipeFormView.saveRecipe (H0 := Counter.toolkit) Counter.form []
    = (Counter.form, [insertRecipe recipe; dismiss])
    /\ title recipe = "Fried rice"
    /\ sourceType recipe = original
    /\ recipeDescription recipe = None
    /\ item <$> ingredients recipe = ["rice"; "eggs"]
    /\ unit <$> ingredients recipe = [Some "cups"; None]
    /\ stepNumber <$> instructions recipe = [1; 2]%Z
    /\ timeMinutes <$> instructions recipe = [Some 12%Z; None].
Proof.
  destruct (new_recipe_is_what_the_form_holds (H0 := Counter.toolkit) Counter.form [])
    as (recipe & Hsaved & Htitle & Hsource & _ & _ & _ & _ & _ & _ & _ & Hdescription
        & _ & Hitems & _ & Hunits & _ & _ & Hsteps & Hminutes & _);
    [reflexivity|reflexivity|by vm_compute|done|done|].
  by exists recipe.
Defined.

Lemma editing_gives_the_recipe_back_witness :
  exists after saved,
    ManualRecipeFormView.saveRecipe (H0 := Counter.toolkit)
      (ManualRecipeFormView.init (H := Sample.foundation) (Some Counter.bowl)) []
    = (after,
       (deleteIngredient <$> ingredients Counter.bowl)
       ++ (deleteInstruction <$> instructions Counter.bowl) ++ [dismiss])%list
    /\ ManualRecipeFormView.recipeToEdit after = Some saved
    /\ title saved = "Chicken Rice Bowl".
Proof.
  destruct (editing_gives_the_recipe_back (H := Sample.foundation)
              (H0 := Counter.toolkit) Counter.bowl [])
    as (after & saved & news & steps & Hsaved & Hedited & Htitle & _);
    [reflexivity|by vm_compute|done|done| |].
  - repeat constructor. intros minutes Hminutes. by vm_compute in Hminutes.
  - by exists after, saved.
Defined.

Lemma recipes_of_the_form_are_well_formed_witness :
  exists view recipe,
    ManualRecipeFormView.run
      (ManualRecipeFormView.init (H := Sample.foundation) None) Counter.typing
    = Some view
    /\ (ManualRecipeFormView.saveRecipe (H0 := Counter.toolkit) view []).2
       = [insertRecipe recipe; dismiss]
    /\ servings recipe = 4%Z
    /\ instruction <$> instructions recipe = ["Boil"; "Fry"]
    /\ Forall (fun step => timeMinutes step = None) (instructions recipe).
Proof.
  destruct (ManualRecipeFormView.run
              (ManualRecipeFormView.init (H := Sample.foundation) None) Counter.typing)
    as [view|] eqn:Hrun; [|by vm_compute in Hrun].
  destruct (recipes_of_the_form_are_well_formed (H := Sample.foundation)
              (H0 := Counter.toolkit) Counter.typing view [] Hrun)
    as [_ [Hnothing|(recipe & Hsaved & _ & _ & _ & _ & _ & _ & _ & Hsteps)]].
  - vm_compute in Hrun. injection Hrun as <-. by vm_compute in Hnothing.
  - exists view, recipe. split; [reflexivity|]. split; [exact Hsaved|].
    vm_compute in Hrun. injection Hrun as <-.
    vm_compute in Hsaved. injection Hsaved as <-.
    split; [reflexivity|]. split; [reflexivity|].
    eapply Forall_impl; [exact Hsteps|]. by intros step (_ & ? & _).
Defined.

Lemma parseMealType_recognises_witness :
  parseMealType (Some "DINNER") = Some dinner
  /\ parseMealType (Some "supper") <> Some dinner.
Proof.
  split.
  - by apply (parseMealType_recognises "DINNER" dinner).
  - intros Hfound.
    by apply (parseMealType_recognises "supper" dinner) in Hfound.
Defined.

Lemma parseSubstitutionCategory_recognises_witness :
  parseSubstitutionCategory (Some "Kosher") = kosher
  /\ parseSubstitutionCategory (Some "kosher") = preference.
Proof.
  split.
  - apply (parseSubstitutionCategory_recognises (Some "Kosher") kosher).
    + by intros text [= <-].
    + by left.
  - apply (parseSubstitutionCategory_recognises (Some "kosher") preference).
    + by intros text [= <-].
    + right. split; [done|]. by intros [].
Defined.

Lemma ingredientsList_entries_witness :
  AIGenerationView.ingredientsList Counter.generation = ["rice"; "eggs"]
  /\ Forall
       (fun entry =>
          entry <> ""
          /\ trimmingWhitespacesAndNewlines entry = entry
          /\ contains (AIGenerationView.ingredientsText Counter.generation) entry)
       (AIGenerationView.ingredientsList Counter.generation)
  /\ AIGenerationView.generateDisabled Counter.generation <> true.
Proof.
  destruct (ingredientsList_entries Counter.generation) as [Hentries Hdisabled];
    [reflexivity|].
  split; [reflexivity|]. split; [exact Hentries|].
  intros [Hblank|Hbusy]%Hdisabled; by vm_compute in *.
Defined.

Lemma chat_appends_question_and_answer_witness :
  exists after w',
    ChatView.sendMessage (H := Sample.foundation) Counter.chat Sample.signedIn
    = (after, w')
    /\ ChatView.messages after
       = [{| role := user; content := "How long?" |};
          {| role := assistant; content := "{}" |}]
    /\ ChatView.inputText after = "".
Proof.
  destruct (chat_appends_question_and_answer (H := Sample.foundation)
              Counter.chat Sample.signedIn) as [_ Hasked]; [reflexivity|].
  destruct Hasked
    as (outcome & reply & after & w' & Hcalled & Hrun & _ & Hmessages & Hreply
        & Hinput & _); [by vm_compute|].
  exists after, w'. split; [exact Hrun|]. split; [|exact Hinput].
  rewrite Hmessages, Hreply. vm_compute in Hcalled. by injection Hcalled as <- _.
Defined.


Lemma form_is_validated_before_saving_witness :
  last (ManualRecipeFormView.saveRecipe (H0 := Counter.toolkit) Counter.form []).2
  = Some dismiss
  /\ (ManualRecipeFormView.saveRecipe (H0 := Counter.toolkit)
        (ManualRecipeFormView.init (H := Sample.foundation) None) []).2
     = [].
Proof.
  split.
  - destruct (form_is_validated_before_saving (H0 := Counter.toolkit) Counter.form [])
      as [Hvalid _]; [reflexivity|].
    by destruct Hvalid as [Hlast _]; [by vm_compute|].
  - destruct (form_is_validated_before_saving (H0 := Counter.toolkit)
                (ManualRecipeFormView.init (H := Sample.foundation) None) [])
      as [_ Hinvalid]; [reflexivity|].
    rewrite Hinvalid; [done|]. by intros [Htitle _].
Defined.
